(** * Source-mention correlation pipeline: a shallow embedding

    The development follows [fetch_correlation_data.py]: the remote data
    client ([api_call]), the citation parser ([parse_resources]), the
    dataset filter inside [fetch_queries_execution_data], the record
    enricher ([analyze_data]), the aggregator ([generate_summary_stats]),
    the result writer ([save_results]) and the orchestrator ([main]).

    Modelling choices.
    - A decoded JSON document is a [pyval]; a Python [dict] with string
      keys is a [gmap string pyval].
    - Python [int]s are [Z].  A [float] that only travels through the
      pipeline (a payload number) is a primitive binary64 [float].
    - The development has two layers.  The first ([Section Analysis],
      the aggregator, [Section Pipeline]) gives the values the functions
      compute on the runs in which [json.loads] returns or raises
      [JSONDecodeError], every line of the tabular export can be encoded,
      and ratios are exact: there [json.loads] is a section variable with
      [None] standing for [JSONDecodeError], and percentages and means
      are rationals [Q], the numbers the interpreter's doubles round.
    - The second layer lifts these restrictions.  Module [Full] has the
      parser, the filter, the enricher, the writer and the orchestrator
      with the exceptions that escape them: the [ValueError] and
      [RecursionError] of [json.loads], which the handler of
      [parse_resources] does not catch, and the [UnicodeEncodeError] of a
      line that cannot be encoded.  Module [Double] has the percentages and
      the means of the summary in binary64, added in list order.
    - Console progress lines that carry no decision are left out; the
      diagnostics of the fetch stage and the files written are kept.  The
      console takes every line. *)

From Stdlib Require Import ZArith QArith Lqa Floats Ascii.
From Stdlib Require Uint63.
From stdpp Require Import base option list gmap strings.

Set Warnings "-register-all".
Local Open Scope Z_scope.

(** ** Python values *)

Inductive pyval : Type :=
| PNone
| PBool (b : bool)
| PInt (z : Z)
| PFloat (f : float)
| PStr (s : string)
| PList (l : list pyval)
| PDict (d : gmap string pyval).

(** A raw execution record, as decoded from the API response. *)
Abbreviation rawrec := (gmap string pyval).

(** [bool(v)] / [if v:] *)
Definition truthy (v : pyval) : bool :=
  match v with
  | PNone => false
  | PBool b => b
  | PInt z => negb (z =? 0)
  | PFloat f => negb (PrimFloat.eqb f 0%float)
  | PStr s => match s with EmptyString => false | String _ _ => true end
  | PList l => match l with [] => false | _ :: _ => true end
  | PDict d => negb (bool_decide (d = ∅))
  end.

(** [isinstance(v, dict)] *)
Definition is_dict (v : pyval) : bool :=
  match v with PDict _ => true | _ => false end.

(** [isinstance(v, str)] *)
Definition is_str (v : pyval) : bool :=
  match v with PStr _ => true | _ => false end.

(** [d.get(k, dflt)]; [d.get(k)] is [get d k PNone]. *)
Definition get (d : gmap string pyval) (k : string) (dflt : pyval) : pyval :=
  default dflt (d !! k).

(** ** Enriched records *)

(** One entry of [sources_details]. *)
Record source_detail : Type := SourceDetail {
  url : pyval;
  domain : pyval;
  is_customer_mentioned : bool
}.

(** The dictionary [record] that [analyze_data] builds for one execution. *)
Record enriched : Type := Enriched {
  id_ : pyval;
  query_id : pyval;
  query_group_id : pyval;
  execution_id : pyval;
  create_date : pyval;
  product_in_results : pyval;
  brand_in_response : bool;
  resources_raw : pyval;
  resources_log : pyval;
  product_result_raw_log : pyval;
  competitors_log : pyval;
  query_results_log : pyval;
  bd_response_log : pyval;
  run_log : pyval;
  competitors_raw : pyval;
  resources_parsed : list pyval;
  total_sources : Z;
  sources_with_brand : Z;
  sources_details : list source_detail;
  brand_mention_percentage : Q
}.

(** [len(l)] *)
Definition len {A} (l : list A) : Z := Z.of_nat (length l).

Section Analysis.

(** [json.loads]: [None] when it raises [JSONDecodeError].  The other
    exceptions it can raise are in module [Full]. *)
Variable json_loads : string -> option pyval.

(** ** Citation parser *)

(** Lines 94-102: the shape dispatch on the decoded payload. *)
Definition resources_of_parsed (parsed : pyval) : list pyval :=
  match parsed with
  | PDict d =>
      match d !! "resources" with
      | Some (PList l) => l
      | Some _ => []
      | None => [parsed]
      end
  | PList l => l
  | _ => []
  end.

(** Lines 88-91: a string is decoded, anything else is taken as it is. *)
Definition decode_payload (resources_data : pyval) : option pyval :=
  match resources_data with
  | PStr s => json_loads s
  | _ => Some resources_data
  end.

Definition parse_resources (resources_data : pyval) : list pyval :=
  if negb (truthy resources_data) then []
  else
    match decode_payload resources_data with
    | Some parsed => resources_of_parsed parsed
    | None => [] (* except (json.JSONDecodeError, TypeError) *)
    end.

(** ** Record enricher *)

(** The loop state of lines 194-209: the counter and the details list. *)
Definition scan_state : Type := Z * list source_detail.

(** One iteration of [for resource in resources]. *)
Definition scan_step (st : scan_state) (resource : pyval) : scan_state :=
  match resource with
  | PDict d =>
      let is_mentioned := truthy (get d "is_customer_mentioned" (PBool false)) in
      ((if is_mentioned then st.1 + 1 else st.1),
       st.2 ++ [SourceDetail (get d "url" (PStr "")) (get d "Domain" (PStr ""))
                             is_mentioned])
  | _ => st
  end.

Definition scan_resources (resources : list pyval) : scan_state :=
  fold_left scan_step resources (0, []).

(** Lines 215-218. *)
Definition percentage (with_brand total : Z) : Q :=
  if total >? 0 then (inject_Z with_brand / inject_Z total * 100)%Q else 0%Q.

(** The body of the loop of [analyze_data] for one raw record. *)
Definition enrich (qe : rawrec) : enriched :=
  let resources := parse_resources (get qe "resources" PNone) in
  let st := scan_resources resources in
  {| id_ := get qe "id" PNone;
     query_id := get qe "query_id" PNone;
     query_group_id := get qe "query_group_id" PNone;
     execution_id := get qe "execution_id" PNone;
     create_date := get qe "create_date" PNone;
     product_in_results := get qe "product_in_results" (PInt 0);
     brand_in_response := truthy (get qe "product_in_results" (PInt 0));
     resources_raw := get qe "resources" PNone;
     resources_log := get qe "resources_log" PNone;
     product_result_raw_log := get qe "product_result_raw_log" PNone;
     competitors_log := get qe "competitors_log" PNone;
     query_results_log := get qe "query_results_log" PNone;
     bd_response_log := get qe "bd_response_log" PNone;
     run_log := get qe "run_log" PNone;
     competitors_raw := get qe "competitors" PNone;
     resources_parsed := resources;
     total_sources := len resources;
     sources_with_brand := st.1;
     sources_details := st.2;
     brand_mention_percentage := percentage st.1 (len resources) |}.

(** [results = []; for qe in ...: results.append(record)]. *)
Definition analyze_data (queries_execution_data : list rawrec) : list enriched :=
  fold_left (fun results qe => results ++ [enrich qe]) queries_execution_data [].

End Analysis.

(** ** Aggregator *)

Record summary : Type := Summary {
  total_records : Z;
  records_with_brand_in_response : Z;
  records_without_brand_in_response : Z;
  note : string;
  avg_sources_when_mentioned : Q;
  avg_sources_when_not_mentioned : Q;
  avg_brand_sources_when_mentioned : Q;
  avg_brand_sources_when_not_mentioned : Q;
  avg_brand_pct_when_mentioned : Q;
  avg_brand_pct_when_not_mentioned : Q
}.

(** [sum(...)] over integers and over ratios, left to right from [0]. *)
Definition sum_Z (l : list Z) : Z := fold_left Z.add l 0.
Definition sum_Q (l : list Q) : Q := fold_left Qplus l 0%Q.

(** Lines 236-237. *)
Definition mentioned_group (analyzed_data : list enriched) : list enriched :=
  List.filter brand_in_response analyzed_data.
Definition not_mentioned_group (analyzed_data : list enriched) : list enriched :=
  List.filter (fun r => negb (brand_in_response r)) analyzed_data.

(** [sum(r[k] for r in group) / len(group)] under [if group:], the
    entry keeping its initial [0] otherwise. *)
Definition avg_Z (k : enriched -> Z) (group : list enriched) : Q :=
  match group with
  | [] => 0%Q
  | _ :: _ => (inject_Z (sum_Z (map k group)) / inject_Z (len group))%Q
  end.
Definition avg_Q (k : enriched -> Q) (group : list enriched) : Q :=
  match group with
  | [] => 0%Q
  | _ :: _ => (sum_Q (map k group) / inject_Z (len group))%Q
  end.

Definition generate_summary_stats (analyzed_data : list enriched) : summary :=
  let total := len analyzed_data in
  let with_response_mention :=
    sum_Z (map (fun _ => 1) (List.filter brand_in_response analyzed_data)) in
  {| total_records := total;
     records_with_brand_in_response := with_response_mention;
     records_without_brand_in_response := total - with_response_mention;
     note := "All records have sources (records without sources were excluded)";
     avg_sources_when_mentioned :=
       avg_Z total_sources (mentioned_group analyzed_data);
     avg_sources_when_not_mentioned :=
       avg_Z total_sources (not_mentioned_group analyzed_data);
     avg_brand_sources_when_mentioned :=
       avg_Z sources_with_brand (mentioned_group analyzed_data);
     avg_brand_sources_when_not_mentioned :=
       avg_Z sources_with_brand (not_mentioned_group analyzed_data);
     avg_brand_pct_when_mentioned :=
       avg_Q brand_mention_percentage (mentioned_group analyzed_data);
     avg_brand_pct_when_not_mentioned :=
       avg_Q brand_mention_percentage (not_mentioned_group analyzed_data) |}.

(** ** Effects: console, files, exceptions *)

(** The exceptions the pipeline can let escape. *)
Inductive exn : Type :=
| AttributeError
| TypeError
| ZeroDivisionError
| OSError
| ValueError
| RecursionError
| UnicodeEncodeError.

(** What one run prints that bears on a decision. *)
Inductive message : Type :=
| WarnApiKeyNotSet
| WarnHttpError (code : Z) (reason : string)
| WarnResponse (excerpt : string)
| WarnApiError (description : string)
| InfoFetching (limit : Z)
| InfoFetched (n : Z)
| InfoFiltered (kept removed : Z)
| ErrFailedToFetch
| ErrNoDataFetched
| InfoSummary (s : summary)
| InfoSaved (path : string)
| InfoComplete.

(** A record of the full dump: every key of the enriched record but
    [sources_details], and [sources_summary] in its place. *)
Record clean_record : Type := CleanRecord {
  kept : enriched;
  sources_summary : list source_detail
}.

(** A data line of the tabular export. *)
Record csv_row : Type := CsvRow {
  csv_id : pyval;
  csv_query_id : pyval;
  csv_query_group_id : pyval;
  csv_execution_id : pyval;
  csv_brand_in_response : Z;
  csv_total_sources : Z;
  csv_sources_with_brand : Z;
  csv_brand_mention_percentage : Q
}.

Inductive content : Type :=
| FullData (records : list clean_record)
| SummaryData (s : summary)
| CsvData (rows : list csv_row).

Record file : Type := File { path : string; body : content }.

Record world : Type := World { console : list message; files : list file }.

Inductive outcome (A : Type) : Type :=
| Returned (a : A)
| Raised (e : exn).
Arguments Returned {A} a.
Arguments Raised {A} e.

(** A command: it runs in a world and leaves a world, with a value or an
    uncaught exception. *)
Definition io (A : Type) : Type := world -> outcome A * world.

Definition ret {A} (a : A) : io A := fun w => (Returned a, w).

Definition raise {A} (e : exn) : io A := fun w => (Raised e, w).

Definition bind {A B} (c : io A) (k : A -> io B) : io B :=
  fun w =>
    match c w with
    | (Returned a, w') => k a w'
    | (Raised e, w') => (Raised e, w')
    end.

Notation "x <- c ;; k" := (bind c (fun x => k))
  (at level 100, c at next level, right associativity).
Notation "c ;;; k" := (bind c (fun _ => k))
  (at level 100, right associativity).

Definition print (m : message) : io unit :=
  fun w => (Returned tt, World (console w ++ [m]) (files w)).

Definition lift {A} (o : outcome A) : io A := fun w => (o, w).

(** ** Remote data client *)

(** What the one network round trip of [urllib.request.urlopen] and
    [resp.read()] comes to. *)
Inductive http_outcome : Type :=
| HttpResponse (raw : string)
| HTTPError (code : Z) (reason : string) (error_body : option string)
| OtherError (description : string).

Definition API_BASE_URL : string := "https://chat-rank-api-dev.mindshare.so/tables".
Definition OUTPUT_DIR : string := "output".

(** [len(data)] on a decoded value. *)
Definition py_len (v : pyval) : outcome Z :=
  match v with
  | PStr s => Returned (Z.of_nat (String.length s))
  | PList l => Returned (len l)
  | PDict d => Returned (Z.of_nat (size d))
  | _ => Raised TypeError
  end.

(** Iterating a string yields its one-character strings. *)
Fixpoint py_chars (s : string) : list pyval :=
  match s with
  | EmptyString => []
  | String c rest => PStr (String c EmptyString) :: py_chars rest
  end.

(** [for record in data]: the items the loop visits. *)
Definition py_iter (v : pyval) : outcome (list pyval) :=
  match v with
  | PStr s => Returned (py_chars s)
  | PList l => Returned l
  | PDict d => Returned (PStr <$> (map_to_list d).*1)
  | _ => Raised TypeError
  end.

Section Pipeline.

Variable json_loads : string -> option pyval.
(** The process-wide credential. *)
Variable API_KEY : string.
(** The network, as seen from the one call: url and request body in. *)
Variable urlopen : string -> rawrec -> http_outcome.
(** [datetime.now().strftime("%Y%m%d_%H%M%S")] at saving time. *)
Variable timestamp : string.
(** Whether the file system lets a path be created and written. *)
Variable disk_accepts : string -> bool.

Definition api_call (endpoint : string) (body : rawrec) : io pyval :=
  let url := API_BASE_URL +:+ "/" +:+ endpoint +:+ "/" in
  if negb (truthy (PStr API_KEY)) then
    print WarnApiKeyNotSet;;; ret PNone
  else
    match urlopen url body with
    | HttpResponse raw =>
        match json_loads raw with
        | Some (PDict result) => ret (get result "data" (PDict result))
        | Some _ => print (WarnApiError "no attribute get");;; ret PNone
        | None => print (WarnApiError "undecodable body");;; ret PNone
        end
    | HTTPError code reason error_body =>
        print (WarnHttpError code reason);;;
        match error_body with
        | Some b => print (WarnResponse (String.substring 0 500 b))
        | None => ret tt
        end;;;
        ret PNone
    | OtherError description => print (WarnApiError description);;; ret PNone
    end.

(** ** Dataset filter *)

(** Lines 133-138 for one record of the decoded result set. *)
Definition has_sources (record : rawrec) : bool :=
  let resources_raw := get record "resources" PNone in
  if truthy resources_raw then
    let parsed := parse_resources json_loads resources_raw in
    len parsed >? 0
  else false.

(** Lines 131-138: the loop over the result set; [record.get] raises
    on an item that is not a dictionary. *)
Fixpoint filter_records (data : list pyval) (records_with_sources : list rawrec)
  : outcome (list rawrec) :=
  match data with
  | [] => Returned records_with_sources
  | PDict record :: rest =>
      filter_records rest
        (if has_sources record then records_with_sources ++ [record]
         else records_with_sources)
  | _ :: _ => Raised AttributeError
  end.

Definition request_body (limit : Z) (execution_id : pyval) : rawrec :=
  let body : rawrec :=
    <["tableName" := PStr "queries_execution"]>
    (<["is_deleted" := PInt 0]>
    (<["limit" := PInt limit]>
    (<["orderBy" := PStr "id"]>
    (<["order" := PStr "desc"]> ∅)))) in
  if truthy execution_id then <["execution_id" := execution_id]> body else body.

Definition fetch_queries_execution_data (limit : Z) (execution_id : pyval)
  : io (list rawrec) :=
  print (InfoFetching limit);;;
  data <- api_call "get-by" (request_body limit execution_id);;
  if truthy data then
    n <- lift (py_len data);;
    print (InfoFetched n);;;
    items <- lift (py_iter data);;
    records_with_sources <- lift (filter_records items []);;
    print (InfoFiltered (len records_with_sources) (n - len records_with_sources));;;
    ret records_with_sources
  else
    print ErrFailedToFetch;;; ret [].

(** ** Result writer *)

(** [os.makedirs(OUTPUT_DIR, exist_ok=True)] *)
Definition makedirs (dir : string) : io unit :=
  if disk_accepts dir then ret tt else raise OSError.

(** [with open(p, 'w') as f: ...] *)
Definition write_file (p : string) (c : content) : io unit :=
  fun w =>
    if disk_accepts p then (Returned tt, World (console w) (files w ++ [File p c]))
    else (Raised OSError, w).

Definition clean (record : enriched) : clean_record :=
  {| kept := record;
     sources_summary :=
       map (fun s => SourceDetail (url s) (domain s) (is_customer_mentioned s))
           (sources_details record) |}.

Definition csv_line (record : enriched) : csv_row :=
  {| csv_id := id_ record;
     csv_query_id := query_id record;
     csv_query_group_id := query_group_id record;
     csv_execution_id := execution_id record;
     csv_brand_in_response := if brand_in_response record then 1 else 0;
     csv_total_sources := total_sources record;
     csv_sources_with_brand := sources_with_brand record;
     csv_brand_mention_percentage := brand_mention_percentage record |}.

Definition full_data_path : string :=
  OUTPUT_DIR +:+ "/correlation_data_" +:+ timestamp +:+ ".json".
Definition summary_path : string :=
  OUTPUT_DIR +:+ "/summary_" +:+ timestamp +:+ ".json".
Definition csv_path : string :=
  OUTPUT_DIR +:+ "/correlation_data_" +:+ timestamp +:+ ".csv".

Definition save_results (analyzed_data : list enriched) (s : summary)
  : io (string * string * string) :=
  makedirs OUTPUT_DIR;;;
  write_file full_data_path (FullData (map clean analyzed_data));;;
  print (InfoSaved full_data_path);;;
  write_file summary_path (SummaryData s);;;
  print (InfoSaved summary_path);;;
  write_file csv_path (CsvData (map csv_line analyzed_data));;;
  print (InfoSaved csv_path);;;
  ret (full_data_path, summary_path, csv_path).

(** ** Orchestrator *)

(** Step 5 of [main]: the two shares divide by [total_records]. *)
Definition print_summary (s : summary) : io unit :=
  if total_records s =? 0 then raise ZeroDivisionError
  else print (InfoSummary s).

Definition main : io unit :=
  queries_execution_data <- fetch_queries_execution_data 5000 PNone;;
  match queries_execution_data with
  | [] => print ErrNoDataFetched
  | _ :: _ =>
      let analyzed_data := analyze_data json_loads queries_execution_data in
      let s := generate_summary_stats analyzed_data in
      print_summary s;;;
      _ <- save_results analyzed_data s;;
      print InfoComplete
  end.

End Pipeline.

(** The world a run starts in. *)
Definition fresh : world := World [] [].

(** ** Concrete inputs

    The payloads, records, responses and environments at which the
    pipeline is evaluated below. *)

Module Sample.

(** A JSON string literal: the text between double quotes. *)
Definition q (s : string) : string :=
  String "034"%char s +:+ String "034"%char EmptyString.

(** [{"Domain":"a.com","url":"http://a.com/x","is_customer_mentioned":true}] *)
Definition cited_a : rawrec :=
  <["Domain" := PStr "a.com"]>
  (<["url" := PStr "http://a.com/x"]>
  (<["is_customer_mentioned" := PBool true]> ∅)).

(** [{"Domain":"b.com","url":"http://b.com","is_customer_mentioned":false}] *)
Definition cited_b : rawrec :=
  <["Domain" := PStr "b.com"]>
  (<["url" := PStr "http://b.com"]>
  (<["is_customer_mentioned" := PBool false]> ∅)).

(** [{"id":1,"product_in_results":1,"resources":{"resources":[cited_a]}}] *)
Definition qe_wrapped : rawrec :=
  <["id" := PInt 1]>
  (<["product_in_results" := PInt 1]>
  (<["resources" := PDict (<["resources" := PList [PDict cited_a]]> ∅)]> ∅)).

(** [{"id":2,"resources":cited_b}]: a bare mapping, and no mention flag. *)
Definition qe_bare : rawrec :=
  <["id" := PInt 2]> (<["resources" := PDict cited_b]> ∅).

(** [{"id":3,"resources":null}] *)
Definition qe_null : rawrec :=
  <["id" := PInt 3]> (<["resources" := PNone]> ∅).

(** [{"id":4,"resources":[1]}]: a citation list holding a number. *)
Definition qe_scalar : rawrec :=
  <["id" := PInt 4]> (<["resources" := PList [PInt 1]]> ∅).

(** [{"id":5,"resources":[{"url":5}]}]: a citation whose url is a number. *)
Definition qe_numeric_url : rawrec :=
  <["id" := PInt 5]>
  (<["resources" := PList [PDict (<["url" := PInt 5]> ∅)]]> ∅).

(** [{"id":6,"resources":{}}]: the empty mapping as payload. *)
Definition qe_empty_mapping : rawrec :=
  <["id" := PInt 6]> (<["resources" := PDict ∅]> ∅).

(** [{"id":7,"resources":"not json"}] *)
Definition qe_garbled : rawrec :=
  <["id" := PInt 7]> (<["resources" := PStr "not json"]> ∅).

(** The response body [{"data": []}]. *)
Definition doc_no_rows : string := "{" +:+ q "data" +:+ ": []}".

(** The response body whose rows are [qe_wrapped], [qe_bare] and
    [qe_null], written out as JSON text. *)
Definition text_cited (dom u flag : string) : string :=
  "{" +:+ q "Domain" +:+ ": " +:+ q dom +:+ ", " +:+ q "url" +:+ ": " +:+ q u
  +:+ ", " +:+ q "is_customer_mentioned" +:+ ": " +:+ flag +:+ "}".
Definition text_wrapped : string :=
  "{" +:+ q "id" +:+ ": 1, " +:+ q "product_in_results" +:+ ": 1, "
  +:+ q "resources" +:+ ": {" +:+ q "resources" +:+ ": ["
  +:+ text_cited "a.com" "http://a.com/x" "true" +:+ "]}}".
Definition text_bare : string :=
  "{" +:+ q "id" +:+ ": 2, " +:+ q "resources" +:+ ": "
  +:+ text_cited "b.com" "http://b.com" "false" +:+ "}".
Definition text_null : string :=
  "{" +:+ q "id" +:+ ": 3, " +:+ q "resources" +:+ ": null}".
Definition doc_three_rows : string :=
  "{" +:+ q "data" +:+ ": [" +:+ text_wrapped +:+ ", " +:+ text_bare +:+ ", "
  +:+ text_null +:+ "]}".

Definition page_no_rows : pyval := PDict (<["data" := PList []]> ∅).
Definition page_three_rows : pyval :=
  PDict (<["data" := PList [PDict qe_wrapped; PDict qe_bare; PDict qe_null]]> ∅).

(** A decoder with a table of known documents: on [doc_no_rows] and
    [doc_three_rows] it returns what [json.loads] returns; it is applied
    to no other text but ["not json"], which fails to decode. *)
Definition table_loads (s : string) : option pyval :=
  if String.eqb s doc_no_rows then Some page_no_rows
  else if String.eqb s doc_three_rows then Some page_three_rows
  else None.

(** Networks. *)
Definition net_down : string -> rawrec -> http_outcome :=
  fun _ _ => OtherError "timed out".
Definition net_refusing : string -> rawrec -> http_outcome :=
  fun _ _ => HTTPError 403 "Forbidden" (Some "denied").
Definition net_serving (raw : string) : string -> rawrec -> http_outcome :=
  fun _ _ => HttpResponse raw.

(** Disks. *)
Definition disk_ok : string -> bool := fun _ => true.

Definition stamp : string := "20240101_120000".

(** A disk that fills up after the full dump. *)
Definition disk_full_after_dump : string -> bool :=
  fun p => negb (String.eqb p (summary_path stamp) || String.eqb p (csv_path stamp)).

End Sample.

(** ** Closed forms of the enrichment loop

    What one pass of [scan_step] contributes, written per element; the loop
    is related to them in [scan_resources_closed_form]. *)

(** The details entry a parsed element gives rise to, if any. *)
Definition detail_of (resource : pyval) : option source_detail :=
  match resource with
  | PDict d =>
      Some (SourceDetail (get d "url" (PStr "")) (get d "Domain" (PStr ""))
                         (truthy (get d "is_customer_mentioned" (PBool false))))
  | _ => None
  end.

(** Whether a parsed element bumps [sources_with_brand]. *)
Definition mentions (resource : pyval) : bool :=
  match resource with
  | PDict d => truthy (get d "is_customer_mentioned" (PBool false))
  | _ => false
  end.

(** ** Reference descriptions of a run *)

(** The fetch-stage failures named by the specification. *)
Inductive failure_kind : Type :=
| MissingCredential
| TransportFailure
| NonSuccessStatus
| UndecodableBody.

(** Which of them, if any, a credential and a round trip amount to:
    written from the specification's taxonomy, to be compared with what
    [api_call] does. *)
Definition fetch_failure (json_loads : string -> option pyval) (API_KEY : string)
    (o : http_outcome) : option failure_kind :=
  match API_KEY with
  | EmptyString => Some MissingCredential
  | String _ _ =>
      match o with
      | OtherError _ => Some TransportFailure
      | HTTPError _ _ _ => Some NonSuccessStatus
      | HttpResponse raw =>
          match json_loads raw with
          | None => Some UndecodableBody
          | Some _ => None
          end
      end
  end.

(** The url and request body of the one call [main] makes. *)
Definition main_url : string := API_BASE_URL +:+ "/" +:+ "get-by" +:+ "/".
Definition main_body : rawrec := request_body 5000 PNone.

(** The dataset filter in the specification's words: a record is kept
    when its citation payload is truthy and the enrichment stage finds at
    least one source in it.  To be compared with the loop of
    [fetch_queries_execution_data]. *)
Definition kept_by_spec (json_loads : string -> option pyval) (record : rawrec) : bool :=
  truthy (get record "resources" PNone)
  && (1 <=? total_sources (enrich json_loads record)).

Definition dataset_filter_spec (json_loads : string -> option pyval)
    (data : list rawrec) : list rawrec :=
  List.filter (kept_by_spec json_loads) data.

(** The three files of a complete run, in writing order. *)
Definition artifacts (timestamp : string) (analyzed_data : list enriched) : list file :=
  [ File (full_data_path timestamp) (FullData (map clean analyzed_data));
    File (summary_path timestamp) (SummaryData (generate_summary_stats analyzed_data));
    File (csv_path timestamp) (CsvData (map csv_line analyzed_data)) ].

(** What every record of a full dump must satisfy to have come through
    the dataset filter. *)
Definition dump_has_sources (f : file) : Prop :=
  match body f with
  | FullData records =>
      Forall (fun c => 1 <= total_sources (kept c) /\ resources_raw (kept c) <> PNone)
             records
  | _ => True
  end.

(** ** Sample printing *)

(** The dictionaries [main] builds for [print_sample_resources]. *)
Record sample_record : Type := SampleRecord {
  sample_id : pyval;
  sample_brand_in_response : pyval;
  sample_total_sources : Z;
  sample_resources_raw : pyval
}.

(** What [print_sample_resources] prints below its heading: one block per
    record shown, with the text of its payload, or the closing remark. *)
Inductive sample_line : Type :=
| SampleBlock (record : sample_record) (text : string)
| SampleNoRecords.

Section Samples.

(** [str(v)] *)
Variable py_str : pyval -> string.

(** Lines 282-286: the payload as text, cut after 500 characters. *)
Definition shown_text (raw : pyval) : string :=
  let raw_str := py_str raw in
  if Z.of_nat (String.length raw_str) >? 500
  then String.substring 0 500 raw_str +:+ "..."
  else raw_str.

(** The loop state of lines 273-288: the lines printed and [samples_shown]. *)
Definition sample_state : Type := list sample_line * Z.

(** One iteration of [for record in analyzed_data]. *)
Definition sample_step (num_samples : Z) (st : sample_state) (record : sample_record)
  : sample_state :=
  if truthy (sample_resources_raw record) && (st.2 <? num_samples)
  then (st.1 ++ [SampleBlock record (shown_text (sample_resources_raw record))],
        st.2 + 1)
  else st.

Definition print_sample_resources (analyzed_data : list sample_record)
    (num_samples : Z) : list sample_line :=
  let st := fold_left (sample_step num_samples) analyzed_data ([], 0) in
  if st.2 =? 0 then st.1 ++ [SampleNoRecords] else st.1.

(** Step 2 of [main]: the dictionary built for one fetched record. *)
Definition sample_view (qe : rawrec) : sample_record :=
  {| sample_id := get qe "id" PNone;
     sample_brand_in_response := get qe "product_in_results" PNone;
     sample_total_sources := 0;
     sample_resources_raw := get qe "resources" PNone |}.

(** Step 2 of [main]: the call on the first 20 fetched records. *)
Definition main_samples (queries_execution_data : list rawrec) : list sample_line :=
  print_sample_resources (sample_view <$> take 20 queries_execution_data) 5.

End Samples.

(** ** The file server and API proxy of [server.py] *)

Module Server.

Definition PORT : Z := 8001.
Definition API_BASE_URL : string := "https://chat-rank-api.amionai.com/tables".

(** [s.startswith(p)] *)
Definition startswith (s p : string) : bool := String.prefix p s.

(** [s.endswith(p)] *)
Fixpoint endswith (s p : string) : bool :=
  String.eqb s p
  || match s with
     | EmptyString => false
     | String _ rest => endswith rest p
     end.

(** [s.replace(old, new)] for an [old] that is not empty: occurrences are
    found left to right and do not overlap.  [skip] counts the characters
    of a found occurrence still to pass over. *)
Fixpoint replace_from (old new : string) (skip : nat) (s : string) : string :=
  match s with
  | EmptyString => EmptyString
  | String c rest =>
      match skip with
      | S k => replace_from old new k rest
      | O =>
          if String.prefix old s
          then new +:+ replace_from old new (String.length old - 1) rest
          else String c (replace_from old new 0 rest)
      end
  end.

Definition py_replace (s old new : string) : string := replace_from old new 0 s.

(** [s.split('?')[0]] *)
Fixpoint before_query (s : string) : string :=
  match s with
  | EmptyString => EmptyString
  | String c rest =>
      if Ascii.eqb c "?"%char then EmptyString else String c (before_query rest)
  end.

(** [s.lstrip('/')] *)
Fixpoint lstrip_slash (s : string) : string :=
  match s with
  | String c rest => if Ascii.eqb c "/"%char then lstrip_slash rest else s
  | EmptyString => EmptyString
  end.

(** [os.path.join(a, b)] on a POSIX system. *)
Definition path_join (a b : string) : string :=
  if startswith b "/" then b
  else if String.eqb a "" || endswith a "/" then a +:+ b
  else a +:+ "/" +:+ b.

(** What the handler sends back: the status, the headers the handler sends
    itself, in the order they are sent (the [Server] and [Date] headers that
    [send_response] puts in front are left out), and the body. *)
Record response : Type := Response {
  resp_status : Z;
  resp_headers : list (string * string);
  resp_body : string
}.

(** The headers [end_headers] adds to every response. *)
Definition cors_headers : list (string * string) :=
  [ ("Access-Control-Allow-Origin", "*");
    ("Access-Control-Allow-Methods", "GET, POST, OPTIONS");
    ("Access-Control-Allow-Headers", "Content-Type, x-api-key") ].

(** [send_response(code)], the [send_header] calls, [end_headers()] and
    [wfile.write(body)]. *)
Definition reply (code : Z) (sent : list (string * string)) (body : string) : response :=
  Response code (sent ++ cors_headers) body.

Definition json_type : string * string := ("Content-Type", "application/json").

Definition do_OPTIONS : response := reply 200 [] "".

(** The request the proxy makes to the backend. *)
Record upstream_request : Type := UpstreamRequest {
  api_url : string;
  data : string;
  method : string;
  request_headers : list (string * string);
  timeout : Z
}.

(** What [urlopen], [response.read()] and [response.getcode()] come to. *)
Inductive upstream : Type :=
| Answered (response_code : Z) (response_data : string)
| HTTPError (code : Z) (reason : string) (error_body : option string)
| Failed (error_msg : string).

(** What the handler reads of a request. *)
Record request : Type := Request {
  req_path : string;
  req_content_length : option string;
  req_rfile : string
}.

(** What [do_GET] does: a response of its own, or [send_error]. *)
Inductive get_result : Type :=
| Served (r : response)
| SendError (code : Z) (message : string).

Section Handler.

(** The credential the server holds. *)
Variable API_KEY : string.
Variable urlopen : upstream_request -> upstream.
(** [int(h)]: the number, or the text of the [ValueError]. *)
Variable py_int : string -> Z + string.
(** [str(n)] *)
Variable py_str_int : Z -> string.
(** [json.dumps({'error': m}).encode()] *)
Variable json_error : string -> string.
(** The directory served, and the file system under it. *)
Variable cwd : string.
Variable isdir : string -> bool.
(** [os.path.exists(p) and os.path.isfile(p)] *)
Variable isfile : string -> bool.
(** [open(p, 'rb').read()]: the content, or the text of the exception. *)
Variable read_file : string -> string + string.
(** [mimetypes.guess_type(p)[0]] *)
Variable guess_type : string -> option string.

(** Lines 85-89 of [handle_api_proxy]. *)
Definition api_endpoint (path : string) : string :=
  let e := py_replace path "/api" "" in
  let e := if negb (startswith e "/") then "/" +:+ e else e in
  if negb (endswith e "/") then e +:+ "/" else e.

(** Lines 82-83: the declared length and the body read. *)
Definition content_length (r : request) : Z + string :=
  match req_content_length r with
  | None => inl 0
  | Some h => py_int h
  end.

Definition read_body (r : request) (n : Z) : string :=
  if n >? 0 then String.substring 0 (Z.to_nat n) (req_rfile r) else "{}".

(** Lines 91-95. *)
Definition proxy_request (r : request) (n : Z) : upstream_request :=
  {| api_url := API_BASE_URL +:+ api_endpoint (req_path r);
     data := read_body r n;
     method := "POST";
     request_headers := [json_type; ("x-api-key", API_KEY)];
     timeout := 30 |}.

(** The response, and the requests made to the backend on the way. *)
Definition handle_api_proxy (r : request) : response * list upstream_request :=
  match content_length r with
  | inr error_msg => (reply 500 [json_type] (json_error error_msg), [])
  | inl n =>
      let req := proxy_request r n in
      match urlopen req with
      | Answered response_code response_data =>
          (reply response_code [json_type] response_data, [req])
      | HTTPError code reason error_body =>
          (reply code [json_type]
             (default (json_error ("HTTP " +:+ py_str_int code +:+ ": " +:+ reason))
                      error_body),
           [req])
      | Failed error_msg => (reply 500 [json_type] (json_error error_msg), [req])
      end
  end.

Definition do_POST (r : request) : response * list upstream_request :=
  if startswith (req_path r) "/api/" then handle_api_proxy r
  else (reply 405 [("Content-Type", "text/plain")] "Method not allowed", []).

(** Lines 41-49 of [do_GET]: the file a request path stands for. *)
Definition resolve (path : string) : string :=
  let path_without_query := before_query path in
  let path_without_query :=
    if String.eqb path_without_query "/" then "/index.html" else path_without_query in
  let file_path := path_join cwd (lstrip_slash path_without_query) in
  if isdir file_path then path_join file_path "index.html" else file_path.

Definition do_GET (path : string) : get_result :=
  let file_path := resolve path in
  if negb (isfile file_path) then SendError 404 "File not found"
  else
    match read_file file_path with
    | inr e => SendError 500 ("Server error: " +:+ e)
    | inl content =>
        Served (reply 200
                  [ ("Content-Type",
                     default "application/octet-stream" (guess_type file_path));
                    ("Content-Length", py_str_int (Z.of_nat (String.length content))) ]
                  content)
    end.

End Handler.

End Server.

(** ** Reference descriptions for the further properties *)

(** The exception the fetch stage raises on an answer that is truthy and
    not a list: [len] fails on a number, [record.get] on the items of a
    string or of a mapping. *)
Definition fetch_exception (v : pyval) : exn :=
  match v with
  | PStr _ | PDict _ => AttributeError
  | _ => TypeError
  end.

(** The block [print_sample_resources] prints for a record. *)
Definition sample_block (py_str : pyval -> string) (record : sample_record) : sample_line :=
  SampleBlock record (shown_text py_str (sample_resources_raw record)).

(** ** The pipeline with the exceptions that escape it

    [json.loads] raises [JSONDecodeError] on a text that is not JSON; it
    also raises [ValueError] on an integer literal longer than the
    interpreter's digit limit and [RecursionError] on nesting deeper than
    the recursion limit.  The handler of line 103 names [JSONDecodeError]
    and [TypeError] only, so the last two leave [parse_resources] and
    every caller up to [main].  The text-mode [f.write] of line 329 raises
    [UnicodeEncodeError] on a line that the encoding of the file cannot
    take (a lone surrogate in an id); the two JSON files are written with
    [ensure_ascii] and hold ASCII only. *)

Module Full.

(** What [json.loads] does on a text. *)
Inductive decoding : Type :=
| Decoded (parsed : pyval)
| RaisesJSONDecodeError
| RaisesValueError
| RaisesRecursionError.

(** The decoder as the first layer sees it: what was decoded, if
    anything. *)
Definition loads (json_loads : string -> decoding) (s : string) : option pyval :=
  match json_loads s with
  | Decoded parsed => Some parsed
  | _ => None
  end.

(** Whether the handler of line 103 covers what the decoder does. *)
Definition absorbed (d : decoding) : bool :=
  match d with
  | Decoded _ | RaisesJSONDecodeError => true
  | RaisesValueError | RaisesRecursionError => false
  end.

Section Pipeline.

Variable json_loads : string -> decoding.
Variable API_KEY : string.
Variable urlopen : string -> rawrec -> http_outcome.
Variable timestamp : string.
Variable disk_accepts : string -> bool.
(** Whether the line of a row can be encoded in the encoding of the
    export. *)
Variable encodable : csv_row -> bool.

(** Lines 83-104. *)
Definition parse_resources (resources_data : pyval) : outcome (list pyval) :=
  if negb (truthy resources_data) then Returned []
  else
    match resources_data with
    | PStr s =>
        match json_loads s with
        | Decoded parsed => Returned (resources_of_parsed parsed)
        | RaisesJSONDecodeError => Returned [] (* except (json.JSONDecodeError, TypeError) *)
        | RaisesValueError => Raised ValueError
        | RaisesRecursionError => Raised RecursionError
        end
    | parsed => Returned (resources_of_parsed parsed)
    end.

(** Lines 133-138 for one record of the decoded result set. *)
Definition has_sources (record : rawrec) : outcome bool :=
  let resources_raw := get record "resources" PNone in
  if truthy resources_raw then
    match parse_resources resources_raw with
    | Returned parsed => Returned (len parsed >? 0)
    | Raised e => Raised e
    end
  else Returned false.

(** Lines 131-138: the loop over the result set. *)
Fixpoint filter_records (data : list pyval) (records_with_sources : list rawrec)
  : outcome (list rawrec) :=
  match data with
  | [] => Returned records_with_sources
  | PDict record :: rest =>
      match has_sources record with
      | Returned true => filter_records rest (records_with_sources ++ [record])
      | Returned false => filter_records rest records_with_sources
      | Raised e => Raised e
      end
  | _ :: _ => Raised AttributeError
  end.

Definition fetch_queries_execution_data (limit : Z) (execution_id : pyval)
  : io (list rawrec) :=
  print (InfoFetching limit);;;
  data <- api_call (loads json_loads) API_KEY urlopen "get-by"
            (request_body limit execution_id);;
  if truthy data then
    n <- lift (py_len data);;
    print (InfoFetched n);;;
    items <- lift (py_iter data);;
    records_with_sources <- lift (filter_records items []);;
    print (InfoFiltered (len records_with_sources) (n - len records_with_sources));;;
    ret records_with_sources
  else
    print ErrFailedToFetch;;; ret [].

(** The body of the loop of [analyze_data] for one raw record. *)
Definition enrich (qe : rawrec) : outcome enriched :=
  match parse_resources (get qe "resources" PNone) with
  | Raised e => Raised e
  | Returned resources =>
      let st := scan_resources resources in
      Returned
        {| id_ := get qe "id" PNone;
           query_id := get qe "query_id" PNone;
           query_group_id := get qe "query_group_id" PNone;
           execution_id := get qe "execution_id" PNone;
           create_date := get qe "create_date" PNone;
           product_in_results := get qe "product_in_results" (PInt 0);
           brand_in_response := truthy (get qe "product_in_results" (PInt 0));
           resources_raw := get qe "resources" PNone;
           resources_log := get qe "resources_log" PNone;
           product_result_raw_log := get qe "product_result_raw_log" PNone;
           competitors_log := get qe "competitors_log" PNone;
           query_results_log := get qe "query_results_log" PNone;
           bd_response_log := get qe "bd_response_log" PNone;
           run_log := get qe "run_log" PNone;
           competitors_raw := get qe "competitors" PNone;
           resources_parsed := resources;
           total_sources := len resources;
           sources_with_brand := st.1;
           sources_details := st.2;
           brand_mention_percentage := percentage st.1 (len resources) |}
  end.

(** [for qe in ...: results.append(record)], from [results] on. *)
Fixpoint analyze_from (queries_execution_data : list rawrec) (results : list enriched)
  : outcome (list enriched) :=
  match queries_execution_data with
  | [] => Returned results
  | qe :: rest =>
      match enrich qe with
      | Returned record => analyze_from rest (results ++ [record])
      | Raised e => Raised e
      end
  end.

Definition analyze_data (queries_execution_data : list rawrec)
  : outcome (list enriched) :=
  analyze_from queries_execution_data [].

(** Lines 328-329: one [f.write] per record.  A line is encoded when it
    is written, so the lines before the first that cannot be encoded are
    in the file when the exception leaves the [with] block. *)
Fixpoint write_rows (analyzed_data : list enriched) (written : list csv_row)
  : outcome unit * list csv_row :=
  match analyzed_data with
  | [] => (Returned tt, written)
  | record :: rest =>
      if encodable (csv_line record) then write_rows rest (written ++ [csv_line record])
      else (Raised UnicodeEncodeError, written)
  end.

(** Lines 324-329. *)
Definition write_csv (p : string) (analyzed_data : list enriched) : io unit :=
  fun w =>
    if disk_accepts p then
      ((write_rows analyzed_data []).1,
       World (console w) (files w ++ [File p (CsvData (write_rows analyzed_data []).2)]))
    else (Raised OSError, w).

Definition save_results (analyzed_data : list enriched) (s : summary)
  : io (string * string * string) :=
  makedirs disk_accepts OUTPUT_DIR;;;
  write_file disk_accepts (full_data_path timestamp)
    (FullData (map clean analyzed_data));;;
  print (InfoSaved (full_data_path timestamp));;;
  write_file disk_accepts (summary_path timestamp) (SummaryData s);;;
  print (InfoSaved (summary_path timestamp));;;
  write_csv (csv_path timestamp) analyzed_data;;;
  print (InfoSaved (csv_path timestamp));;;
  ret (full_data_path timestamp, summary_path timestamp, csv_path timestamp).

Definition main : io unit :=
  queries_execution_data <- fetch_queries_execution_data 5000 PNone;;
  match queries_execution_data with
  | [] => print ErrNoDataFetched
  | _ :: _ =>
      analyzed_data <- lift (analyze_data queries_execution_data);;
      let s := generate_summary_stats analyzed_data in
      print_summary s;;;
      _ <- save_results analyzed_data s;;
      print InfoComplete
  end.

End Pipeline.

End Full.

(** ** The summary in binary64

    Lines 215-218 and 255-262 as the interpreter computes them: the
    quotient of two integers is the double nearest to it, and [sum] adds
    the percentages one after the other, in list order, each addition
    rounded.  (That is the [sum] of CPython up to 3.11; later versions keep
    a compensation term while adding.) *)

Module Double.

(** [float(z)]; exact for the sizes of lists. *)
Definition of_int (z : Z) : float :=
  if z <? 0 then PrimFloat.opp (PrimFloat.of_uint63 (Uint63.of_Z (- z)))
  else PrimFloat.of_uint63 (Uint63.of_Z z).

(** [a / b] on integers. *)
Definition true_div (a b : Z) : float := PrimFloat.div (of_int a) (of_int b).

(** Lines 215-218. *)
Definition percentage (with_brand total : Z) : float :=
  if total >? 0 then PrimFloat.mul (true_div with_brand total) 100%float
  else 0%float.

(** The double under [brand_mention_percentage] in a record that
    [analyze_data] built. *)
Definition brand_mention_percentage (r : enriched) : float :=
  percentage (sources_with_brand r) (total_sources r).

(** [sum(...)] over doubles, left to right from [0]. *)
Definition sum (l : list float) : float := fold_left PrimFloat.add l 0%float.

(** [sum(r[k] for r in group) / len(group)] under [if group:], for an
    integer field: the sum is exact, the quotient rounded once. *)
Definition avg_int (k : enriched -> Z) (group : list enriched) : float :=
  match group with
  | [] => 0%float
  | _ :: _ => true_div (sum_Z (map k group)) (len group)
  end.

(** The same for the percentages. *)
Definition avg_pct (group : list enriched) : float :=
  match group with
  | [] => 0%float
  | _ :: _ =>
      PrimFloat.div (sum (map brand_mention_percentage group)) (of_int (len group))
  end.

Record summary : Type := Summary {
  total_records : Z;
  records_with_brand_in_response : Z;
  records_without_brand_in_response : Z;
  note : string;
  avg_sources_when_mentioned : float;
  avg_sources_when_not_mentioned : float;
  avg_brand_sources_when_mentioned : float;
  avg_brand_sources_when_not_mentioned : float;
  avg_brand_pct_when_mentioned : float;
  avg_brand_pct_when_not_mentioned : float
}.

Definition generate_summary_stats (analyzed_data : list enriched) : summary :=
  let total := len analyzed_data in
  let with_response_mention :=
    sum_Z (map (fun _ => 1) (List.filter brand_in_response analyzed_data)) in
  {| total_records := total;
     records_with_brand_in_response := with_response_mention;
     records_without_brand_in_response := total - with_response_mention;
     note := "All records have sources (records without sources were excluded)";
     avg_sources_when_mentioned :=
       avg_int total_sources (mentioned_group analyzed_data);
     avg_sources_when_not_mentioned :=
       avg_int total_sources (not_mentioned_group analyzed_data);
     avg_brand_sources_when_mentioned :=
       avg_int sources_with_brand (mentioned_group analyzed_data);
     avg_brand_sources_when_not_mentioned :=
       avg_int sources_with_brand (not_mentioned_group analyzed_data);
     avg_brand_pct_when_mentioned := avg_pct (mentioned_group analyzed_data);
     avg_brand_pct_when_not_mentioned := avg_pct (not_mentioned_group analyzed_data) |}.

End Double.

(** ** Further concrete inputs *)

Module Cases.

(** The response body [{"error": "denied"}]: an object without [data]. *)
Definition doc_error : string :=
  "{" +:+ Sample.q "error" +:+ ": " +:+ Sample.q "denied" +:+ "}".
Definition page_error : rawrec := <["error" := PStr "denied"]> ∅.

(** A decoder that knows [doc_error] only. *)
Definition error_loads (s : string) : option pyval :=
  if String.eqb s doc_error then Some (PDict page_error) else None.

(** A [str] that prints every payload as the same short text. *)
Definition flat_str : pyval -> string := fun _ => "payload".

(** The rows of [Sample.doc_three_rows], as decoded. *)
Definition three_rows : list pyval :=
  [PDict Sample.qe_wrapped; PDict Sample.qe_bare; PDict Sample.qe_null].

(** A served directory holding [index.html] only. *)
Definition site_cwd : string := "/srv/site".
Definition site_isdir (p : string) : bool := String.eqb p "/srv/site/".
Definition site_isfile (p : string) : bool := String.eqb p "/srv/site/index.html".
Definition site_read (p : string) : string + string := inl "<html></html>".
Definition site_type (p : string) : option string := Some "text/html".
(** A [str] on integers that is right at 13, the length of the page. *)
Definition site_str_int (n : Z) : string := "13".

(** A backend that answers every request with 200 and an empty object. *)
Definition backend_ok : Server.upstream_request -> Server.upstream :=
  fun _ => Server.Answered 200 "{}".
(** An [int] that reads ["2"] and refuses everything else. *)
Definition int_two (h : string) : Z + string :=
  if String.eqb h "2" then inl 2 else inr "invalid literal".
Definition dumps_error (m : string) : string := "{error}".
(** A POST to [/api/get-by] with a body of two bytes. *)
Definition post_get_by : Server.request :=
  Server.Request "/api/get-by" (Some "2") "{}".
(** [str] on integers is not called on these requests. *)
Definition no_str_int (n : Z) : string := "".

(** A text of [n] digits. *)
Fixpoint digits (n : nat) : string :=
  match n with
  | O => EmptyString
  | S m => String "1"%char (digits m)
  end.

(** An integer literal of 5000 digits, beyond the interpreter's limit of
    4300 digits for the conversion of a string to an integer. *)
Definition long_number : string := digits 5000.

(** [{"id":8,"resources":"11...1"}]: the payload is that literal. *)
Definition qe_long_number : rawrec :=
  <["id" := PInt 8]> (<["resources" := PStr long_number]> ∅).

(** The response body whose rows are [Sample.qe_wrapped] and
    [qe_long_number]. *)
Definition doc_long_number : string :=
  "{" +:+ Sample.q "data" +:+ ": [" +:+ Sample.text_wrapped +:+ ", {"
  +:+ Sample.q "id" +:+ ": 8, " +:+ Sample.q "resources" +:+ ": "
  +:+ Sample.q long_number +:+ "}]}".
Definition page_long_number : pyval :=
  PDict (<["data" := PList [PDict Sample.qe_wrapped; PDict qe_long_number]]> ∅).

(** The code point U+D800, a lone surrogate, which no UTF-8 text holds;
    JSON writes it [\ud800]. *)
Definition lone_surrogate : string :=
  String "237"%char (String "160"%char (String "128"%char EmptyString)).

(** [{"id":"\ud800","resources":cited_b}] *)
Definition qe_surrogate : rawrec :=
  <["id" := PStr lone_surrogate]> (<["resources" := PDict Sample.cited_b]> ∅).

(** The response body whose rows are [Sample.qe_wrapped] and
    [qe_surrogate]. *)
Definition doc_surrogate : string :=
  "{" +:+ Sample.q "data" +:+ ": [" +:+ Sample.text_wrapped +:+ ", {"
  +:+ Sample.q "id" +:+ ": " +:+ Sample.q "\ud800" +:+ ", "
  +:+ Sample.q "resources" +:+ ": "
  +:+ Sample.text_cited "b.com" "http://b.com" "false" +:+ "}]}".
Definition page_surrogate : pyval :=
  PDict (<["data" := PList [PDict Sample.qe_wrapped; PDict qe_surrogate]]> ∅).

(** [json.loads] on the texts above and on those of [Sample.table_loads]:
    the long literal raises [ValueError], a known document is decoded, any
    other text is not JSON. *)
Definition full_loads (s : string) : Full.decoding :=
  if String.eqb s long_number then Full.RaisesValueError
  else if String.eqb s doc_long_number then Full.Decoded page_long_number
  else if String.eqb s doc_surrogate then Full.Decoded page_surrogate
  else
    match Sample.table_loads s with
    | Some parsed => Full.Decoded parsed
    | None => Full.RaisesJSONDecodeError
    end.

(** UTF-8 on the lines of the export: every line but one whose id is the
    lone surrogate. *)
Definition utf8 (row : csv_row) : bool :=
  match csv_id row with
  | PStr s => negb (String.eqb s lone_surrogate)
  | _ => true
  end.

(** Three records of the not-mentioned group whose citations mention the
    brand in 1 of 1, 1 of 2 and 3 of 11 sources. *)
Definition qe_1_of_1 : rawrec :=
  <["id" := PInt 11]> (<["resources" := PList [PDict Sample.cited_a]]> ∅).
Definition qe_1_of_2 : rawrec :=
  <["id" := PInt 12]>
  (<["resources" := PList [PDict Sample.cited_a; PDict Sample.cited_b]]> ∅).
Definition qe_3_of_11 : rawrec :=
  <["id" := PInt 13]>
  (<["resources" := PList (replicate 3 (PDict Sample.cited_a)
                           ++ replicate 8 (PDict Sample.cited_b))]> ∅).

End Cases.

(** * Properties *)

(** ** The enrichment loop *)

Section EnrichmentFacts.

Variable json_loads : string -> option pyval.

Lemma analyze_data_app acc qs :
  fold_left (fun results qe => results ++ [enrich json_loads qe]) qs acc
  = acc ++ map (enrich json_loads) qs.
Proof.
  revert acc. induction qs as [|qe qs IH]; intros acc; simpl.
  - by rewrite app_nil_r.
  - rewrite IH. by rewrite <- app_assoc.
Qed.

Lemma analyze_data_map qs :
  analyze_data json_loads qs = map (enrich json_loads) qs.
Proof. unfold analyze_data. by rewrite analyze_data_app. Qed.

Lemma scan_fold resources : forall st : scan_state,
  fold_left scan_step resources st
  = (st.1 + len (List.filter mentions resources), st.2 ++ omap detail_of resources).
Proof.
  induction resources as [|v vs IH]; intros [n ds]; simpl.
  - unfold len. simpl. by rewrite Z.add_0_r, app_nil_r.
  - rewrite IH. destruct v as [| | | | | |d]; simpl; try reflexivity.
    destruct (truthy (get d "is_customer_mentioned" (PBool false))); simpl.
    + f_equal; [unfold len; simpl length; lia | by rewrite <- app_assoc].
    + f_equal. by rewrite <- app_assoc.
Qed.

Lemma scan_resources_closed_form resources :
  scan_resources resources
  = (len (List.filter mentions resources), omap detail_of resources).
Proof. unfold scan_resources. by rewrite scan_fold. Qed.

Lemma length_details resources :
  length (omap detail_of resources) = length (List.filter is_dict resources).
Proof.
  induction resources as [|v vs IH]; [reflexivity|].
  destruct v; simpl; auto.
Qed.

Lemma length_List_filter_le {A} (f : A -> bool) (l : list A) :
  (length (List.filter f l) <= length l)%nat.
Proof. induction l as [|a l IH]; simpl; [lia|]. destruct (f a); simpl; lia. Qed.

Lemma List_filter_all {A} (f : A -> bool) (l : list A) :
  length (List.filter f l) = length l <-> Forall (fun a => f a = true) l.
Proof.
  induction l as [|a l IH]; simpl.
  - split; [constructor | reflexivity].
  - pose proof (length_List_filter_le f l) as Hle.
    destruct (f a) eqn:Hfa; simpl; split.
    + intros H. constructor; [done|]. apply IH. lia.
    + intros H. apply Forall_cons in H as [_ H]. apply IH in H. lia.
    + intros H. lia.
    + intros H. apply Forall_cons in H as [H _]. congruence.
Qed.

Lemma sources_with_brand_closed qe :
  sources_with_brand (enrich json_loads qe)
  = len (List.filter mentions (resources_parsed (enrich json_loads qe))).
Proof. unfold enrich. simpl. by rewrite scan_resources_closed_form. Qed.

Lemma sources_details_closed qe :
  sources_details (enrich json_loads qe)
  = omap detail_of (resources_parsed (enrich json_loads qe)).
Proof. unfold enrich. simpl. by rewrite scan_resources_closed_form. Qed.

(** The ratio of lines 215-218 stays between 0 and 100. *)
Lemma percentage_bounds n t :
  0 <= n <= t -> (0 <= percentage n t)%Q /\ (percentage n t <= 100)%Q.
Proof.
  intros [Hn Ht]. unfold percentage.
  destruct (t >? 0) eqn:Hpos; [|split; discriminate].
  apply Z.gtb_lt in Hpos.
  assert (Hq : (0 < inject_Z t)%Q) by (change 0%Q with (inject_Z 0); by rewrite <- Zlt_Qlt).
  assert (Hlo : (0 <= inject_Z n / inject_Z t)%Q).
  { apply Qle_shift_div_l; [done|]. rewrite Qmult_0_l.
    change 0%Q with (inject_Z 0). by rewrite <- Zle_Qle. }
  assert (Hhi : (inject_Z n / inject_Z t <= 1)%Q).
  { apply Qle_shift_div_r; [done|]. rewrite Qmult_1_l.
    by rewrite <- Zle_Qle. }
  split.
  - apply Qmult_le_0_compat; [done | discriminate].
  - apply Qle_trans with (1 * 100)%Q; [|discriminate].
    apply Qmult_le_compat_r; [done | discriminate].
Qed.

End EnrichmentFacts.

(** ** Citation parser and record enricher *)

Section EnricherClaims.

Variable json_loads : string -> option pyval.

Lemma truthy_dict (d : rawrec) : d ≠ ∅ -> truthy (PDict d) = true.
Proof. intros Hd. simpl. by rewrite bool_decide_eq_false_2. Qed.

Lemma parse_resources_falsy p :
  truthy p = false -> parse_resources json_loads p = [].
Proof. intros Hp. unfold parse_resources. by rewrite Hp. Qed.

(** C1, as the code has it: [total_sources] is the length of the list
    that [parse_resources] returns, elements that are not mappings
    included.  The citation detail entries are the mapping elements of
    that list, in order; so there are at most [total_sources] of them,
    and exactly that many precisely when every parsed element is a
    mapping. *)
Theorem total_sources_counts_parsed_items (qe : rawrec) :
  let r := enrich json_loads qe in
  total_sources r = len (parse_resources json_loads (get qe "resources" PNone))
  /\ sources_details r = omap detail_of (resources_parsed r)
  /\ len (sources_details r) = len (List.filter is_dict (resources_parsed r))
  /\ len (sources_details r) <= total_sources r
  /\ (len (sources_details r) = total_sources r
      <-> Forall (fun v => is_dict v = true) (resources_parsed r)).
Proof.
  intros r. subst r.
  rewrite sources_details_closed.
  set (resources := resources_parsed (enrich json_loads qe)).
  assert (Ht : total_sources (enrich json_loads qe) = len resources) by done.
  rewrite Ht. unfold len. rewrite length_details.
  pose proof (length_List_filter_le is_dict resources) as Hle.
  repeat split; try done; try lia.
  - intros H. apply List_filter_all. lia.
  - intros H. apply List_filter_all in H. lia.
Qed.

(** C2: the brand count lies between 0 and [total_sources], the
    percentage between 0 and 100; the percentage is 0 when there is no
    source and [sources_with_brand / total_sources * 100] otherwise. *)
Theorem enriched_counts_and_percentage (qe : rawrec) :
  let r := enrich json_loads qe in
  0 <= sources_with_brand r <= total_sources r
  /\ (0 <= brand_mention_percentage r)%Q
  /\ (brand_mention_percentage r <= 100)%Q
  /\ (total_sources r = 0 -> brand_mention_percentage r = 0%Q)
  /\ (total_sources r <> 0 ->
      brand_mention_percentage r
      = (inject_Z (sources_with_brand r) / inject_Z (total_sources r) * 100)%Q).
Proof.
  intros r. subst r.
  assert (Hb : 0 <= sources_with_brand (enrich json_loads qe)
                 <= total_sources (enrich json_loads qe)).
  { rewrite sources_with_brand_closed.
    change (total_sources (enrich json_loads qe))
      with (len (resources_parsed (enrich json_loads qe))).
    pose proof (length_List_filter_le mentions
                  (resources_parsed (enrich json_loads qe))).
    unfold len. lia. }
  assert (Hp : brand_mention_percentage (enrich json_loads qe)
               = percentage (sources_with_brand (enrich json_loads qe))
                            (total_sources (enrich json_loads qe))) by done.
  destruct (percentage_bounds _ _ Hb) as [Hlo Hhi].
  rewrite Hp. repeat split; try done; try lia.
  - intros H0. unfold percentage. by rewrite H0.
  - intros Hne. unfold percentage.
    destruct (total_sources (enrich json_loads qe) >? 0) eqn:Hpos; [done|].
    rewrite Z.gtb_ltb, Z.ltb_ge in Hpos. lia.
Qed.

(** C4, as the code has it: a mapping payload that is not empty and has
    no [resources] key is parsed as the one-element list holding the
    mapping itself, so the enriched record has [total_sources = 1]. *)
Theorem bare_mapping_is_single_citation (d : rawrec) :
  d ≠ ∅ -> d !! "resources" = None ->
  parse_resources json_loads (PDict d) = [PDict d]
  /\ forall qe : rawrec, qe !! "resources" = Some (PDict d) ->
       total_sources (enrich json_loads qe) = 1.
Proof.
  intros Hd Hk.
  assert (Hp : parse_resources json_loads (PDict d) = [PDict d]).
  { unfold parse_resources. rewrite truthy_dict by done. simpl. by rewrite Hk. }
  split; [done|]. intros qe Hqe.
  unfold enrich, get. simpl. rewrite Hqe. simpl. by rewrite Hp.
Qed.

End EnricherClaims.

(** ** Dataset filter, remote data client and orchestrator *)

(** Unfolds the sequencing of commands and computes one step. *)
Ltac io_simpl := unfold bind, print, ret, lift, raise; simpl.

Section PipelineFacts.

Variable json_loads : string -> option pyval.
Variable API_KEY : string.
Variable urlopen : string -> rawrec -> http_outcome.
Variable timestamp : string.
Variable disk_accepts : string -> bool.

Lemma has_sources_total record :
  has_sources json_loads record = true
  <-> truthy (get record "resources" PNone) = true
      /\ 1 <= total_sources (enrich json_loads record).
Proof.
  change (total_sources (enrich json_loads record))
    with (len (parse_resources json_loads (get record "resources" PNone))).
  unfold has_sources.
  destruct (truthy (get record "resources" PNone)); rewrite ?Z.gtb_ltb, ?Z.ltb_lt.
  - split; [intros; split; [done | lia] | intros [_ ?]; lia].
  - split; [done | by intros [? _]].
Qed.

Lemma has_sources_kept_by_spec record :
  has_sources json_loads record = kept_by_spec json_loads record.
Proof.
  unfold kept_by_spec.
  change (total_sources (enrich json_loads record))
    with (len (parse_resources json_loads (get record "resources" PNone))).
  unfold has_sources.
  destruct (truthy (get record "resources" PNone)); [|done]. simpl.
  destruct (len _ >? 0) eqn:H1, (1 <=? len _) eqn:H2; try done.
  - apply Z.gtb_lt in H1. apply Z.leb_gt in H2. lia.
  - rewrite Z.gtb_ltb in H1. apply Z.ltb_ge in H1. apply Z.leb_le in H2. lia.
Qed.

Lemma filter_records_dicts (data : list rawrec) : forall acc,
  filter_records json_loads (PDict <$> data) acc
  = Returned (acc ++ List.filter (has_sources json_loads) data).
Proof.
  induction data as [|record data IH]; intros acc; simpl.
  - by rewrite app_nil_r.
  - rewrite IH. destruct (has_sources json_loads record); [|done].
    by rewrite <- app_assoc.
Qed.

Lemma filter_records_kept data : forall acc records,
  filter_records json_loads data acc = Returned records ->
  Forall (fun r => has_sources json_loads r = true) acc ->
  Forall (fun r => has_sources json_loads r = true) records.
Proof.
  induction data as [|v data IH]; intros acc records; simpl.
  - intros [= <-]. done.
  - destruct v as [| | | | | |record]; try discriminate.
    intros Hrun Hacc. apply (IH _ _ Hrun).
    destruct (has_sources json_loads record) eqn:Hs; [|done].
    apply Forall_app. split; [done|]. by constructor.
Qed.

Lemma kept_record_enriched record :
  has_sources json_loads record = true ->
  1 <= total_sources (enrich json_loads record)
  /\ resources_raw (enrich json_loads record) <> PNone.
Proof.
  intros Hs. apply has_sources_total in Hs as [Ht Hn]. split; [done|].
  change (resources_raw (enrich json_loads record))
    with (get record "resources" PNone).
  intros Heq. by rewrite Heq in Ht.
Qed.

Lemma analyze_kept records :
  Forall (fun r => has_sources json_loads r = true) records ->
  Forall (fun r => 1 <= total_sources r /\ resources_raw r <> PNone)
         (analyze_data json_loads records).
Proof.
  intros H. rewrite analyze_data_map. apply Forall_map.
  eapply Forall_impl; [exact H|]. intros r. apply kept_record_enriched.
Qed.

(** [api_call] always returns, writes no file and only adds console lines. *)
Lemma api_call_run endpoint body w :
  exists v msgs,
    api_call json_loads API_KEY urlopen endpoint body w
    = (Returned v, World (console w ++ msgs) (files w)).
Proof.
  destruct w as [c fs]. unfold api_call.
  destruct (negb (truthy (PStr API_KEY))); io_simpl; [by eexists _, [_]|].
  destruct (urlopen _ body) as [raw|code reason [b|]|description]; io_simpl.
  - destruct (json_loads raw) as [[| | | | | |result]|]; io_simpl;
      try (by eexists _, [_]).
    eexists _, []. by rewrite app_nil_r.
  - eexists _, [_; _]. by rewrite <- app_assoc.
  - by eexists _, [_].
  - by eexists _, [_].
Qed.

(** On each failure of the taxonomy [api_call] prints a diagnostic and
    returns [None]. *)
Lemma api_call_failure body k w :
  fetch_failure json_loads API_KEY (urlopen main_url body) = Some k ->
  exists msgs, msgs <> []
    /\ api_call json_loads API_KEY urlopen "get-by" body w
       = (Returned PNone, World (console w ++ msgs) (files w)).
Proof.
  destruct w as [c fs]. unfold fetch_failure, api_call. fold main_url.
  destruct API_KEY as [|a key]; io_simpl; [intros _; by eexists [_]|].
  destruct (urlopen main_url body) as [raw|code reason [b|]|description]; io_simpl.
  - destruct (json_loads raw); [discriminate|]. intros _. by eexists [_].
  - intros _. eexists [_; _]. by rewrite <- app_assoc.
  - intros _. by eexists [_].
  - intros _. by eexists [_].
Qed.

(** [fetch_queries_execution_data] writes no file, and what it returns
    passed the filter. *)
Lemma fetch_run limit eid w :
  exists o msgs,
    fetch_queries_execution_data json_loads API_KEY urlopen limit eid w
    = (o, World (console w ++ msgs) (files w))
    /\ forall records, o = Returned records ->
         Forall (fun r => has_sources json_loads r = true) records.
Proof.
  unfold fetch_queries_execution_data.
  destruct (api_call_run "get-by" (request_body limit eid)
              (World (console w ++ [InfoFetching limit]) (files w)))
    as (data & msgs & Hcall).
  unfold bind at 1. unfold print at 1. unfold bind at 1. rewrite Hcall.
  simpl console. simpl files. rewrite <- app_assoc.
  destruct (truthy data); io_simpl.
  - destruct (py_len data) as [n|e]; io_simpl.
    2:{ eexists _, _. split; [reflexivity|]. discriminate. }
    destruct (py_iter data) as [items|e]; io_simpl.
    2:{ eexists _, _. rewrite <- app_assoc.
        split; [reflexivity|]. discriminate. }
    destruct (filter_records json_loads items []) as [records|e] eqn:Hf; io_simpl.
    2:{ eexists _, _. rewrite <- app_assoc.
        split; [reflexivity|]. discriminate. }
    eexists _, _. rewrite <- !app_assoc. split; [reflexivity|].
    intros ? [= <-]. by apply (filter_records_kept _ _ _ Hf).
  - eexists _, _. rewrite <- app_assoc. split; [reflexivity|].
    intros ? [= <-]. constructor.
Qed.

(** [save_results] writes the artifacts in order and stops at the first
    path the disk refuses. *)
Lemma save_results_prefix analyzed_data w :
  exists k,
    files (save_results timestamp disk_accepts analyzed_data
             (generate_summary_stats analyzed_data) w).2
    = files w ++ take k (artifacts timestamp analyzed_data).
Proof.
  destruct w as [c fs].
  unfold save_results, makedirs, write_file, artifacts. io_simpl.
  destruct (disk_accepts OUTPUT_DIR); io_simpl;
    [|exists 0%nat; simpl; by rewrite app_nil_r].
  destruct (disk_accepts (full_data_path timestamp)); io_simpl;
    [|exists 0%nat; simpl; by rewrite app_nil_r].
  destruct (disk_accepts (summary_path timestamp)); io_simpl;
    [|by exists 1%nat].
  destruct (disk_accepts (csv_path timestamp)); io_simpl;
    [exists 3%nat | exists 2%nat]; simpl; by rewrite <- ?app_assoc.
Qed.

(** With a disk that accepts every path, all three are written. *)
Lemma save_results_complete analyzed_data w :
  (forall p, disk_accepts p = true) ->
  exists msgs,
    save_results timestamp disk_accepts analyzed_data
      (generate_summary_stats analyzed_data) w
    = (Returned (full_data_path timestamp, summary_path timestamp, csv_path timestamp),
       World (console w ++ msgs) (files w ++ artifacts timestamp analyzed_data)).
Proof.
  intros Hdisk. destruct w as [c fs].
  unfold save_results, makedirs, write_file, artifacts. io_simpl.
  rewrite !Hdisk. io_simpl. eexists [_; _; _].
  by rewrite <- !app_assoc.
Qed.

Lemma total_records_len analyzed_data :
  total_records (generate_summary_stats analyzed_data) = len analyzed_data.
Proof. reflexivity. Qed.

(** The summary of a batch that is not empty is printed: the division
    by [total_records] is defined. *)
Lemma print_summary_nonempty q qs w :
  print_summary
    (generate_summary_stats (analyze_data json_loads (q :: qs))) w
  = print (InfoSummary
      (generate_summary_stats (analyze_data json_loads (q :: qs)))) w.
Proof.
  unfold print_summary. rewrite total_records_len, analyze_data_map.
  destruct (len _ =? 0) eqn:H; [|done].
  apply Z.eqb_eq in H. unfold len in H. simpl length in H. lia.
Qed.

(** [main], by the outcome of the fetch stage. *)
Lemma main_unfold w :
  main json_loads API_KEY urlopen timestamp disk_accepts w
  = match fetch_queries_execution_data json_loads API_KEY urlopen 5000 PNone w with
    | (Raised e, w1) => (Raised e, w1)
    | (Returned [], w1) => print ErrNoDataFetched w1
    | (Returned (q :: qs), w1) =>
        let analyzed_data := analyze_data json_loads (q :: qs) in
        (print (InfoSummary (generate_summary_stats analyzed_data));;;
         _ <- save_results timestamp disk_accepts analyzed_data
                (generate_summary_stats analyzed_data);;
         print InfoComplete) w1
    end.
Proof.
  unfold main. unfold bind at 1.
  destruct (fetch_queries_execution_data _ _ _ _ _ w) as [[[|q qs]|e] w1]; try done.
  cbv zeta. unfold bind at 1. rewrite print_summary_nonempty. done.
Qed.

Lemma main_files_prefix w :
  exists k,
    files (main json_loads API_KEY urlopen timestamp disk_accepts w).2
    = files w
      ++ take k
           match (fetch_queries_execution_data json_loads API_KEY urlopen
                    5000 PNone w).1 with
           | Returned (q :: qs) =>
               artifacts timestamp (analyze_data json_loads (q :: qs))
           | _ => []
           end.
Proof.
  rewrite main_unfold.
  destruct (fetch_run 5000 PNone w) as (o & msgs & Hf & _). rewrite Hf.
  destruct o as [[|q qs]|e]; simpl.
  - exists 0%nat. by rewrite app_nil_r.
  - unfold bind at 1, print at 1. simpl console. simpl files.
    match goal with |- context [bind _ _ ?w0] => set (w1 := w0) end.
    destruct (save_results_prefix (analyze_data json_loads (q :: qs)) w1)
      as (k & Hk).
    exists k. unfold bind.
    destruct (save_results _ _ _ _ w1) as [[paths|e] w2]; simpl in *; done.
  - exists 0%nat. by rewrite app_nil_r.
Qed.

End PipelineFacts.

Section PipelineClaims.

Variable json_loads : string -> option pyval.
Variable API_KEY : string.
Variable urlopen : string -> rawrec -> http_outcome.
Variable timestamp : string.
Variable disk_accepts : string -> bool.

Local Abbreviation fetch := (fetch_queries_execution_data json_loads API_KEY urlopen).
Local Abbreviation run := (main json_loads API_KEY urlopen timestamp disk_accepts).

(** A falsy answer of the client ends the fetch stage with the empty list. *)
Lemma fetch_falsy_data limit eid w v w1 :
  api_call json_loads API_KEY urlopen "get-by" (request_body limit eid)
    (World (console w ++ [InfoFetching limit]) (files w)) = (Returned v, w1) ->
  truthy v = false ->
  fetch limit eid w
  = (Returned [], World (console w1 ++ [ErrFailedToFetch]) (files w1)).
Proof.
  intros Hcall Hv. unfold fetch_queries_execution_data.
  unfold bind at 1. unfold print at 1. unfold bind at 1.
  rewrite Hcall, Hv. reflexivity.
Qed.

(** What the orchestrator does with an empty fetch result. *)
Lemma main_no_data w w1 :
  fetch 5000 PNone w = (Returned [], w1) ->
  files w1 = files w ->
  (run w).1 = Returned tt
  /\ files (run w).2 = files w
  /\ last (console (run w).2) = Some ErrNoDataFetched.
Proof.
  intros Hf Hfiles. rewrite main_unfold, Hf. unfold print. simpl.
  by rewrite last_snoc.
Qed.

(** A failed fetch stage, seen from the orchestrator. *)
Lemma failed_fetch_run k w :
  fetch_failure json_loads API_KEY (urlopen main_url main_body) = Some k ->
  (fetch 5000 PNone w).1 = Returned []
  /\ (run w).1 = Returned tt
  /\ files (run w).2 = files w
  /\ last (console (run w).2) = Some ErrNoDataFetched.
Proof.
  intros Hfail.
  destruct (api_call_failure json_loads API_KEY urlopen main_body k
              (World (console w ++ [InfoFetching 5000]) (files w)) Hfail)
    as (msgs & _ & Hcall).
  pose proof (fetch_falsy_data 5000 PNone w _ _ Hcall eq_refl) as Hf.
  split; [by rewrite Hf|]. by apply (main_no_data w _ Hf).
Qed.

(** An answer whose [data] is the empty list, seen from the orchestrator. *)
Lemma empty_result_run raw (result : rawrec) w :
  API_KEY <> EmptyString ->
  urlopen main_url main_body = HttpResponse raw ->
  json_loads raw = Some (PDict result) ->
  result !! "data" = Some (PList []) ->
  (fetch 5000 PNone w).1 = Returned []
  /\ (run w).1 = Returned tt
  /\ files (run w).2 = files w
  /\ last (console (run w).2) = Some ErrNoDataFetched.
Proof.
  intros Hkey Hnet Hdec Hdata.
  assert (Hcall : api_call json_loads API_KEY urlopen "get-by" main_body
            (World (console w ++ [InfoFetching 5000]) (files w))
          = (Returned (PList []),
             World (console w ++ [InfoFetching 5000]) (files w))).
  { unfold api_call. fold main_url. destruct API_KEY; [done|]. simpl.
    rewrite Hnet, Hdec. unfold get. by rewrite Hdata. }
  pose proof (fetch_falsy_data 5000 PNone w _ _ Hcall eq_refl) as Hf.
  split; [by rewrite Hf|]. by apply (main_no_data w _ Hf).
Qed.

Lemma artifacts_have_sources records :
  Forall (fun r => has_sources json_loads r = true) records ->
  Forall dump_has_sources (artifacts timestamp (analyze_data json_loads records)).
Proof.
  intros H. unfold artifacts. repeat constructor.
  unfold dump_has_sources. simpl. apply Forall_map. simpl.
  by apply analyze_kept.
Qed.

(** C5: the filter keeps a record exactly when its payload is truthy and
    [parse_resources], the function the enricher calls, returns at least
    one element; so the loop over a result set of mappings is that filter,
    and it is the filter of the specification, [dataset_filter_spec].
    Every enriched record of a filtered batch has [total_sources >= 1]
    and a payload that is not null, and so has every record of a full
    dump that a run writes. *)
Theorem filter_agrees_with_enrichment :
  (forall record : rawrec,
     has_sources json_loads record = true
     <-> truthy (get record "resources" PNone) = true
         /\ 1 <= len (parse_resources json_loads (get record "resources" PNone)))
  /\ (forall record : rawrec,
        total_sources (enrich json_loads record)
        = len (parse_resources json_loads (get record "resources" PNone)))
  /\ (forall data : list rawrec,
        filter_records json_loads (PDict <$> data) []
        = Returned (List.filter (has_sources json_loads) data))
  /\ (forall data : list rawrec,
        filter_records json_loads (PDict <$> data) []
        = Returned (dataset_filter_spec json_loads data))
  /\ (forall data : list rawrec,
        Forall (fun r => 1 <= total_sources r /\ resources_raw r <> PNone)
          (analyze_data json_loads (List.filter (has_sources json_loads) data)))
  /\ (forall record : rawrec,
        get record "resources" PNone = PNone ->
        has_sources json_loads record = false)
  /\ Forall dump_has_sources (files (run fresh).2).
Proof.
  split; [exact (has_sources_total json_loads)|].
  split; [done|].
  split; [intros data; by rewrite filter_records_dicts|].
  split; [|split; [|split]].
  - intros data. rewrite filter_records_dicts. simpl. f_equal.
    apply filter_ext. intros r. apply has_sources_kept_by_spec.
  - intros data. apply analyze_kept.
    apply Forall_forall. intros r Hr.
    by apply list_elem_of_In, filter_In in Hr as [_ Hr].
  - intros record Hnull. unfold has_sources. by rewrite Hnull.
  - destruct (main_files_prefix json_loads API_KEY urlopen timestamp disk_accepts
                fresh) as (k & ->).
    destruct (fetch_run json_loads API_KEY urlopen 5000 PNone fresh)
      as (o & msgs & -> & Hkept).
    simpl. apply Forall_take.
    destruct o as [[|q qs]|e]; [constructor| |constructor].
    by apply artifacts_have_sources, Hkept.
Qed.

(** C6, as the code has it: on every fetch-stage failure [api_call]
    prints a diagnostic and returns [None]; the fetch stage then hands
    the orchestrator the empty list, and [main] prints that no data was
    fetched and returns without writing a file.  An answer whose [data]
    is the empty list takes the same path with the same values. *)
Theorem fetch_failure_reported_as_no_data (w : world) :
  (forall k,
     fetch_failure json_loads API_KEY (urlopen main_url main_body) = Some k ->
     (exists msgs, msgs <> []
        /\ api_call json_loads API_KEY urlopen "get-by" main_body w
           = (Returned PNone, World (console w ++ msgs) (files w)))
     /\ (fetch 5000 PNone w).1 = Returned []
     /\ (run w).1 = Returned tt
     /\ files (run w).2 = files w
     /\ last (console (run w).2) = Some ErrNoDataFetched)
  /\ (forall raw (result : rawrec),
        API_KEY <> EmptyString ->
        urlopen main_url main_body = HttpResponse raw ->
        json_loads raw = Some (PDict result) ->
        result !! "data" = Some (PList []) ->
        (fetch 5000 PNone w).1 = Returned []
        /\ (run w).1 = Returned tt
        /\ files (run w).2 = files w
        /\ last (console (run w).2) = Some ErrNoDataFetched).
Proof.
  split.
  - intros k Hfail.
    split; [exact (api_call_failure json_loads API_KEY urlopen _ k w Hfail)|].
    by apply (failed_fetch_run k).
  - intros raw result. apply empty_result_run.
Qed.

End PipelineClaims.

(** ** Aggregator *)

Section AggregatorFacts.

(** Rational addition is commutative and associative on the nose, not
    only up to [Qeq]: both sides build the same numerator and
    denominator. *)
Lemma Qplus_swap (a x y : Q) : Qplus (Qplus a x) y = Qplus (Qplus a y) x.
Proof.
  destruct a as [an ad], x as [xn xd], y as [yn yd].
  unfold Qplus. simpl. f_equal; [|lia].
  rewrite !Pos2Z.inj_mul. ring.
Qed.

(** A left fold of an operation that lets its right operands trade
    places does not depend on the order of the list. *)
Lemma fold_left_perm {A B} (op : A -> B -> A) (l l' : list B) :
  (forall a x y, op (op a x) y = op (op a y) x) ->
  l ≡ₚ l' -> forall a, fold_left op l a = fold_left op l' a.
Proof.
  intros Hswap Hperm.
  induction Hperm as [|x l l' _ IH|x y l|l l' l'' _ IH1 _ IH2]; intros a; simpl.
  - reflexivity.
  - apply IH.
  - by rewrite Hswap.
  - by rewrite IH1.
Qed.

Lemma sum_Z_perm (l l' : list Z) : l ≡ₚ l' -> sum_Z l = sum_Z l'.
Proof. intros H. apply fold_left_perm; [intros; lia | done]. Qed.

Lemma sum_Q_perm (l l' : list Q) : l ≡ₚ l' -> sum_Q l = sum_Q l'.
Proof. intros H. apply fold_left_perm; [apply Qplus_swap | done]. Qed.

Lemma List_filter_perm {A} (f : A -> bool) (l l' : list A) :
  l ≡ₚ l' -> List.filter f l ≡ₚ List.filter f l'.
Proof.
  induction 1 as [|x l l' _ IH|x y l|l l' l'' _ IH1 _ IH2]; simpl.
  - done.
  - destruct (f x); [by constructor | done].
  - destruct (f x), (f y); try done. apply perm_swap.
  - by etrans.
Qed.

Lemma len_perm {A} (l l' : list A) : l ≡ₚ l' -> len l = len l'.
Proof. intros H. unfold len. by rewrite (Permutation_length H). Qed.

Lemma avg_Z_perm (k : enriched -> Z) (g g' : list enriched) :
  g ≡ₚ g' -> avg_Z k g = avg_Z k g'.
Proof.
  intros H. destruct g as [|r g], g' as [|r' g'].
  - reflexivity.
  - by apply Permutation_nil_cons in H.
  - symmetry in H. by apply Permutation_nil_cons in H.
  - unfold avg_Z.
    rewrite (sum_Z_perm _ _ (Permutation_map k H)). by rewrite (len_perm _ _ H).
Qed.

Lemma avg_Q_perm (k : enriched -> Q) (g g' : list enriched) :
  g ≡ₚ g' -> avg_Q k g = avg_Q k g'.
Proof.
  intros H. destruct g as [|r g], g' as [|r' g'].
  - reflexivity.
  - by apply Permutation_nil_cons in H.
  - symmetry in H. by apply Permutation_nil_cons in H.
  - unfold avg_Q.
    rewrite (sum_Q_perm _ _ (Permutation_map k H)). by rewrite (len_perm _ _ H).
Qed.

(** [sum(1 for r in ... if ...)] counts. *)
Lemma sum_of_ones {A} (l : list A) : forall a,
  fold_left Z.add (map (fun _ => 1) l) a = a + len l.
Proof.
  induction l as [|x l IH]; intros a; simpl.
  - unfold len. simpl. lia.
  - rewrite IH. unfold len. simpl length. lia.
Qed.

Lemma count_mentioned (rs : list enriched) :
  sum_Z (map (fun _ => 1) (List.filter brand_in_response rs))
  = len (mentioned_group rs).
Proof. unfold sum_Z. by rewrite sum_of_ones. Qed.

Lemma groups_length (rs : list enriched) :
  len (mentioned_group rs) + len (not_mentioned_group rs) = len rs.
Proof.
  unfold mentioned_group, not_mentioned_group, len.
  induction rs as [|r rs IH]; [reflexivity|]. simpl.
  destruct (brand_in_response r); simpl length; lia.
Qed.

Lemma groups_permutation (rs : list enriched) :
  rs ≡ₚ mentioned_group rs ++ not_mentioned_group rs.
Proof.
  unfold mentioned_group, not_mentioned_group.
  induction rs as [|r rs IH]; [done|]. simpl.
  destruct (brand_in_response r); simpl.
  - by constructor.
  - rewrite <- Permutation_middle. by constructor.
Qed.

(** C7: the two groups are disjoint by [brand_in_response], together
    they are the input, the two counts of the summary are their sizes and
    add up to [total_records], and the three means of an empty group
    are 0. *)
Theorem summary_partitions_records (rs : list enriched) :
  let s := generate_summary_stats rs in
  total_records s = len rs
  /\ records_with_brand_in_response s = len (mentioned_group rs)
  /\ records_without_brand_in_response s = len (not_mentioned_group rs)
  /\ records_with_brand_in_response s + records_without_brand_in_response s
     = total_records s
  /\ Forall (fun r => brand_in_response r = true) (mentioned_group rs)
  /\ Forall (fun r => brand_in_response r = false) (not_mentioned_group rs)
  /\ rs ≡ₚ mentioned_group rs ++ not_mentioned_group rs
  /\ (mentioned_group rs = [] ->
      avg_sources_when_mentioned s = 0%Q
      /\ avg_brand_sources_when_mentioned s = 0%Q
      /\ avg_brand_pct_when_mentioned s = 0%Q)
  /\ (not_mentioned_group rs = [] ->
      avg_sources_when_not_mentioned s = 0%Q
      /\ avg_brand_sources_when_not_mentioned s = 0%Q
      /\ avg_brand_pct_when_not_mentioned s = 0%Q).
Proof.
  intros s. subst s. simpl.
  rewrite count_mentioned. pose proof (groups_length rs) as Hlen.
  repeat split; try lia.
  - apply Forall_forall. intros r Hr.
    by apply list_elem_of_In, filter_In in Hr as [_ Hr].
  - apply Forall_forall. intros r Hr.
    apply list_elem_of_In, filter_In in Hr as [_ Hr].
    by apply negb_true_iff in Hr.
  - apply groups_permutation.
  - by rewrite H.
  - by rewrite H.
  - by rewrite H.
  - by rewrite H.
  - by rewrite H.
  - by rewrite H.
Qed.

(** In exact arithmetic the summary is the same for every rearrangement
    of its input: the counts and the six means are equal. *)
Lemma summary_exact_order_independent (rs rs' : list enriched) :
  rs ≡ₚ rs' -> generate_summary_stats rs = generate_summary_stats rs'.
Proof.
  intros H. unfold generate_summary_stats.
  assert (Hm : mentioned_group rs ≡ₚ mentioned_group rs')
    by by apply List_filter_perm.
  assert (Hn : not_mentioned_group rs ≡ₚ not_mentioned_group rs')
    by by apply List_filter_perm.
  rewrite (len_perm _ _ H).
  rewrite (sum_Z_perm _ _ (Permutation_map (fun _ => 1)
                             (List_filter_perm brand_in_response _ _ H))).
  rewrite (avg_Z_perm total_sources _ _ Hm), (avg_Z_perm total_sources _ _ Hn).
  rewrite (avg_Z_perm sources_with_brand _ _ Hm),
          (avg_Z_perm sources_with_brand _ _ Hn).
  rewrite (avg_Q_perm brand_mention_percentage _ _ Hm),
          (avg_Q_perm brand_mention_percentage _ _ Hn).
  reflexivity.
Qed.

End AggregatorFacts.

(** ** The pipeline with the exceptions that escape it *)

Section FullFacts.

Variable json_loads : string -> Full.decoding.
Variable API_KEY : string.
Variable urlopen : string -> rawrec -> http_outcome.
Variable timestamp : string.
Variable disk_accepts : string -> bool.
Variable encodable : csv_row -> bool.

Local Abbreviation loads := (Full.loads json_loads).
Local Abbreviation fetch := (Full.fetch_queries_execution_data json_loads API_KEY urlopen).
Local Abbreviation save := (Full.save_results timestamp disk_accepts encodable).
Local Abbreviation run :=
  (Full.main json_loads API_KEY urlopen timestamp disk_accepts encodable).

(** The parser returns what the first layer computes, and raises on a
    text only, what the decoder raised. *)
Lemma full_parse_cases p :
  match Full.parse_resources json_loads p with
  | Returned l => l = parse_resources loads p
  | Raised e =>
      exists s, p = PStr s /\ s <> EmptyString
        /\ ((json_loads s = Full.RaisesValueError /\ e = ValueError)
            \/ (json_loads s = Full.RaisesRecursionError /\ e = RecursionError))
  end.
Proof.
  unfold Full.parse_resources, parse_resources, decode_payload, Full.loads.
  destruct p as [|b|z|f|s|l|d]; simpl; try done.
  - by destruct b.
  - by destruct (negb (z =? 0)).
  - by destruct (negb (PrimFloat.eqb f 0)).
  - destruct s as [|c s]; [done|].
    destruct (json_loads (String c s)) eqn:Hs; try done.
    + exists (String c s). split; [done|]. split; [done|]. by left.
    + exists (String c s). split; [done|]. split; [done|]. by right.
  - by destruct l.
  - by destruct (negb (bool_decide (d = ∅))).
Qed.

Lemma full_parse_returned p l :
  Full.parse_resources json_loads p = Returned l -> l = parse_resources loads p.
Proof. intros H. pose proof (full_parse_cases p) as Hc. by rewrite H in Hc. Qed.

(** A payload whose text the handler covers is parsed. *)
Lemma full_parse_absorbed p :
  (forall s, p = PStr s -> Full.absorbed (json_loads s) = true) ->
  Full.parse_resources json_loads p = Returned (parse_resources loads p).
Proof.
  intros Hp. pose proof (full_parse_cases p) as Hc.
  destruct (Full.parse_resources json_loads p) as [l|e]; [by rewrite Hc|].
  destruct Hc as (s & -> & _ & [[Hs _]|[Hs _]]);
    specialize (Hp s eq_refl); by rewrite Hs in Hp.
Qed.

Lemma full_has_sources_returned record b :
  Full.has_sources json_loads record = Returned b -> has_sources loads record = b.
Proof.
  unfold Full.has_sources, has_sources.
  destruct (truthy (get record "resources" PNone)); [|by intros [= <-]].
  destruct (Full.parse_resources json_loads _) as [l|e] eqn:Hp; [|done].
  intros [= <-]. by rewrite (full_parse_returned _ _ Hp).
Qed.

Lemma full_has_sources_absorbed record :
  (forall s, get record "resources" PNone = PStr s ->
             Full.absorbed (json_loads s) = true) ->
  Full.has_sources json_loads record = Returned (has_sources loads record).
Proof.
  intros Hp. unfold Full.has_sources, has_sources.
  destruct (truthy (get record "resources" PNone)); [|done].
  by rewrite (full_parse_absorbed _ Hp).
Qed.

(** The test of the filter raises what the parser raises on the payload. *)
Lemma full_has_sources_raised record e :
  Full.has_sources json_loads record = Raised e ->
  exists s, get record "resources" PNone = PStr s /\ s <> EmptyString
    /\ ((json_loads s = Full.RaisesValueError /\ e = ValueError)
        \/ (json_loads s = Full.RaisesRecursionError /\ e = RecursionError)).
Proof.
  unfold Full.has_sources.
  destruct (truthy (get record "resources" PNone)); [|done].
  pose proof (full_parse_cases (get record "resources" PNone)) as Hc.
  destruct (Full.parse_resources json_loads _) as [l|e1]; [done|].
  by intros [= <-].
Qed.

(** The enricher returns the record of the first layer whenever it
    returns. *)
Lemma full_enrich_cases qe :
  Full.enrich json_loads qe
  = match Full.parse_resources json_loads (get qe "resources" PNone) with
    | Returned _ => Returned (enrich loads qe)
    | Raised e => Raised e
    end.
Proof.
  unfold Full.enrich.
  destruct (Full.parse_resources json_loads _) as [l|e] eqn:Hp; [|done].
  apply full_parse_returned in Hp. unfold enrich. by rewrite <- Hp.
Qed.

Lemma full_enrich_returned qe r :
  Full.enrich json_loads qe = Returned r -> r = enrich loads qe.
Proof.
  rewrite full_enrich_cases.
  destruct (Full.parse_resources json_loads _); [by intros [= <-] | done].
Qed.

(** A record the filter kept is enriched without an exception. *)
Lemma full_kept_enriched record :
  Full.has_sources json_loads record = Returned true ->
  Full.enrich json_loads record = Returned (enrich loads record).
Proof.
  rewrite full_enrich_cases. unfold Full.has_sources.
  destruct (truthy (get record "resources" PNone)); [|done].
  by destruct (Full.parse_resources json_loads _).
Qed.

Lemma full_analyze_from qs : forall acc,
  Forall (fun r => Full.has_sources json_loads r = Returned true) qs ->
  Full.analyze_from json_loads qs acc = Returned (acc ++ map (enrich loads) qs).
Proof.
  induction qs as [|qe qs IH]; intros acc Hk; simpl.
  - by rewrite app_nil_r.
  - apply Forall_cons in Hk as [Hqe Hk].
    rewrite (full_kept_enriched _ Hqe), (IH _ Hk). by rewrite <- app_assoc.
Qed.

Lemma full_analyze_kept qs :
  Forall (fun r => Full.has_sources json_loads r = Returned true) qs ->
  Full.analyze_data json_loads qs = Returned (analyze_data loads qs).
Proof.
  intros Hk. unfold Full.analyze_data.
  by rewrite (full_analyze_from _ [] Hk), analyze_data_map.
Qed.

(** Whenever the enrichment of a batch returns, it returns the records of
    the first layer. *)
Lemma full_analyze_from_returned qs : forall acc a,
  Full.analyze_from json_loads qs acc = Returned a ->
  a = acc ++ map (enrich loads) qs.
Proof.
  induction qs as [|qe qs IH]; intros acc a; simpl.
  - intros [= <-]. by rewrite app_nil_r.
  - destruct (Full.enrich json_loads qe) as [r|e] eqn:Hr; [|done].
    intros Ha. apply IH in Ha. rewrite (full_enrich_returned _ _ Hr) in Ha.
    by rewrite <- app_assoc in Ha.
Qed.

(** The loop of lines 131-138 in full. *)
Lemma full_filter_cases data : forall acc,
  match Full.filter_records json_loads data acc with
  | Returned records =>
      exists rows : list rawrec,
        data = PDict <$> rows
        /\ records = acc ++ List.filter (has_sources loads) rows
        /\ Forall (fun r => exists b, Full.has_sources json_loads r = Returned b) rows
  | Raised e =>
      exists (rows : list rawrec) v rest,
        data = (PDict <$> rows) ++ v :: rest
        /\ Forall (fun r => exists b, Full.has_sources json_loads r = Returned b) rows
        /\ ((is_dict v = false /\ e = AttributeError)
            \/ exists r, v = PDict r /\ Full.has_sources json_loads r = Raised e)
  end.
Proof.
  induction data as [|v data IH]; intros acc; simpl.
  - exists []. by rewrite app_nil_r.
  - destruct v as [| | | | | |record];
      try (eexists [], _, data; split; [reflexivity|]; split; [done|]; by left).
    destruct (Full.has_sources json_loads record) as [b|e] eqn:Hs.
    + pose proof (full_has_sources_returned _ _ Hs) as Hb.
      assert (Hret : exists b', Full.has_sources json_loads record = Returned b')
        by by exists b.
      destruct b.
      * specialize (IH (acc ++ [record])).
        destruct (Full.filter_records json_loads data (acc ++ [record]))
          as [records|e].
        -- destruct IH as (rows & -> & -> & Hall). exists (record :: rows).
           split; [done|]. split; [|by constructor].
           simpl. rewrite Hb. by rewrite <- app_assoc.
        -- destruct IH as (rows & v & rest & -> & Hall & Hv).
           exists (record :: rows), v, rest.
           split; [done|]. split; [by constructor | done].
      * specialize (IH acc).
        destruct (Full.filter_records json_loads data acc) as [records|e].
        -- destruct IH as (rows & -> & -> & Hall). exists (record :: rows).
           split; [done|]. split; [|by constructor].
           simpl. by rewrite Hb.
        -- destruct IH as (rows & v & rest & -> & Hall & Hv).
           exists (record :: rows), v, rest.
           split; [done|]. split; [by constructor | done].
    + exists [], (PDict record), data. split; [done|]. split; [done|].
      right. by exists record.
Qed.

(** What the loop returns passed its test. *)
Lemma full_filter_kept data : forall acc records,
  Full.filter_records json_loads data acc = Returned records ->
  Forall (fun r => Full.has_sources json_loads r = Returned true) acc ->
  Forall (fun r => Full.has_sources json_loads r = Returned true) records.
Proof.
  induction data as [|v data IH]; intros acc records; simpl.
  - intros [= <-]. done.
  - destruct v as [| | | | | |record]; try discriminate.
    destruct (Full.has_sources json_loads record) as [[|]|e] eqn:Hs; [| |done].
    + intros Hrun Hacc. apply (IH _ _ Hrun).
      apply Forall_app. split; [done|]. by constructor.
    + intros Hrun Hacc. by apply (IH _ _ Hrun).
Qed.

(** On a result set of mappings whose payloads the handler covers, the
    loop is the filter of the first layer. *)
Lemma full_filter_absorbed (rows : list rawrec) : forall acc,
  Forall (fun r => forall s, get r "resources" PNone = PStr s ->
                             Full.absorbed (json_loads s) = true) rows ->
  Full.filter_records json_loads (PDict <$> rows) acc
  = Returned (acc ++ List.filter (has_sources loads) rows).
Proof.
  induction rows as [|r rows IH]; intros acc Hall; simpl.
  - by rewrite app_nil_r.
  - apply Forall_cons in Hall as [Hr Hall].
    rewrite (full_has_sources_absorbed _ Hr).
    destruct (has_sources loads r); rewrite (IH _ Hall); [|done].
    by rewrite <- app_assoc.
Qed.

(** The fetch stage after the client has answered. *)
Lemma full_fetch_after_call limit eid w v w1 :
  api_call loads API_KEY urlopen "get-by" (request_body limit eid)
    (World (console w ++ [InfoFetching limit]) (files w)) = (Returned v, w1) ->
  fetch limit eid w
  = (if truthy v then
       n <- lift (py_len v);;
       print (InfoFetched n);;;
       items <- lift (py_iter v);;
       records_with_sources <- lift (Full.filter_records json_loads items []);;
       print (InfoFiltered (len records_with_sources) (n - len records_with_sources));;;
       ret records_with_sources
     else print ErrFailedToFetch;;; ret []) w1.
Proof.
  intros Hcall. unfold Full.fetch_queries_execution_data.
  unfold bind at 1. unfold print at 1. unfold bind at 1. by rewrite Hcall.
Qed.

(** The fetch stage writes no file; what it returns passed the filter,
    and what it raises is [TypeError], [AttributeError] or what the
    filter loop raised. *)
Lemma full_fetch_run limit eid w :
  exists o msgs,
    fetch limit eid w = (o, World (console w ++ msgs) (files w))
    /\ (forall records, o = Returned records ->
          Forall (fun r => Full.has_sources json_loads r = Returned true) records)
    /\ (forall e, o = Raised e ->
          e = TypeError \/ e = AttributeError \/ e = ValueError \/ e = RecursionError).
Proof.
  destruct (api_call_run loads API_KEY urlopen "get-by" (request_body limit eid)
              (World (console w ++ [InfoFetching limit]) (files w)))
    as (data & msgs & Hcall).
  rewrite (full_fetch_after_call _ _ _ _ _ Hcall).
  simpl console. simpl files. rewrite <- app_assoc.
  destruct (truthy data); io_simpl.
  2:{ eexists _, _. rewrite <- app_assoc. split; [reflexivity|].
      split; [|discriminate]. intros ? [= <-]. constructor. }
  destruct (py_len data) as [n|e] eqn:Hlen; io_simpl.
  { destruct (py_iter data) as [items|e] eqn:Hit; io_simpl.
    { pose proof (full_filter_cases items []) as Hcases.
      destruct (Full.filter_records json_loads items []) as [records|e] eqn:Hf;
        io_simpl.
      - eexists _, _. rewrite <- !app_assoc. split; [reflexivity|].
        split; [|discriminate].
        intros ? [= <-]. by apply (full_filter_kept _ _ _ Hf).
      - eexists _, _. rewrite <- app_assoc. split; [reflexivity|].
        split; [discriminate|]. intros ? [= <-].
        destruct Hcases as (rows & v & rest & _ & _ & [[_ ->]|(r & _ & Hr)]).
        + right. by left.
        + apply full_has_sources_raised in Hr
            as (s & _ & _ & [[_ ->]|[_ ->]]); right; right; [by left | by right]. }
    eexists _, _. rewrite <- app_assoc. split; [reflexivity|].
    split; [discriminate|]. intros ? [= <-].
    destruct data; simpl in Hit; try discriminate; injection Hit as <-; by left. }
  eexists _, _. split; [reflexivity|].
  split; [discriminate|]. intros ? [= <-].
  destruct data; simpl in Hlen; try discriminate; injection Hlen as <-; by left.
Qed.

(** The loop of lines 328-329 in full. *)
Lemma write_rows_cases analyzed_data : forall written,
  let r := Full.write_rows encodable analyzed_data written in
  (r.1 = Returned tt
   /\ Forall (fun a => encodable (csv_line a) = true) analyzed_data
   /\ r.2 = written ++ map csv_line analyzed_data)
  \/ (r.1 = Raised UnicodeEncodeError
      /\ exists pre a post,
           analyzed_data = pre ++ a :: post
           /\ Forall (fun a => encodable (csv_line a) = true) pre
           /\ encodable (csv_line a) = false
           /\ r.2 = written ++ map csv_line pre).
Proof.
  induction analyzed_data as [|a l IH]; intros written; simpl.
  - left. by rewrite app_nil_r.
  - destruct (encodable (csv_line a)) eqn:Ha.
    + destruct (IH (written ++ [csv_line a]))
        as [(H1 & H2 & H3)|(H1 & pre & b & post & -> & H2 & H3 & H4)].
      * left. split; [done|]. split; [by constructor|].
        rewrite H3. by rewrite <- app_assoc.
      * right. split; [done|]. exists (a :: pre), b, post.
        split; [done|]. split; [by constructor|]. split; [done|].
        rewrite H4. by rewrite <- app_assoc.
    + right. split; [done|]. exists [], a, l. simpl.
      by rewrite app_nil_r.
Qed.

(** [save_results] step by step. *)
Lemma full_save_results_run analyzed_data s w :
  exists c,
    save analyzed_data s w
    = if negb (disk_accepts OUTPUT_DIR) then (Raised OSError, World c (files w))
      else if negb (disk_accepts (full_data_path timestamp))
      then (Raised OSError, World c (files w))
      else if negb (disk_accepts (summary_path timestamp))
      then (Raised OSError,
            World c (files w ++ [File (full_data_path timestamp)
                                      (FullData (map clean analyzed_data))]))
      else if negb (disk_accepts (csv_path timestamp))
      then (Raised OSError,
            World c (files w ++ [File (full_data_path timestamp)
                                      (FullData (map clean analyzed_data));
                                 File (summary_path timestamp) (SummaryData s)]))
      else (match (Full.write_rows encodable analyzed_data []).1 with
            | Returned _ =>
                Returned (full_data_path timestamp, summary_path timestamp,
                          csv_path timestamp)
            | Raised e => Raised e
            end,
            World c (files w
                     ++ [File (full_data_path timestamp)
                              (FullData (map clean analyzed_data));
                         File (summary_path timestamp) (SummaryData s);
                         File (csv_path timestamp)
                              (CsvData (Full.write_rows encodable analyzed_data []).2)])).
Proof.
  destruct w as [c fs].
  unfold Full.save_results, Full.write_csv, makedirs, write_file. io_simpl.
  destruct (disk_accepts OUTPUT_DIR); io_simpl; [|by eexists].
  destruct (disk_accepts (full_data_path timestamp)); io_simpl; [|by eexists].
  destruct (disk_accepts (summary_path timestamp)); io_simpl; [|by eexists].
  destruct (disk_accepts (csv_path timestamp)); io_simpl;
    [|eexists; by rewrite <- ?app_assoc].
  destruct (Full.write_rows encodable analyzed_data []) as [[[]|e] rows]; simpl;
    eexists; by rewrite <- ?app_assoc.
Qed.

(** [main], by the outcome of the fetch stage: the records the filter
    kept are enriched without an exception. *)
Lemma full_main_unfold w :
  run w
  = match fetch 5000 PNone w with
    | (Raised e, w1) => (Raised e, w1)
    | (Returned [], w1) => print ErrNoDataFetched w1
    | (Returned (q :: qs), w1) =>
        let analyzed_data := analyze_data loads (q :: qs) in
        (print (InfoSummary (generate_summary_stats analyzed_data));;;
         _ <- save analyzed_data (generate_summary_stats analyzed_data);;
         print InfoComplete) w1
    end.
Proof.
  unfold Full.main. unfold bind at 1.
  destruct (full_fetch_run 5000 PNone w) as (o & msgs & Hf & Hk & _). rewrite Hf.
  destruct o as [[|q qs]|e]; try done.
  specialize (Hk _ eq_refl).
  unfold bind at 1, lift. rewrite (full_analyze_kept _ Hk).
  cbv zeta. unfold bind at 1. by rewrite print_summary_nonempty.
Qed.

(** A run that fetched records ends as [save_results] ends. *)
Lemma full_main_after_fetch w q qs w1 :
  fetch 5000 PNone w = (Returned (q :: qs), w1) ->
  let a := analyze_data loads (q :: qs) in
  let r := save a (generate_summary_stats a)
             (World (console w1 ++ [InfoSummary (generate_summary_stats a)])
                    (files w1)) in
  run w = match r.1 with
          | Returned _ =>
              (Returned tt, World (console r.2 ++ [InfoComplete]) (files r.2))
          | Raised e => (Raised e, r.2)
          end.
Proof.
  intros Hf a r. rewrite full_main_unfold, Hf. cbv zeta. fold a.
  unfold bind, print. cbv iota beta. fold r.
  by destruct r as [[paths|e] w3].
Qed.

(** A failed fetch stage, seen from the orchestrator. *)
Lemma full_failed_fetch_run k w :
  fetch_failure loads API_KEY (urlopen main_url main_body) = Some k ->
  (fetch 5000 PNone w).1 = Returned []
  /\ (run w).1 = Returned tt
  /\ files (run w).2 = files w
  /\ last (console (run w).2) = Some ErrNoDataFetched.
Proof.
  intros Hfail.
  destruct (api_call_failure loads API_KEY urlopen main_body k
              (World (console w ++ [InfoFetching 5000]) (files w)) Hfail)
    as (msgs & _ & Hcall).
  pose proof (full_fetch_after_call 5000 PNone w _ _ Hcall) as Hf.
  simpl in Hf. rewrite full_main_unfold, Hf. unfold bind, print, ret. simpl.
  by rewrite last_snoc.
Qed.

(** The rows before the first line that cannot be encoded are written. *)
Lemma write_rows_stops pre a post : forall written,
  Forall (fun x => encodable (csv_line x) = true) pre ->
  encodable (csv_line a) = false ->
  Full.write_rows encodable (pre ++ a :: post) written
  = (Raised UnicodeEncodeError, written ++ map csv_line pre).
Proof.
  induction pre as [|x pre IH]; intros written Hpre Ha; simpl.
  - by rewrite Ha, app_nil_r.
  - apply Forall_cons in Hpre as [Hx Hpre]. rewrite Hx, (IH _ Hpre Ha).
    by rewrite <- app_assoc.
Qed.

Lemma write_rows_all analyzed_data : forall written,
  Forall (fun x => encodable (csv_line x) = true) analyzed_data ->
  Full.write_rows encodable analyzed_data written
  = (Returned tt, written ++ map csv_line analyzed_data).
Proof.
  induction analyzed_data as [|x l IH]; intros written Hall; simpl.
  - by rewrite app_nil_r.
  - apply Forall_cons in Hall as [Hx Hall]. rewrite Hx, (IH _ Hall).
    by rewrite <- app_assoc.
Qed.

(** A run that fetched records and returns has written the three
    artifacts, complete. *)
Lemma full_returned_run_files w q qs :
  (fetch 5000 PNone w).1 = Returned (q :: qs) ->
  (run w).1 = Returned tt ->
  files (run w).2 = files w ++ artifacts timestamp (analyze_data loads (q :: qs)).
Proof.
  destruct (full_fetch_run 5000 PNone w) as (o & msgs & Hf & _).
  intros Hq. rewrite Hf in Hq. simpl in Hq. subst o.
  rewrite (full_main_after_fetch w q qs _ Hf). cbv zeta.
  set (a := analyze_data loads (q :: qs)).
  match goal with |- context [Full.save_results _ _ _ _ _ ?w0] => set (w2 := w0) end.
  destruct (full_save_results_run a (generate_summary_stats a) w2) as (c & ->).
  pose proof (write_rows_cases a []) as Hrows. cbv zeta in Hrows.
  destruct (disk_accepts OUTPUT_DIR); simpl; [|done].
  destruct (disk_accepts (full_data_path timestamp)); simpl; [|done].
  destruct (disk_accepts (summary_path timestamp)); simpl; [|done].
  destruct (disk_accepts (csv_path timestamp)); simpl; [|done].
  destruct Hrows as [(H1 & _ & H3)|(H1 & _)]; rewrite H1; [|done].
  by rewrite H3.
Qed.

(** It does return when the disk accepts every path and every line can
    be encoded. *)
Lemma full_run_returns w q qs :
  (fetch 5000 PNone w).1 = Returned (q :: qs) ->
  (forall p, disk_accepts p = true) ->
  (forall row, encodable row = true) ->
  (run w).1 = Returned tt.
Proof.
  destruct (full_fetch_run 5000 PNone w) as (o & msgs & Hf & _).
  intros Hq Hdisk Henc. rewrite Hf in Hq. simpl in Hq. subst o.
  rewrite (full_main_after_fetch w q qs _ Hf). cbv zeta.
  set (a := analyze_data loads (q :: qs)).
  match goal with |- context [Full.save_results _ _ _ _ _ ?w0] => set (w2 := w0) end.
  destruct (full_save_results_run a (generate_summary_stats a) w2) as (c & ->).
  rewrite !Hdisk. simpl.
  rewrite (write_rows_all a []); [done|].
  apply Forall_forall. intros x _. apply Henc.
Qed.

End FullFacts.

(** ** The two layers

    Where [json.loads] raises nothing but [JSONDecodeError] and every
    line of the export can be encoded, the functions of module [Full] do
    what the functions of the first layer do. *)

Section FullRefinement.

Variable json_loads : string -> Full.decoding.
Variable API_KEY : string.
Variable urlopen : string -> rawrec -> http_outcome.
Variable timestamp : string.
Variable disk_accepts : string -> bool.
Variable encodable : csv_row -> bool.

Hypothesis decoder_absorbed : forall s, Full.absorbed (json_loads s) = true.
Hypothesis lines_encodable : forall row, encodable row = true.

Local Abbreviation loads := (Full.loads json_loads).

Lemma full_parse_refines p :
  Full.parse_resources json_loads p = Returned (parse_resources loads p).
Proof. apply full_parse_absorbed. intros s _. apply decoder_absorbed. Qed.

Lemma full_enrich_refines qe :
  Full.enrich json_loads qe = Returned (enrich loads qe).
Proof. by rewrite full_enrich_cases, full_parse_refines. Qed.

Lemma full_analyze_refines qs :
  Full.analyze_data json_loads qs = Returned (analyze_data loads qs).
Proof.
  unfold Full.analyze_data. rewrite analyze_data_map.
  change (map (enrich loads) qs) with ([] ++ map (enrich loads) qs).
  generalize (@nil enriched).
  induction qs as [|qe qs IH]; intros acc; simpl.
  - by rewrite app_nil_r.
  - rewrite full_enrich_refines, IH. by rewrite <- app_assoc.
Qed.

Lemma full_filter_refines data : forall acc,
  Full.filter_records json_loads data acc = filter_records loads data acc.
Proof.
  induction data as [|v data IH]; intros acc; simpl; [done|].
  destruct v as [| | | | | |record]; try done.
  rewrite (full_has_sources_absorbed json_loads record)
    by (intros s _; apply decoder_absorbed).
  destruct (has_sources loads record); apply IH.
Qed.

Lemma full_fetch_refines limit eid w :
  Full.fetch_queries_execution_data json_loads API_KEY urlopen limit eid w
  = fetch_queries_execution_data loads API_KEY urlopen limit eid w.
Proof.
  unfold Full.fetch_queries_execution_data, fetch_queries_execution_data.
  unfold bind, lift.
  destruct (print (InfoFetching limit) w) as [[[]|e] w0]; [|done].
  destruct (api_call loads API_KEY urlopen "get-by" _ w0) as [[data|e] w1]; [|done].
  destruct (truthy data); [|done].
  destruct (py_len data) as [n|e]; [|done].
  destruct (print (InfoFetched n) w1) as [[[]|e] w2]; [|done].
  destruct (py_iter data) as [items|e]; [|done].
  by rewrite full_filter_refines.
Qed.

Lemma full_save_refines analyzed_data s w :
  Full.save_results timestamp disk_accepts encodable analyzed_data s w
  = save_results timestamp disk_accepts analyzed_data s w.
Proof.
  unfold Full.save_results, save_results, Full.write_csv, write_file, bind.
  destruct (makedirs disk_accepts OUTPUT_DIR w) as [[[]|e] w0]; [|done].
  destruct (disk_accepts (full_data_path timestamp)); [|done].
  destruct (print (InfoSaved (full_data_path timestamp)) _) as [[[]|e] w1]; [|done].
  destruct (disk_accepts (summary_path timestamp)); [|done].
  destruct (print (InfoSaved (summary_path timestamp)) _) as [[[]|e] w2]; [|done].
  destruct (disk_accepts (csv_path timestamp)); [|done].
  rewrite (write_rows_all encodable analyzed_data []); [done|].
  apply Forall_forall. intros x _. apply lines_encodable.
Qed.

Lemma full_main_refines w :
  Full.main json_loads API_KEY urlopen timestamp disk_accepts encodable w
  = main loads API_KEY urlopen timestamp disk_accepts w.
Proof.
  rewrite full_main_unfold, main_unfold, full_fetch_refines.
  destruct (fetch_queries_execution_data loads API_KEY urlopen 5000 PNone w)
    as [[[|q qs]|e] w1]; try done.
  cbv zeta. unfold bind, print. cbv iota beta.
  by rewrite full_save_refines.
Qed.

End FullRefinement.

Section FullClaims.

Variable json_loads : string -> Full.decoding.
Variable API_KEY : string.
Variable urlopen : string -> rawrec -> http_outcome.
Variable timestamp : string.
Variable disk_accepts : string -> bool.
Variable encodable : csv_row -> bool.

Local Abbreviation loads := (Full.loads json_loads).
Local Abbreviation fetch := (Full.fetch_queries_execution_data json_loads API_KEY urlopen).
Local Abbreviation run :=
  (Full.main json_loads API_KEY urlopen timestamp disk_accepts encodable).

(** C3, as the code has it by design: a falsy payload gives the empty
    list, and so does a text on which [json.loads] raises
    [JSONDecodeError]; a payload that is not a text always gives a list,
    and a text that decodes gives the list of the decoded value.  A list
    payload comes back as it is, so the returned elements are the
    payload's own, of any type.  The three-field entries are built by
    [analyze_data], one per mapping element: [is_customer_mentioned] is
    that field coerced to a boolean, while [url] and [domain] are the
    element's [url] and [Domain] as found, the empty string when the key
    is missing. *)
Theorem parse_resources_absorbs_decode_error :
  (forall p, truthy p = false -> Full.parse_resources json_loads p = Returned [])
  /\ (forall s, json_loads s = Full.RaisesJSONDecodeError ->
        Full.parse_resources json_loads (PStr s) = Returned [])
  /\ (forall s parsed, s <> EmptyString -> json_loads s = Full.Decoded parsed ->
        Full.parse_resources json_loads (PStr s) = Returned (resources_of_parsed parsed))
  /\ (forall p, is_str p = false ->
        Full.parse_resources json_loads p
        = Returned (if truthy p then resources_of_parsed p else []))
  /\ (forall l, Full.parse_resources json_loads (PList l) = Returned l)
  /\ (forall p l, Full.parse_resources json_loads p = Returned l ->
        l = parse_resources (Full.loads json_loads) p)
  /\ (forall qe r s,
        Full.enrich json_loads qe = Returned r ->
        s ∈ sources_details r ->
        exists d, PDict d ∈ resources_parsed r
          /\ url s = get d "url" (PStr "")
          /\ domain s = get d "Domain" (PStr "")
          /\ is_customer_mentioned s
             = truthy (get d "is_customer_mentioned" (PBool false))).
Proof.
  split; [|split; [|split; [|split; [|split; [|split]]]]].
  - intros p Hp. unfold Full.parse_resources. by rewrite Hp.
  - intros s Hs. unfold Full.parse_resources. simpl. rewrite Hs. by destruct s.
  - intros s parsed Hne Hs. unfold Full.parse_resources. simpl. rewrite Hs.
    by destruct s.
  - intros p Hp. unfold Full.parse_resources.
    destruct (truthy p); simpl; [|done]. by destruct p.
  - intros l. unfold Full.parse_resources. by destruct l.
  - apply full_parse_returned.
  - intros qe r s Hr. apply full_enrich_returned in Hr as ->.
    rewrite sources_details_closed.
    intros Hin. apply list_elem_of_omap in Hin as (v & Hv & Hd).
    destruct v as [| | | | | |d]; simpl in Hd; try discriminate.
    exists d. injection Hd as <-. done.
Qed.


End FullClaims.

(** ** The aggregator in binary64 *)

Section SummaryOrder.

Lemma double_avg_int_perm (k : enriched -> Z) (g g' : list enriched) :
  g ≡ₚ g' -> Double.avg_int k g = Double.avg_int k g'.
Proof.
  intros H. destruct g as [|r g], g' as [|r' g'].
  - reflexivity.
  - by apply Permutation_nil_cons in H.
  - symmetry in H. by apply Permutation_nil_cons in H.
  - unfold Double.avg_int.
    rewrite (sum_Z_perm _ _ (Permutation_map k H)). by rewrite (len_perm _ _ H).
Qed.

(** C8, as the code has it: the summary is a function of its input.
    For every rearrangement of the input the two group counts and the
    means of [total_sources] and of [sources_with_brand], whose sums are
    integers, are equal.  The mean percentage of a group is a sum of
    doubles taken in list order: it is the same for two inputs that list
    the group in the same order, and for every rearrangement in exact
    arithmetic. *)
Theorem summary_order_independent_up_to_rounding (rs rs' : list enriched) :
  rs ≡ₚ rs' ->
  let d := Double.generate_summary_stats rs in
  let d' := Double.generate_summary_stats rs' in
  Double.total_records d = Double.total_records d'
  /\ Double.records_with_brand_in_response d = Double.records_with_brand_in_response d'
  /\ Double.records_without_brand_in_response d
     = Double.records_without_brand_in_response d'
  /\ Double.avg_sources_when_mentioned d = Double.avg_sources_when_mentioned d'
  /\ Double.avg_sources_when_not_mentioned d = Double.avg_sources_when_not_mentioned d'
  /\ Double.avg_brand_sources_when_mentioned d
     = Double.avg_brand_sources_when_mentioned d'
  /\ Double.avg_brand_sources_when_not_mentioned d
     = Double.avg_brand_sources_when_not_mentioned d'
  /\ (mentioned_group rs = mentioned_group rs' ->
      Double.avg_brand_pct_when_mentioned d = Double.avg_brand_pct_when_mentioned d')
  /\ (not_mentioned_group rs = not_mentioned_group rs' ->
      Double.avg_brand_pct_when_not_mentioned d
      = Double.avg_brand_pct_when_not_mentioned d')
  /\ generate_summary_stats rs = generate_summary_stats rs'.
Proof.
  intros H d d'. subst d d'. simpl.
  assert (Hm : mentioned_group rs ≡ₚ mentioned_group rs')
    by by apply List_filter_perm.
  assert (Hn : not_mentioned_group rs ≡ₚ not_mentioned_group rs')
    by by apply List_filter_perm.
  rewrite (len_perm _ _ H).
  rewrite (sum_Z_perm _ _ (Permutation_map (fun _ => 1)
                             (List_filter_perm brand_in_response _ _ H))).
  rewrite (double_avg_int_perm total_sources _ _ Hm),
          (double_avg_int_perm total_sources _ _ Hn).
  rewrite (double_avg_int_perm sources_with_brand _ _ Hm),
          (double_avg_int_perm sources_with_brand _ _ Hn).
  repeat split; try done.
  - by intros ->.
  - by intros ->.
  - by apply summary_exact_order_independent.
Qed.

End SummaryOrder.

(** ** The mention flag in the summary *)

Section MentionFlag.

Variable json_loads : string -> option pyval.

Lemma len_app {A} (l1 l2 : list A) : len (l1 ++ l2) = len l1 + len l2.
Proof. unfold len. rewrite length_app. lia. Qed.

Lemma records_without_nonneg (rs : list enriched) :
  0 <= records_without_brand_in_response (generate_summary_stats rs).
Proof.
  simpl. rewrite count_mentioned. pose proof (groups_length rs) as H.
  unfold len in *. lia.
Qed.

(** What a record without mention adds to the counts of the summary. *)
Lemma summary_counts_insert (r : enriched) (l1 l2 : list enriched) :
  brand_in_response r = false ->
  let s := generate_summary_stats (l1 ++ r :: l2) in
  let s' := generate_summary_stats (l1 ++ l2) in
  total_records s = total_records s' + 1
  /\ records_with_brand_in_response s = records_with_brand_in_response s'
  /\ records_without_brand_in_response s = records_without_brand_in_response s' + 1.
Proof.
  intros Hb. simpl. rewrite !count_mentioned. unfold mentioned_group.
  rewrite !List.filter_app. simpl. rewrite Hb.
  rewrite !len_app. unfold len. simpl length. lia.
Qed.

(** C10: a raw record without the [product_in_results] key is enriched
    with [product_in_results = 0] and [brand_in_response = False].  In any
    batch holding it the record falls in the not-mentioned group and not in
    the mentioned one; and the summary counts it there: with the record the
    summary has one record more in [total_records] and in
    [records_without_brand_in_response], and as many as without it in
    [records_with_brand_in_response]. *)
Theorem absent_mention_flag_defaults (qe : rawrec) :
  qe !! "product_in_results" = None ->
  product_in_results (enrich json_loads qe) = PInt 0
  /\ brand_in_response (enrich json_loads qe) = false
  /\ (forall qs : list rawrec, qe ∈ qs ->
        enrich json_loads qe ∈ not_mentioned_group (analyze_data json_loads qs)
        /\ (enrich json_loads qe ∉ mentioned_group (analyze_data json_loads qs))
        /\ 1 <= records_without_brand_in_response
                  (generate_summary_stats (analyze_data json_loads qs)))
  /\ (forall qs1 qs2 : list rawrec,
        let s := generate_summary_stats (analyze_data json_loads (qs1 ++ qe :: qs2)) in
        let s' := generate_summary_stats (analyze_data json_loads (qs1 ++ qs2)) in
        total_records s = total_records s' + 1
        /\ records_with_brand_in_response s = records_with_brand_in_response s'
        /\ records_without_brand_in_response s
           = records_without_brand_in_response s' + 1).
Proof.
  intros Habs.
  assert (Hb : brand_in_response (enrich json_loads qe) = false).
  { unfold enrich, get. simpl. by rewrite Habs. }
  assert (Hins : forall qs1 qs2 : list rawrec,
    let s := generate_summary_stats (analyze_data json_loads (qs1 ++ qe :: qs2)) in
    let s' := generate_summary_stats (analyze_data json_loads (qs1 ++ qs2)) in
    total_records s = total_records s' + 1
    /\ records_with_brand_in_response s = records_with_brand_in_response s'
    /\ records_without_brand_in_response s
       = records_without_brand_in_response s' + 1).
  { intros qs1 qs2. rewrite !analyze_data_map, !map_app. simpl map.
    by apply summary_counts_insert. }
  split; [unfold enrich, get; simpl; by rewrite Habs|]. split; [done|].
  split; [|exact Hins].
  intros qs Hin. split; [|split].
  - rewrite analyze_data_map. unfold not_mentioned_group.
    apply list_elem_of_In, filter_In. split.
    + apply in_map, list_elem_of_In, Hin.
    + by rewrite Hb.
  - rewrite analyze_data_map. unfold mentioned_group.
    intros H. apply list_elem_of_In, filter_In in H as [_ H]. congruence.
  - apply list_elem_of_split in Hin as (qs1 & qs2 & ->).
    destruct (Hins qs1 qs2) as (_ & _ & Hw). cbv zeta in Hw. rewrite Hw.
    pose proof (records_without_nonneg (analyze_data json_loads (qs1 ++ qs2))).
    lia.
Qed.

End MentionFlag.

(** ** The pipeline at concrete inputs *)

Section Evaluations.

Import Sample.

(** The round trip of the specification: one wrapped citation that
    mentions the brand, and a mention flag of 1. *)
Example enrich_wrapped :
  let r := enrich table_loads qe_wrapped in
  total_sources r = 1 /\ sources_with_brand r = 1
  /\ brand_mention_percentage r = 100%Q /\ brand_in_response r = true.
Proof. vm_compute. done. Qed.

(** A bare mapping is one citation. *)
Example enrich_bare :
  let r := enrich table_loads qe_bare in
  total_sources r = 1 /\ sources_with_brand r = 0
  /\ brand_mention_percentage r = 0%Q.
Proof. vm_compute. done. Qed.

(** A string that does not decode gives no citation, and the record is
    filtered out. *)
Example enrich_garbled :
  total_sources (enrich table_loads qe_garbled) = 0
  /\ has_sources table_loads qe_garbled = false.
Proof. vm_compute. done. Qed.

(** A complete run on the page of three rows: the row with a null
    payload is dropped, two records are analysed, three files written. *)
Example run_three_rows :
  let '(o, w) := main table_loads "k" (net_serving doc_three_rows) stamp disk_ok fresh in
  o = Returned tt
  /\ path <$> files w
     = [ "output/correlation_data_20240101_120000.json";
         "output/summary_20240101_120000.json";
         "output/correlation_data_20240101_120000.csv" ].
Proof. vm_compute. done. Qed.

(** Outside the normal path: when the disk refuses the summary, the run
    stops with [OSError] and the full dump alone is left behind. *)
Example run_disk_full :
  let '(o, w) :=
    main table_loads "k" (net_serving doc_three_rows) stamp disk_full_after_dump fresh in
  o = Raised OSError
  /\ path <$> files w = [ "output/correlation_data_20240101_120000.json" ].
Proof. vm_compute. done. Qed.

(** A payload that is an integer literal of 5000 digits: [json.loads]
    raises [ValueError], which passes the handler of [parse_resources],
    the filter loop and [main]; nothing is written. *)
Example run_long_number :
  Full.parse_resources Cases.full_loads (PStr Cases.long_number) = Raised ValueError
  /\ Full.main Cases.full_loads "k" (net_serving Cases.doc_long_number) stamp
       disk_ok Cases.utf8 fresh
     = (Raised ValueError, World [InfoFetching 5000; InfoFetched 2] []).
Proof. vm_compute. done. Qed.

(** An id that is a lone surrogate, on a disk that accepts every path:
    the run stops with [UnicodeEncodeError] while writing the export; the
    dump and the summary are there, and the export holds the one row
    written before. *)
Example run_lone_surrogate :
  let '(o, w) :=
    Full.main Cases.full_loads "k" (net_serving Cases.doc_surrogate) stamp
      disk_ok Cases.utf8 fresh in
  o = Raised UnicodeEncodeError
  /\ path <$> files w
     = [ "output/correlation_data_20240101_120000.json";
         "output/summary_20240101_120000.json";
         "output/correlation_data_20240101_120000.csv" ]
  /\ last (body <$> files w)
     = Some (CsvData [csv_line (enrich table_loads qe_wrapped)]).
Proof. vm_compute. done. Qed.

(** The same run on the page of three rows is complete. *)
Example run_three_rows_in_full :
  let '(o, w) :=
    Full.main Cases.full_loads "k" (net_serving doc_three_rows) stamp
      disk_ok Cases.utf8 fresh in
  o = Returned tt
  /\ files w = artifacts stamp (analyze_data table_loads [qe_wrapped; qe_bare]).
Proof. vm_compute. done. Qed.

End Evaluations.

(** ** The claims at concrete inputs *)

(** C1 fails as stated at [{"id":4,"resources":[1]}]: the number in the
    citation list is counted in [total_sources] and gives no detail entry,
    so [total_sources] exceeds the number of detail entries. *)
Lemma scalar_citation_counted_as_source :
  let r := enrich Sample.table_loads Sample.qe_scalar in
  total_sources r = 1
  /\ sources_details r = []
  /\ total_sources r <> len (sources_details r)
  /\ ~ total_sources r <= len (sources_details r).
Proof.
  split; [vm_compute; reflexivity|]. split; [vm_compute; reflexivity|].
  split; [vm_compute; discriminate|].
  intros H. vm_compute in H. by apply H.
Qed.

(** The bounds and both branches of the percentage, at a record without
    sources and at a record with one. *)
Lemma enriched_counts_and_percentage_witness :
  brand_mention_percentage (enrich Sample.table_loads Sample.qe_null) = 0%Q
  /\ brand_mention_percentage (enrich Sample.table_loads Sample.qe_wrapped)
     = (inject_Z 1 / inject_Z 1 * 100)%Q.
Proof.
  split.
  - destruct (enriched_counts_and_percentage Sample.table_loads Sample.qe_null)
      as (_ & _ & _ & Hzero & _).
    apply Hzero. vm_compute. reflexivity.
  - destruct (enriched_counts_and_percentage Sample.table_loads Sample.qe_wrapped)
      as (_ & _ & _ & _ & Hratio).
    apply Hratio. vm_compute. discriminate.
Defined.

(** C3 fails as stated: [parse_resources([1])] is [[1]], whose element is
    no record at all; and the detail entry built from [{"url":5}] carries
    the number 5 as its url. *)
Lemma parse_resources_returns_raw_items :
  parse_resources Sample.table_loads (PList [PInt 1]) = [PInt 1]
  /\ ~ Forall (fun v => is_dict v = true)
         (parse_resources Sample.table_loads (PList [PInt 1]))
  /\ sources_details (enrich Sample.table_loads Sample.qe_numeric_url)
     = [SourceDetail (PInt 5) (PStr "") false]
  /\ ~ Forall (fun s => is_str (url s) = true)
         (sources_details (enrich Sample.table_loads Sample.qe_numeric_url)).
Proof.
  split; [reflexivity|]. split; [|split; [vm_compute; reflexivity|]].
  - intros H. apply Forall_cons in H as [H _]. discriminate.
  - intros H.
    assert (Hd : sources_details (enrich Sample.table_loads Sample.qe_numeric_url)
                 = [SourceDetail (PInt 5) (PStr "") false]) by (vm_compute; reflexivity).
    rewrite Hd in H. apply Forall_cons in H as [H _]. discriminate.
Qed.

(** C4 fails as stated at the empty mapping: it has no [resources] key,
    and it is parsed as no citation. *)
Lemma empty_mapping_yields_no_citation :
  (∅ : rawrec) !! "resources" = None
  /\ parse_resources Sample.table_loads (PDict ∅) = []
  /\ total_sources (enrich Sample.table_loads Sample.qe_empty_mapping) = 0
  /\ total_sources (enrich Sample.table_loads Sample.qe_empty_mapping) <> 1.
Proof. repeat split; try (vm_compute; congruence). Qed.

(** The bare mapping of the specification. *)
Lemma bare_mapping_is_single_citation_witness :
  Sample.cited_b ≠ ∅
  /\ Sample.cited_b !! "resources" = None
  /\ parse_resources Sample.table_loads (PDict Sample.cited_b)
     = [PDict Sample.cited_b]
  /\ total_sources (enrich Sample.table_loads Sample.qe_bare) = 1.
Proof.
  assert (Hne : Sample.cited_b ≠ ∅).
  { intros H. apply (f_equal (fun m : rawrec => m !! "url")) in H.
    vm_compute in H. discriminate. }
  assert (Hk : Sample.cited_b !! "resources" = None) by (vm_compute; reflexivity).
  destruct (bare_mapping_is_single_citation Sample.table_loads Sample.cited_b Hne Hk)
    as [Hp Ht].
  split; [exact Hne|]. split; [exact Hk|]. split; [exact Hp|].
  apply Ht. vm_compute. reflexivity.
Defined.

(** The filter on the page of three rows: the row with a null payload
    is dropped by the same loop that keeps the other two. *)
Lemma filter_agrees_with_enrichment_witness :
  has_sources Sample.table_loads Sample.qe_null = false
  /\ filter_records Sample.table_loads
       (PDict <$> [Sample.qe_wrapped; Sample.qe_bare; Sample.qe_null]) []
     = Returned (List.filter (has_sources Sample.table_loads)
                   [Sample.qe_wrapped; Sample.qe_bare; Sample.qe_null]).
Proof.
  destruct (filter_agrees_with_enrichment Sample.table_loads "k"
              (Sample.net_serving Sample.doc_three_rows) Sample.stamp Sample.disk_ok)
    as (_ & _ & Hloop & _ & _ & Hnull & _).
  split.
  - apply Hnull. vm_compute. reflexivity.
  - apply Hloop.
Defined.

(** C6 fails as stated: a missing credential and an answer with no rows
    hand the orchestrator the same value, and leave the same outcome and
    the same files; and the four kinds of failure are one and the same
    [None] to the caller of [api_call]. *)
Lemma failure_indistinguishable_from_empty_result :
  fetch_failure Sample.table_loads "" (Sample.net_down main_url main_body)
  = Some MissingCredential
  /\ fetch_failure Sample.table_loads "k"
       (Sample.net_serving Sample.doc_no_rows main_url main_body) = None
  /\ (fetch_queries_execution_data Sample.table_loads "" Sample.net_down
        5000 PNone fresh).1
     = (fetch_queries_execution_data Sample.table_loads "k"
          (Sample.net_serving Sample.doc_no_rows) 5000 PNone fresh).1
  /\ (main Sample.table_loads "" Sample.net_down Sample.stamp Sample.disk_ok fresh).1
     = (main Sample.table_loads "k" (Sample.net_serving Sample.doc_no_rows)
          Sample.stamp Sample.disk_ok fresh).1
  /\ files (main Sample.table_loads "" Sample.net_down Sample.stamp
              Sample.disk_ok fresh).2
     = files (main Sample.table_loads "k" (Sample.net_serving Sample.doc_no_rows)
                Sample.stamp Sample.disk_ok fresh).2
  /\ (api_call Sample.table_loads "" Sample.net_down "get-by" main_body fresh).1
     = Returned PNone
  /\ (api_call Sample.table_loads "k" Sample.net_down "get-by" main_body fresh).1
     = Returned PNone
  /\ (api_call Sample.table_loads "k" Sample.net_refusing "get-by" main_body fresh).1
     = Returned PNone
  /\ (api_call Sample.table_loads "k" (Sample.net_serving "not json") "get-by"
        main_body fresh).1
     = Returned PNone.
Proof. repeat split; vm_compute; reflexivity. Qed.

(** A run without credential, and a run answered with no rows. *)
Lemma fetch_failure_reported_as_no_data_witness :
  (fetch_failure Sample.table_loads "" (Sample.net_down main_url main_body)
   = Some MissingCredential
   /\ (fetch_queries_execution_data Sample.table_loads "" Sample.net_down
         5000 PNone fresh).1 = Returned []
   /\ files (main Sample.table_loads "" Sample.net_down Sample.stamp
               Sample.disk_ok fresh).2 = [])
  /\ (Sample.net_serving Sample.doc_no_rows main_url main_body
      = HttpResponse Sample.doc_no_rows
      /\ Sample.table_loads Sample.doc_no_rows = Some Sample.page_no_rows
      /\ (fetch_queries_execution_data Sample.table_loads "k"
            (Sample.net_serving Sample.doc_no_rows) 5000 PNone fresh).1
         = Returned []).
Proof.
  split.
  - assert (Hfail : fetch_failure Sample.table_loads ""
                      (Sample.net_down main_url main_body)
                    = Some MissingCredential) by reflexivity.
    destruct (fetch_failure_reported_as_no_data Sample.table_loads ""
                Sample.net_down Sample.stamp Sample.disk_ok fresh) as [Hf _].
    destruct (Hf _ Hfail) as (_ & Hlist & _ & Hfiles & _).
    split; [exact Hfail|]. split; [exact Hlist | exact Hfiles].
  - assert (Hdec : Sample.table_loads Sample.doc_no_rows = Some Sample.page_no_rows)
      by (vm_compute; reflexivity).
    destruct (fetch_failure_reported_as_no_data Sample.table_loads "k"
                (Sample.net_serving Sample.doc_no_rows) Sample.stamp
                Sample.disk_ok fresh) as [_ He].
    destruct (He Sample.doc_no_rows (<["data" := PList []]> ∅)) as (Hlist & _).
    + discriminate.
    + reflexivity.
    + exact Hdec.
    + vm_compute. reflexivity.
    + split; [reflexivity|]. split; [exact Hdec | exact Hlist].
Defined.

(** The summary of no record at all: both groups are empty. *)
Lemma summary_partitions_records_witness :
  mentioned_group [] = []
  /\ avg_sources_when_mentioned (generate_summary_stats []) = 0%Q
  /\ avg_brand_pct_when_not_mentioned (generate_summary_stats []) = 0%Q.
Proof.
  destruct (summary_partitions_records [])
    as (_ & _ & _ & _ & _ & _ & _ & Hm & Hn).
  split; [reflexivity|]. split.
  - apply Hm. reflexivity.
  - apply Hn. reflexivity.
Defined.

(** A text that is not JSON, a text that is, and the entry of a cited
    mapping. *)
Lemma parse_resources_absorbs_decode_error_witness :
  Full.parse_resources Cases.full_loads (PStr "not json") = Returned []
  /\ Full.parse_resources Cases.full_loads (PStr Sample.doc_no_rows)
     = Returned [Sample.page_no_rows]
  /\ exists d : rawrec,
       PDict d ∈ resources_parsed (enrich Sample.table_loads Sample.qe_bare)
       /\ url (SourceDetail (PStr "http://b.com") (PStr "b.com") false)
          = get d "url" (PStr "").
Proof.
  destruct (parse_resources_absorbs_decode_error Cases.full_loads)
    as (_ & Hfail & Hdec & _ & _ & _ & Hentry).
  split; [|split].
  - apply Hfail. vm_compute. reflexivity.
  - rewrite (Hdec Sample.doc_no_rows Sample.page_no_rows);
      [reflexivity | discriminate | vm_compute; reflexivity].
  - destruct (Hentry Sample.qe_bare (enrich Sample.table_loads Sample.qe_bare)
                (SourceDetail (PStr "http://b.com") (PStr "b.com") false))
      as (d & Hd & Hu & _).
    + vm_compute. reflexivity.
    + vm_compute. left.
    + by exists d.
Defined.

(** A record without the mention flag, in a batch of two. *)
Lemma absent_mention_flag_defaults_witness :
  Sample.qe_bare !! "product_in_results" = None
  /\ product_in_results (enrich Sample.table_loads Sample.qe_bare) = PInt 0
  /\ brand_in_response (enrich Sample.table_loads Sample.qe_bare) = false
  /\ enrich Sample.table_loads Sample.qe_bare
     ∈ not_mentioned_group
         (analyze_data Sample.table_loads [Sample.qe_wrapped; Sample.qe_bare])
  /\ records_without_brand_in_response
       (generate_summary_stats
          (analyze_data Sample.table_loads ([Sample.qe_wrapped] ++ Sample.qe_bare :: [])))
     = records_without_brand_in_response
         (generate_summary_stats
            (analyze_data Sample.table_loads ([Sample.qe_wrapped] ++ []))) + 1.
Proof.
  assert (Habs : Sample.qe_bare !! "product_in_results" = None)
    by (vm_compute; reflexivity).
  destruct (absent_mention_flag_defaults Sample.table_loads Sample.qe_bare Habs)
    as (Hp & Hb & Hg & Hs).
  split; [exact Habs|]. split; [exact Hp|]. split; [exact Hb|]. split.
  - apply (Hg [Sample.qe_wrapped; Sample.qe_bare]). right. left.
  - exact (proj2 (proj2 (Hs [Sample.qe_wrapped] []))).
Defined.

(** C8 fails as stated at three records of the not-mentioned group whose
    percentages are 100, 50 and 3/11*100: added in this order and
    divided by 3 they give one double, added in the reverse order the
    next double below it. *)
Lemma mean_percentage_depends_on_order :
  let rs := analyze_data Sample.table_loads
              [Cases.qe_1_of_1; Cases.qe_1_of_2; Cases.qe_3_of_11] in
  let rs' := analyze_data Sample.table_loads
               [Cases.qe_3_of_11; Cases.qe_1_of_2; Cases.qe_1_of_1] in
  rs ≡ₚ rs'
  /\ PrimFloat.eqb
       (Double.avg_brand_pct_when_not_mentioned (Double.generate_summary_stats rs))
       (Double.avg_brand_pct_when_not_mentioned (Double.generate_summary_stats rs'))
     = false
  /\ PrimFloat.ltb
       (Double.avg_brand_pct_when_not_mentioned (Double.generate_summary_stats rs'))
       (Double.avg_brand_pct_when_not_mentioned (Double.generate_summary_stats rs))
     = true
  /\ Double.generate_summary_stats rs <> Double.generate_summary_stats rs'.
Proof.
  intros rs rs'. split; [|split; [|split]].
  - subst rs rs'. rewrite !analyze_data_map. simpl map.
    set (a := enrich _ Cases.qe_1_of_1). set (b := enrich _ Cases.qe_1_of_2).
    set (c := enrich _ Cases.qe_3_of_11).
    change [c; b; a] with (rev [a; b; c]). apply Permutation_rev.
  - vm_compute. reflexivity.
  - vm_compute. reflexivity.
  - intros H.
    apply (f_equal (fun d => Prim2SF (Double.avg_brand_pct_when_not_mentioned d))) in H.
    vm_compute in H. discriminate.
Qed.

(** The same three records in both orders: the counts and the means of
    the two integer fields agree. *)
Lemma summary_order_independent_up_to_rounding_witness :
  let rs := analyze_data Sample.table_loads
              [Cases.qe_1_of_1; Cases.qe_1_of_2; Cases.qe_3_of_11] in
  let rs' := analyze_data Sample.table_loads
               [Cases.qe_3_of_11; Cases.qe_1_of_2; Cases.qe_1_of_1] in
  rs ≡ₚ rs'
  /\ Double.records_without_brand_in_response (Double.generate_summary_stats rs)
     = Double.records_without_brand_in_response (Double.generate_summary_stats rs')
  /\ Double.avg_sources_when_not_mentioned (Double.generate_summary_stats rs)
     = Double.avg_sources_when_not_mentioned (Double.generate_summary_stats rs')
  /\ generate_summary_stats rs = generate_summary_stats rs'.
Proof.
  intros rs rs'.
  assert (Hperm : rs ≡ₚ rs').
  { subst rs rs'. rewrite !analyze_data_map. simpl map.
    set (a := enrich _ Cases.qe_1_of_1). set (b := enrich _ Cases.qe_1_of_2).
    set (c := enrich _ Cases.qe_3_of_11).
    change [c; b; a] with (rev [a; b; c]). apply Permutation_rev. }
  destruct (summary_order_independent_up_to_rounding rs rs' Hperm)
    as (_ & _ & Hw & _ & Hs & _ & _ & _ & _ & Hq).
  split; [exact Hperm|]. split; [exact Hw|]. split; [exact Hs | exact Hq].
Defined.


(** * Further properties of the code *)

(** ** The dataset filter, beyond the claims *)

Section FilterFacts.

Variable json_loads : string -> option pyval.

Lemma List_filter_sublist {A} (f : A -> bool) (l : list A) :
  List.filter f l `sublist_of` l.
Proof.
  induction l as [|a l IH]; simpl; [done|].
  destruct (f a); by constructor.
Qed.

Lemma List_filter_id {A} (f : A -> bool) (l : list A) :
  Forall (fun a => f a = true) l -> List.filter f l = l.
Proof.
  induction 1 as [|a l Ha _ IH]; simpl; [done|]. by rewrite Ha, IH.
Qed.

(** The loop of lines 131-138 in full: it returns exactly on a result set
    of mappings, with the rows that have sources after what it had. *)
Lemma filter_records_cases data : forall acc,
  match filter_records json_loads data acc with
  | Returned records =>
      exists rows : list rawrec,
        data = PDict <$> rows
        /\ records = acc ++ List.filter (has_sources json_loads) rows
  | Raised e =>
      e = AttributeError /\ Exists (fun v => is_dict v = false) data
  end.
Proof.
  induction data as [|v data IH]; intros acc; simpl.
  - exists []. by rewrite app_nil_r.
  - destruct v as [| | | | | |record];
      try (split; [done | by apply Exists_cons_hd]).
    specialize (IH (if has_sources json_loads record then acc ++ [record] else acc)).
    destruct (filter_records json_loads data _) as [records|e].
    + destruct IH as (rows & -> & ->). exists (record :: rows). split; [done|].
      simpl. destruct (has_sources json_loads record); [|done].
      by rewrite <- app_assoc.
    + destruct IH as [-> Hex]. split; [done|]. by apply Exists_cons_tl.
Qed.

(** X2: filtering is idempotent and keeps the order: the records kept
    pass the filter again unchanged, and they are a subsequence of the
    result set, so no more of them than rows fetched. *)
Theorem filter_records_idempotent (data : list pyval) (records : list rawrec) :
  filter_records json_loads data [] = Returned records ->
  filter_records json_loads (PDict <$> records) [] = Returned records
  /\ (PDict <$> records) `sublist_of` data
  /\ len records <= len data.
Proof.
  intros Hrun. pose proof (filter_records_cases data []) as Hcases.
  rewrite Hrun in Hcases. destruct Hcases as (rows & -> & Hrec). simpl in Hrec.
  assert (Hsub : records `sublist_of` rows)
    by (rewrite Hrec; apply List_filter_sublist).
  split; [|split].
  - rewrite filter_records_dicts. simpl. f_equal. apply List_filter_id.
    rewrite Hrec. apply Forall_forall. intros r Hr.
    by apply list_elem_of_In, filter_In in Hr as [_ Hr].
  - by apply fmap_sublist.
  - unfold len. rewrite length_fmap. apply sublist_length in Hsub. lia.
Qed.

(** X3: the truthiness test in front of the parser never decides: a
    record is kept exactly when enriching it finds at least one source. *)
Theorem has_sources_iff_enriched_with_source (record : rawrec) :
  has_sources json_loads record
  = (1 <=? total_sources (enrich json_loads record)).
Proof.
  rewrite has_sources_kept_by_spec. unfold kept_by_spec.
  destruct (truthy (get record "resources" PNone)) eqn:Ht; [done|]. simpl.
  change (total_sources (enrich json_loads record))
    with (len (parse_resources json_loads (get record "resources" PNone))).
  by rewrite parse_resources_falsy.
Qed.

End FilterFacts.

(** ** The parser and the enricher, beyond the claims *)

Section EnricherFacts.

Variable json_loads : string -> option pyval.

Lemma mentions_in_details resources :
  length (List.filter mentions resources)
  = length (List.filter is_customer_mentioned (omap detail_of resources)).
Proof.
  induction resources as [|v vs IH]; [done|].
  destruct v as [| | | | | |d]; simpl; try done.
  destruct (truthy (get d "is_customer_mentioned" (PBool false))); simpl;
    [f_equal|]; exact IH.
Qed.

Lemma percentage_zero n t :
  0 <= n <= t -> (percentage n t == 0)%Q <-> n = 0.
Proof.
  intros Hn. unfold percentage. destruct t as [|p|p]; simpl.
  - split; [lia | done].
  - unfold Qeq, Qdiv, Qmult, Qinv. simpl. lia.
  - lia.
Qed.

Lemma percentage_hundred n t :
  0 <= n <= t -> (percentage n t == 100)%Q <-> n = t /\ 0 < t.
Proof.
  intros Hn. unfold percentage. destruct t as [|p|p]; simpl.
  - split; [discriminate | lia].
  - unfold Qeq, Qdiv, Qmult, Qinv. simpl. rewrite ?Pos2Z.inj_mul. lia.
  - lia.
Qed.

Lemma enriched_count_bounds qe :
  0 <= sources_with_brand (enrich json_loads qe)
    <= total_sources (enrich json_loads qe).
Proof.
  rewrite sources_with_brand_closed.
  change (total_sources (enrich json_loads qe))
    with (len (resources_parsed (enrich json_loads qe))).
  pose proof (length_List_filter_le mentions
                (resources_parsed (enrich json_loads qe))).
  unfold len. lia.
Qed.

(** X4: [analyze_data] enriches record by record: its result has one
    entry per input record, at the same position, and analysing two
    batches one after the other is analysing them apart. *)
Theorem analyze_data_pointwise (qs qs' : list rawrec) :
  analyze_data json_loads (qs ++ qs')
  = analyze_data json_loads qs ++ analyze_data json_loads qs'
  /\ len (analyze_data json_loads qs) = len qs
  /\ forall i : nat,
       analyze_data json_loads qs !! i = enrich json_loads <$> qs !! i.
Proof.
  rewrite !analyze_data_map. split; [apply map_app|]. split.
  - unfold len. by rewrite length_map.
  - intros i. apply list_lookup_fmap.
Qed.

(** X5: the counter and the list the loop builds agree: the brand count
    of an enriched record is the number of its detail entries that are
    flagged as mentioning the customer. *)
Theorem sources_with_brand_counts_flagged_details (qe : rawrec) :
  sources_with_brand (enrich json_loads qe)
  = len (List.filter is_customer_mentioned (sources_details (enrich json_loads qe))).
Proof.
  rewrite sources_with_brand_closed, sources_details_closed.
  unfold len. by rewrite mentions_in_details.
Qed.

(** X6: the percentage of an enriched record is 0 exactly when no source
    mentions the brand, and 100 exactly when there is a source and every
    counted source does. *)
Theorem percentage_extremes (qe : rawrec) :
  let r := enrich json_loads qe in
  ((brand_mention_percentage r == 0)%Q <-> sources_with_brand r = 0)
  /\ ((brand_mention_percentage r == 100)%Q
      <-> sources_with_brand r = total_sources r /\ 0 < total_sources r).
Proof.
  intros r. subst r. pose proof (enriched_count_bounds qe) as Hb.
  change (brand_mention_percentage (enrich json_loads qe))
    with (percentage (sources_with_brand (enrich json_loads qe))
                     (total_sources (enrich json_loads qe))).
  split; [by apply percentage_zero | by apply percentage_hundred].
Qed.

(** X7: a payload delivered as JSON text is parsed as its decoded value
    whenever that value is truthy and not a string itself.  The truthiness
    test is made on the text, not on what it decodes to: text that decodes
    to a mapping without [resources], the empty one included, is one
    citation; and text that decodes to a string is not decoded again. *)
Theorem string_payload_parsed_as_decoded (s : string) (v : pyval) :
  s <> EmptyString -> json_loads s = Some v ->
  parse_resources json_loads (PStr s) = resources_of_parsed v
  /\ (truthy v = true -> is_str v = false ->
      parse_resources json_loads (PStr s) = parse_resources json_loads v)
  /\ (forall d : rawrec, v = PDict d -> d !! "resources" = None ->
      parse_resources json_loads (PStr s) = [PDict d])
  /\ (is_str v = true -> parse_resources json_loads (PStr s) = []).
Proof.
  intros Hs Hdec.
  assert (Hp : parse_resources json_loads (PStr s) = resources_of_parsed v).
  { unfold parse_resources. simpl. rewrite Hdec. by destruct s. }
  split; [done|]. split; [|split].
  - intros Ht Hstr. rewrite Hp. unfold parse_resources. rewrite Ht. simpl.
    by destruct v.
  - intros d -> Hk. rewrite Hp. simpl. by rewrite Hk.
  - intros Hstr. rewrite Hp. by destruct v.
Qed.

End EnricherFacts.

(** ** The remote data client and the fetch stage, beyond the claims *)

Section ClientFacts.

Variable json_loads : string -> option pyval.
Variable API_KEY : string.
Variable urlopen : string -> rawrec -> http_outcome.
Variable timestamp : string.
Variable disk_accepts : string -> bool.

Local Abbreviation call := (api_call json_loads API_KEY urlopen).
Local Abbreviation fetch := (fetch_queries_execution_data json_loads API_KEY urlopen).
Local Abbreviation run := (main json_loads API_KEY urlopen timestamp disk_accepts).

Lemma substring_length n s : (String.length (String.substring 0 n s) <= n)%nat.
Proof.
  revert s. induction n as [|n IH]; intros [|c s]; simpl; try lia.
  specialize (IH s). lia.
Qed.

Lemma substring_prefix n s : String.prefix (String.substring 0 n s) s = true.
Proof.
  revert s. induction n as [|n IH]; intros [|c s]; simpl; try done.
  destruct (ascii_dec c c); [apply IH | done].
Qed.

Lemma substring_all n s :
  (String.length s <= n)%nat -> String.substring 0 n s = s.
Proof.
  revert s. induction n as [|n IH]; intros [|c s]; simpl; try done; try lia.
  intros H. f_equal. apply IH. lia.
Qed.

(** The fetch stage after the client has answered. *)
Lemma fetch_after_call limit eid w v w1 :
  call "get-by" (request_body limit eid)
    (World (console w ++ [InfoFetching limit]) (files w)) = (Returned v, w1) ->
  fetch limit eid w
  = (if truthy v then
       n <- lift (py_len v);;
       print (InfoFetched n);;;
       items <- lift (py_iter v);;
       records_with_sources <- lift (filter_records json_loads items []);;
       print (InfoFiltered (len records_with_sources) (n - len records_with_sources));;;
       ret records_with_sources
     else print ErrFailedToFetch;;; ret []) w1.
Proof.
  intros Hcall. unfold fetch_queries_execution_data.
  unfold bind at 1. unfold print at 1. unfold bind at 1. by rewrite Hcall.
Qed.

(** The client on an answer that decodes to an object. *)
Lemma call_object endpoint body raw (result : rawrec) w :
  API_KEY <> EmptyString ->
  urlopen (API_BASE_URL +:+ "/" +:+ endpoint +:+ "/") body = HttpResponse raw ->
  json_loads raw = Some (PDict result) ->
  call endpoint body w = (Returned (get result "data" (PDict result)), w).
Proof.
  intros Hkey Hnet Hdec. unfold api_call. destruct API_KEY; [done|]. simpl.
  by rewrite Hnet, Hdec.
Qed.

(** X8: tolerant decoding.  With a credential, an answer whose body
    decodes to an object makes [api_call] return the object's [data]
    field, or the whole object when it has none, and print nothing. *)
Theorem api_call_unwraps_data endpoint body raw (result : rawrec) (w : world) :
  API_KEY <> EmptyString ->
  urlopen (API_BASE_URL +:+ "/" +:+ endpoint +:+ "/") body = HttpResponse raw ->
  json_loads raw = Some (PDict result) ->
  call endpoint body w
  = (Returned (match result !! "data" with
               | Some payload => payload
               | None => PDict result
               end), w).
Proof.
  intros Hkey Hnet Hdec. rewrite (call_object _ _ _ _ _ Hkey Hnet Hdec).
  unfold get. by destruct (result !! "data").
Qed.

(** X9: on a non-success status with a readable body, [api_call] prints
    the status line and an excerpt of the body that is its first 500
    characters at most, the whole body when it is that short, and returns
    [None]. *)
Theorem api_call_error_excerpt endpoint body code reason b (w : world) :
  API_KEY <> EmptyString ->
  urlopen (API_BASE_URL +:+ "/" +:+ endpoint +:+ "/") body
  = HTTPError code reason (Some b) ->
  exists excerpt,
    call endpoint body w
    = (Returned PNone,
       World (console w ++ [WarnHttpError code reason; WarnResponse excerpt])
             (files w))
    /\ (String.length excerpt <= 500)%nat
    /\ String.prefix excerpt b = true
    /\ ((String.length b <= 500)%nat -> excerpt = b).
Proof.
  intros Hkey Hnet. exists (String.substring 0 500 b). split; [|split; [|split]].
  - unfold api_call. destruct API_KEY; [done|]. simpl. rewrite Hnet.
    io_simpl. by rewrite <- app_assoc.
  - apply substring_length.
  - apply substring_prefix.
  - apply substring_all.
Qed.

End ClientFacts.

Section FetchFacts.

Variable json_loads : string -> option pyval.
Variable API_KEY : string.
Variable urlopen : string -> rawrec -> http_outcome.
Variable timestamp : string.
Variable disk_accepts : string -> bool.

Local Abbreviation call := (api_call json_loads API_KEY urlopen).
Local Abbreviation fetch := (fetch_queries_execution_data json_loads API_KEY urlopen).
Local Abbreviation run := (main json_loads API_KEY urlopen timestamp disk_accepts).

(** X10: [api_call] never raises and never writes a file, whatever the
    credential, the network and the decoder are: it returns, having only
    added console lines.  Whenever it prints, what it returns is [None];
    and without a credential it prints the one warning, so the outcome
    does not depend on the network at all. *)
Theorem api_call_returns_or_warns endpoint body (w : world) :
  exists v msgs,
    call endpoint body w = (Returned v, World (console w ++ msgs) (files w))
    /\ (msgs <> [] -> v = PNone)
    /\ (API_KEY = EmptyString -> msgs = [WarnApiKeyNotSet]).
Proof.
  destruct w as [c fs]. unfold api_call.
  destruct API_KEY as [|a key]; io_simpl.
  { by eexists _, [_]. }
  destruct (urlopen _ body) as [raw|code reason [b|]|description]; io_simpl.
  - destruct (json_loads raw) as [[| | | | | |result]|]; io_simpl;
      try (by eexists _, [_]).
    eexists _, []. by rewrite app_nil_r.
  - eexists _, [_; _]. by rewrite <- app_assoc.
  - by eexists _, [_].
  - by eexists _, [_].
Qed.

Lemma request_body_falsy limit eid :
  truthy eid = false -> request_body limit eid = request_body limit PNone.
Proof. intros H. unfold request_body. by rewrite H. Qed.

(** X11: an execution id is sent only when it is truthy: the request
    body carries the five fixed fields with the limit given, and the id
    exactly when it is truthy; so fetching with a falsy id, 0 or the empty
    string as much as [None], is fetching without one. *)
Theorem falsy_execution_id_not_sent limit eid (w : world) :
  request_body limit eid !! "execution_id"
  = (if truthy eid then Some eid else None)
  /\ request_body limit eid !! "tableName" = Some (PStr "queries_execution")
  /\ request_body limit eid !! "is_deleted" = Some (PInt 0)
  /\ request_body limit eid !! "limit" = Some (PInt limit)
  /\ request_body limit eid !! "orderBy" = Some (PStr "id")
  /\ request_body limit eid !! "order" = Some (PStr "desc")
  /\ (truthy eid = false -> fetch limit eid w = fetch limit PNone w).
Proof.
  unfold request_body.
  repeat split; try (destruct (truthy eid); by simplify_map_eq).
  intros H. unfold fetch_queries_execution_data.
  by rewrite (request_body_falsy limit eid H).
Qed.

Lemma filter_records_head_not_dict v data acc :
  is_dict v = false ->
  filter_records json_loads (v :: data) acc = Raised AttributeError.
Proof. by destruct v. Qed.

Lemma py_iter_str_raises c s :
  exists items, py_iter (PStr (String c s)) = Returned items
    /\ filter_records json_loads items [] = Raised AttributeError.
Proof. eexists. split; [reflexivity|]. done. Qed.

Lemma py_iter_dict_raises (d : rawrec) :
  d <> ∅ ->
  exists items, py_iter (PDict d) = Returned items
    /\ filter_records json_loads items [] = Raised AttributeError.
Proof.
  intros Hd. eexists. split; [reflexivity|].
  destruct (map_to_list d) as [|[k x] l] eqn:Hl.
  - by apply map_to_list_empty_iff in Hl.
  - done.
Qed.

(** X12: tolerant decoding does not reach past the client.  When the
    answer decodes to an object whose payload (its [data] field, or the
    object itself when the field is missing) is truthy and not a list, the
    fetch stage raises: [TypeError] on a number or [True], [AttributeError]
    on a string or a mapping.  [main] does not catch it, and no file is
    written. *)
Theorem non_list_answer_raises raw (result : rawrec) (w : world) :
  API_KEY <> EmptyString ->
  urlopen main_url main_body = HttpResponse raw ->
  json_loads raw = Some (PDict result) ->
  let v := get result "data" (PDict result) in
  truthy v = true ->
  (forall l, v <> PList l) ->
  (fetch 5000 PNone w).1 = Raised (fetch_exception v)
  /\ (run w).1 = Raised (fetch_exception v)
  /\ files (run w).2 = files w.
Proof.
  intros Hkey Hnet Hdec v Ht Hl.
  pose proof (call_object json_loads API_KEY urlopen "get-by" main_body raw result
                (World (console w ++ [InfoFetching 5000]) (files w))
                Hkey Hnet Hdec) as Hcall.
  fold v in Hcall.
  pose proof (fetch_after_call json_loads API_KEY urlopen 5000 PNone w _ _ Hcall)
    as Hf.
  rewrite Ht in Hf.
  assert (Hfetch : exists c,
    fetch 5000 PNone w = (Raised (fetch_exception v), World c (files w))).
  { rewrite Hf. clear Hf Hcall.
    destruct v as [|b|z|f|s|l|d] eqn:Hv; simpl in Ht; try done.
    - io_simpl. by eexists.
    - io_simpl. by eexists.
    - io_simpl. by eexists.
    - destruct s as [|c s]; [done|]. io_simpl. by eexists.
    - by destruct (Hl l).
    - assert (Hd : d <> ∅).
      { intros ->. by rewrite bool_decide_eq_true_2 in Ht. }
      destruct (py_iter_dict_raises d Hd) as (items & Hit & Hraise).
      unfold bind, lift, print. simpl py_len. cbv iota beta.
      rewrite Hit. cbv iota beta. rewrite Hraise. by eexists. }
  destruct Hfetch as (c & Hfetch).
  split; [by rewrite Hfetch|].
  rewrite main_unfold, Hfetch. done.
Qed.

End FetchFacts.

(** ** Exceptions that escape the filter, the writer and the orchestrator *)

Section EscapeFacts.

Variable json_loads : string -> Full.decoding.
Variable API_KEY : string.
Variable urlopen : string -> rawrec -> http_outcome.
Variable timestamp : string.
Variable disk_accepts : string -> bool.
Variable encodable : csv_row -> bool.

Local Abbreviation loads := (Full.loads json_loads).
Local Abbreviation fetch := (Full.fetch_queries_execution_data json_loads API_KEY urlopen).
Local Abbreviation save := (Full.save_results timestamp disk_accepts encodable).
Local Abbreviation run :=
  (Full.main json_loads API_KEY urlopen timestamp disk_accepts encodable).

(** The payload texts of a row on which the test of the filter returns
    are those the handler of the parser covers. *)
Lemma returned_payload_absorbed (r : rawrec) :
  (exists b, Full.has_sources json_loads r = Returned b) ->
  forall s, get r "resources" PNone = PStr s -> s <> EmptyString ->
            Full.absorbed (json_loads s) = true.
Proof.
  intros [b Hb] s Hs Hne. unfold Full.has_sources in Hb. rewrite Hs in Hb.
  destruct s as [|c s]; [done|]. simpl in Hb.
  unfold Full.parse_resources in Hb. simpl in Hb.
  by destruct (json_loads (String c s)).
Qed.

(** X1: the filter loop returns exactly on a result set of mappings
    whose payload texts [json.loads] decodes or rejects with
    [JSONDecodeError], and then it returns the rows that have sources, in
    their order.  Otherwise it stops at the first item that is not such a
    mapping: with [AttributeError] on an item that is no mapping, and with
    the [ValueError] or [RecursionError] that [json.loads] raised on the
    payload text of a mapping. *)
Theorem filter_records_returns_or_raises (data : list pyval) :
  match Full.filter_records json_loads data [] with
  | Returned records =>
      exists rows : list rawrec,
        data = PDict <$> rows
        /\ records = List.filter (has_sources (Full.loads json_loads)) rows
        /\ Forall (fun r => forall s, get r "resources" PNone = PStr s ->
                     s <> EmptyString -> Full.absorbed (json_loads s) = true) rows
  | Raised e =>
      exists (rows : list rawrec) (v : pyval) (rest : list pyval),
        data = (PDict <$> rows) ++ v :: rest
        /\ Forall (fun r => forall s, get r "resources" PNone = PStr s ->
                     s <> EmptyString -> Full.absorbed (json_loads s) = true) rows
        /\ ((is_dict v = false /\ e = AttributeError)
            \/ exists (r : rawrec) (s : string),
                 v = PDict r /\ get r "resources" PNone = PStr s
                 /\ s <> EmptyString
                 /\ ((json_loads s = Full.RaisesValueError /\ e = ValueError)
                     \/ (json_loads s = Full.RaisesRecursionError
                         /\ e = RecursionError)))
  end.
Proof.
  pose proof (full_filter_cases json_loads data []) as Hcases.
  destruct (Full.filter_records json_loads data []) as [records|e].
  - destruct Hcases as (rows & -> & -> & Hall). exists rows.
    split; [done|]. split; [done|].
    eapply Forall_impl; [exact Hall|]. apply returned_payload_absorbed.
  - destruct Hcases as (rows & v & rest & -> & Hall & Hv).
    exists rows, v, rest. split; [done|]. split.
    { eapply Forall_impl; [exact Hall|]. apply returned_payload_absorbed. }
    destruct Hv as [Hv|(r & -> & Hr)]; [by left|]. right.
    apply full_has_sources_raised in Hr as (s & Hs & Hne & He).
    by exists r, s.
Qed.

(** X26: on a well-formed answer the fetch stage returns exactly the rows
    that have sources, in the order of the answer, provided [json.loads]
    lets no exception escape on the payload texts of the rows.  With a
    credential, when the body decodes to an object whose [data] is a list
    of mappings that is not empty, it then returns those of them that pass
    the filter, prints how many rows it fetched, how many it kept and how
    many it removed, and writes no file.  When the filter loop raises,
    the fetch stage raises the same exception, and writes no file
    either. *)
Theorem fetch_returns_rows_with_sources limit eid raw (result : rawrec)
    (rows : list rawrec) (w : world) :
  API_KEY <> EmptyString ->
  urlopen main_url (request_body limit eid) = HttpResponse raw ->
  json_loads raw = Full.Decoded (PDict result) ->
  result !! "data" = Some (PList (PDict <$> rows)) ->
  rows <> [] ->
  (Forall (fun r => forall s, get r "resources" PNone = PStr s ->
                              Full.absorbed (json_loads s) = true) rows ->
   let records := List.filter (has_sources (Full.loads json_loads)) rows in
   fetch limit eid w
   = (Returned records,
      World (console w
             ++ [ InfoFetching limit; InfoFetched (len rows);
                  InfoFiltered (len records) (len rows - len records) ])
            (files w))
   /\ 0 <= len rows - len records)
  /\ (forall e,
        Full.filter_records json_loads (PDict <$> rows) [] = Raised e ->
        fetch limit eid w
        = (Raised e,
           World (console w ++ [InfoFetching limit; InfoFetched (len rows)])
                 (files w))).
Proof.
  intros Hkey Hnet Hdec Hdata Hne.
  assert (Hloads : loads raw = Some (PDict result))
    by (unfold Full.loads; by rewrite Hdec).
  pose proof (call_object loads API_KEY urlopen "get-by"
                (request_body limit eid) raw result
                (World (console w ++ [InfoFetching limit]) (files w))
                Hkey Hnet Hloads) as Hcall.
  unfold get in Hcall. rewrite Hdata in Hcall. simpl in Hcall.
  rewrite (full_fetch_after_call json_loads API_KEY urlopen limit eid w _ _ Hcall).
  assert (Ht : truthy (PList (PDict <$> rows)) = true) by by destruct rows.
  assert (Hl : len (PDict <$> rows) = len rows)
    by (unfold len; by rewrite length_fmap).
  rewrite Ht. unfold bind, lift, print. simpl py_len. simpl py_iter.
  cbv iota beta. split.
  - intros Habs. rewrite (full_filter_absorbed json_loads rows [] Habs).
    simpl. rewrite !Hl. unfold ret.
    split; [by rewrite <- !app_assoc|].
    pose proof (length_List_filter_le (has_sources loads) rows).
    unfold len. lia.
  - intros e He. rewrite He. simpl. rewrite Hl. by rewrite <- !app_assoc.
Qed.


(** X14: [main] never divides by zero: the shares of the summary are
    printed for a batch that is not empty only.  And it has no handler: an
    exception of the fetch stage leaves [main] as it is, before anything is
    analysed or written. *)
Theorem main_exceptions (w : world) :
  (run w).1 <> Raised ZeroDivisionError
  /\ (forall e, (fetch 5000 PNone w).1 = Raised e ->
        (run w).1 = Raised e
        /\ files (run w).2 = files w
        /\ console (run w).2 = console (fetch 5000 PNone w).2).
Proof.
  destruct (full_fetch_run json_loads API_KEY urlopen 5000 PNone w)
    as (o & msgs & Hf & _ & Hraise).
  split.
  - destruct o as [[|q qs]|e].
    + rewrite full_main_unfold, Hf. done.
    + rewrite (full_main_after_fetch json_loads API_KEY urlopen timestamp
                 disk_accepts encodable w q qs _ Hf). cbv zeta.
      set (a := analyze_data loads (q :: qs)).
      match goal with |- context [Full.save_results _ _ _ _ _ ?w0] => set (w2 := w0) end.
      destruct (full_save_results_run timestamp disk_accepts encodable a
                  (generate_summary_stats a) w2) as (c & ->).
      pose proof (write_rows_cases encodable a []) as Hrows. cbv zeta in Hrows.
      destruct (disk_accepts OUTPUT_DIR); simpl; [|done].
      destruct (disk_accepts (full_data_path timestamp)); simpl; [|done].
      destruct (disk_accepts (summary_path timestamp)); simpl; [|done].
      destruct (disk_accepts (csv_path timestamp)); simpl; [|done].
      by destruct Hrows as [(-> & _)|(-> & _)].
    + rewrite full_main_unfold, Hf. simpl.
      destruct (Hraise e eq_refl) as [->|[->|[->| ->]]]; done.
  - intros e He. rewrite Hf in He. simpl in He. subst o.
    rewrite full_main_unfold, Hf. done.
Qed.

(** X15: the artifacts of a complete run agree with one another and with
    the fetch result: a run that fetched at least one record and returns
    has written a dump, a summary and an export such that the dump and the
    export have one entry per fetched record, in fetch order, the summary
    counts as many records, the two group counts add up to that number,
    and each dumped record keeps its detail entries as
    [sources_summary]. *)
Theorem run_artifacts_agree (w : world) (q : rawrec) (qs : list rawrec) :
  (fetch 5000 PNone w).1 = Returned (q :: qs) ->
  (run w).1 = Returned tt ->
  exists dump s rows,
    files (run w).2
    = files w ++ [ File (full_data_path timestamp) (FullData dump);
                   File (summary_path timestamp) (SummaryData s);
                   File (csv_path timestamp) (CsvData rows) ]
    /\ Forall2 (fun c r => Full.enrich json_loads r = Returned (kept c)) dump (q :: qs)
    /\ sources_summary <$> dump = (sources_details ∘ kept) <$> dump
    /\ csv_id <$> rows = (fun r => get r "id" PNone) <$> (q :: qs)
    /\ csv_total_sources <$> rows = (total_sources ∘ kept) <$> dump
    /\ total_records s = len (q :: qs)
    /\ records_with_brand_in_response s + records_without_brand_in_response s
       = len (q :: qs).
Proof.
  intros Hq Hr.
  pose proof (full_returned_run_files json_loads API_KEY urlopen timestamp
                disk_accepts encodable w q qs Hq Hr) as Hfiles.
  destruct (full_fetch_run json_loads API_KEY urlopen 5000 PNone w)
    as (o & msgs & Hf & Hkept & _).
  rewrite Hf in Hq. simpl in Hq. subst o. specialize (Hkept _ eq_refl).
  set (a := analyze_data loads (q :: qs)) in *.
  exists (map clean a), (generate_summary_stats a), (map csv_line a).
  assert (Ha : a = enrich loads <$> (q :: qs)) by apply analyze_data_map.
  split; [exact Hfiles|]. split; [|split; [|split; [|split; [|split]]]].
  - rewrite Ha. clear -Hkept. revert Hkept. generalize (q :: qs).
    intros l Hkept.
    induction Hkept as [|r l Hr0 _ IH]; simpl; constructor; [|exact IH].
    simpl. by apply full_kept_enriched.
  - clear. induction a as [|r a IH]; [done|]. simpl. f_equal; [|exact IH].
    clear. induction (sources_details r) as [|[u d m] l IH]; [done|].
    simpl. by f_equal.
  - rewrite Ha. clear. induction (q :: qs) as [|r l IH]; [done|]. simpl. by f_equal.
  - clear. induction a as [|r a IH]; [done|]. simpl. by f_equal.
  - change (total_records (generate_summary_stats a)) with (len a).
    rewrite Ha. unfold len. by rewrite length_fmap.
  - simpl. rewrite Ha. unfold len. rewrite length_fmap. simpl. lia.
Qed.

End EscapeFacts.

(** ** Artifact paths *)

Section PathFacts.

Lemma append_nil_l (s : string) : "" +:+ s = s.
Proof. reflexivity. Qed.

Lemma append_cons (c : ascii) (a b : string) :
  String c a +:+ b = String c (a +:+ b).
Proof. reflexivity. Qed.

Lemma length_append (a b : string) :
  String.length (a +:+ b) = (String.length a + String.length b)%nat.
Proof.
  induction a as [|c a IH]; [done|]. rewrite append_cons. simpl. by rewrite IH.
Qed.

Lemma append_cancel_r (a b c : string) : a +:+ c = b +:+ c -> a = b.
Proof.
  revert b. induction a as [|x a IH]; intros [|y b] H.
  - done.
  - apply (f_equal String.length) in H. rewrite !length_append in H.
    simpl in H. lia.
  - apply (f_equal String.length) in H. rewrite !length_append in H.
    simpl in H. lia.
  - rewrite !append_cons in H. injection H as -> H. f_equal. by apply IH.
Qed.

Lemma json_is_not_csv (ts : string) : ts +:+ ".json" <> ts +:+ ".csv".
Proof.
  induction ts as [|c ts IH]; [done|]. rewrite !append_cons.
  intros [= H]. by apply IH.
Qed.

(** X16: the three artifact paths of a run are pairwise different, and
    each is different for different timestamps: no artifact of a run
    replaces another one, and runs stamped differently do not replace each
    other's files. *)
Theorem artifact_paths_distinct (ts ts' : string) :
  full_data_path ts <> summary_path ts'
  /\ summary_path ts <> csv_path ts'
  /\ full_data_path ts <> csv_path ts
  /\ (full_data_path ts = full_data_path ts' -> ts = ts')
  /\ (summary_path ts = summary_path ts' -> ts = ts')
  /\ (csv_path ts = csv_path ts' -> ts = ts').
Proof.
  unfold full_data_path, summary_path, csv_path, OUTPUT_DIR.
  rewrite !append_cons, !append_nil_l.
  split; [discriminate|]. split; [discriminate|].
  split; [|split; [|split]].
  - intros [= H]. by apply json_is_not_csv in H.
  - intros [= H]. by apply append_cancel_r in H.
  - intros [= H]. by apply append_cancel_r in H.
  - intros [= H]. by apply append_cancel_r in H.
Qed.

End PathFacts.

(** ** The aggregator, beyond the claims *)

Section SummaryFacts.

Variable json_loads : string -> option pyval.

Lemma sum_Z_between (f g : enriched -> Z) (c : Z) (rs : list enriched) :
  Forall (fun r => c <= f r <= g r) rs ->
  forall a b, a <= b ->
    a + c * len rs <= fold_left Z.add (map f rs) a
    /\ fold_left Z.add (map f rs) a <= fold_left Z.add (map g rs) b.
Proof.
  induction 1 as [|r rs Hr _ IH]; intros a b Hab; simpl.
  - unfold len. simpl. lia.
  - destruct (IH (a + f r) (b + g r) ltac:(lia)) as [Hlo Hhi].
    split; [|done]. unfold len in *. simpl length. lia.
Qed.

Lemma sum_Q_between (f : enriched -> Q) (rs : list enriched) :
  Forall (fun r => 0 <= f r /\ f r <= 100)%Q rs ->
  forall a : Q,
    (a <= fold_left Qplus (map f rs) a)%Q
    /\ (fold_left Qplus (map f rs) a <= a + 100 * inject_Z (len rs))%Q.
Proof.
  induction 1 as [|r rs [Hlo Hhi] _ IH]; intros a; simpl fold_left.
  - change (inject_Z (len [])) with 0%Q. split; lra.
  - destruct (IH (a + f r)%Q) as [IHlo IHhi].
    assert (Hlen : (inject_Z (len (r :: rs)) == inject_Z (len rs) + 1)%Q).
    { unfold len. simpl length. rewrite Nat2Z.inj_succ, <- Z.add_1_r.
      by rewrite inject_Z_plus. }
    rewrite Hlen. split; lra.
Qed.

Lemma len_pos {A} (x : A) (l : list A) : (0 < inject_Z (len (x :: l)))%Q.
Proof.
  change 0%Q with (inject_Z 0). rewrite <- Zlt_Qlt. unfold len. simpl length. lia.
Qed.

(** The means of a group whose records keep the invariants of C2. *)
Lemma group_means_bounded (g : list enriched) :
  Forall (fun r => 0 <= sources_with_brand r <= total_sources r) g ->
  Forall (fun r => 0 <= brand_mention_percentage r
                   /\ brand_mention_percentage r <= 100)%Q g ->
  (0 <= avg_Z sources_with_brand g)%Q
  /\ (avg_Z sources_with_brand g <= avg_Z total_sources g)%Q
  /\ (0 <= avg_Q brand_mention_percentage g)%Q
  /\ (avg_Q brand_mention_percentage g <= 100)%Q.
Proof.
  intros Hc Hp. destruct g as [|r g]; [by repeat split|].
  pose proof (len_pos r g) as Hlen.
  destruct (sum_Z_between sources_with_brand total_sources 0 _ Hc 0 0 ltac:(lia))
    as [Hlo Hhi].
  destruct (sum_Q_between brand_mention_percentage _ Hp 0%Q) as [Hqlo Hqhi].
  unfold avg_Z, avg_Q, sum_Z, sum_Q.
  set (n := inject_Z (len (r :: g))) in *.
  split; [|split; [|split]].
  - apply Qle_shift_div_l; [done|]. rewrite Qmult_0_l.
    change 0%Q with (inject_Z 0). rewrite <- Zle_Qle. lia.
  - apply Qle_shift_div_r; [done|].
    rewrite Qmult_comm, Qmult_div_r by lra. by rewrite <- Zle_Qle.
  - apply Qle_shift_div_l; [done|]. lra.
  - apply Qle_shift_div_r; [done|]. lra.
Qed.

Lemma enriched_invariants qs :
  Forall (fun r => 0 <= sources_with_brand r <= total_sources r)
         (analyze_data json_loads qs)
  /\ Forall (fun r => 0 <= brand_mention_percentage r
                      /\ brand_mention_percentage r <= 100)%Q
            (analyze_data json_loads qs).
Proof.
  rewrite analyze_data_map. split; apply Forall_map, Forall_forall; intros qe _.
  - apply enriched_count_bounds.
  - change (brand_mention_percentage (enrich json_loads qe))
      with (percentage (sources_with_brand (enrich json_loads qe))
                       (total_sources (enrich json_loads qe))).
    apply percentage_bounds, enriched_count_bounds.
Qed.

Lemma Forall_List_filter {A} (P : A -> Prop) (f : A -> bool) (l : list A) :
  Forall P l -> Forall P (List.filter f l).
Proof.
  induction 1 as [|a l Ha _ IH]; simpl; [done|].
  destruct (f a); [by constructor | done].
Qed.

(** X17: the means of a summary stay within the range of what they
    average.  For the summary of any analysed batch, in each of the two
    groups the mean number of brand sources lies between 0 and the mean
    number of sources, and the mean percentage between 0 and 100. *)
Theorem summary_means_bounded (qs : list rawrec) :
  let s := generate_summary_stats (analyze_data json_loads qs) in
  ((0 <= avg_brand_sources_when_mentioned s)%Q
   /\ (avg_brand_sources_when_mentioned s <= avg_sources_when_mentioned s)%Q
   /\ (0 <= avg_brand_pct_when_mentioned s)%Q
   /\ (avg_brand_pct_when_mentioned s <= 100)%Q)
  /\ ((0 <= avg_brand_sources_when_not_mentioned s)%Q
      /\ (avg_brand_sources_when_not_mentioned s
          <= avg_sources_when_not_mentioned s)%Q
      /\ (0 <= avg_brand_pct_when_not_mentioned s)%Q
      /\ (avg_brand_pct_when_not_mentioned s <= 100)%Q).
Proof.
  intros s. subst s. destruct (enriched_invariants qs) as [Hc Hp].
  split; simpl; apply group_means_bounded;
    unfold mentioned_group, not_mentioned_group; by apply Forall_List_filter.
Qed.

(** X18: in the summary of a batch that came through the dataset filter,
    a group that is not empty has a mean number of sources of at least 1. *)
Theorem filtered_batch_mean_sources (qs : list rawrec) :
  Forall (fun r => has_sources json_loads r = true) qs ->
  let s := generate_summary_stats (analyze_data json_loads qs) in
  (mentioned_group (analyze_data json_loads qs) <> [] ->
   (1 <= avg_sources_when_mentioned s)%Q)
  /\ (not_mentioned_group (analyze_data json_loads qs) <> [] ->
      (1 <= avg_sources_when_not_mentioned s)%Q).
Proof.
  intros Hkept s. subst s.
  assert (Hall : Forall (fun r => 1 <= total_sources r <= total_sources r)
                   (analyze_data json_loads qs)).
  { eapply Forall_impl; [apply (analyze_kept json_loads qs Hkept)|].
    intros r [H _]. simpl. lia. }
  assert (Hgroup : forall g,
            Forall (fun r => 1 <= total_sources r <= total_sources r) g ->
            g <> [] -> (1 <= avg_Z total_sources g)%Q).
  { intros g Hg Hne. destruct g as [|r g]; [done|].
    pose proof (len_pos r g) as Hlen.
    destruct (sum_Z_between total_sources total_sources 1 _ Hg 0 0 ltac:(lia))
      as [Hlo _].
    unfold avg_Z, sum_Z. apply Qle_shift_div_l; [done|]. rewrite Qmult_1_l.
    rewrite <- Zle_Qle. lia. }
  split; intros Hne; simpl; apply Hgroup; try done;
    unfold mentioned_group, not_mentioned_group; by apply Forall_List_filter.
Qed.

End SummaryFacts.

(** ** Sample printing *)

Section SampleFacts.

Variable json_loads : string -> option pyval.
Variable py_str : pyval -> string.

Local Abbreviation has_payload := (fun r : sample_record => truthy (sample_resources_raw r)).

(** The loop of lines 273-288 from any state: it goes on printing the
    records that have a payload until [num_samples] blocks are out. *)
Lemma sample_loop num_samples data : forall (ls : list sample_line) (k : Z),
  0 <= k ->
  fold_left (sample_step py_str num_samples) data (ls, k)
  = (ls ++ (sample_block py_str
              <$> take (Z.to_nat (num_samples - k)) (List.filter has_payload data)),
     k + len (take (Z.to_nat (num_samples - k)) (List.filter has_payload data))).
Proof.
  induction data as [|r data IH]; intros ls k Hk; simpl.
  - rewrite take_nil. unfold len. simpl. by rewrite app_nil_r, Z.add_0_r.
  - unfold sample_step at 2. simpl.
    destruct (truthy (sample_resources_raw r)); simpl.
    + destruct (k <? num_samples) eqn:Hlt.
      * apply Z.ltb_lt in Hlt. rewrite IH by lia.
        replace (Z.to_nat (num_samples - k))
          with (S (Z.to_nat (num_samples - (k + 1)))) by lia.
        simpl. rewrite <- app_assoc. simpl. f_equal.
        unfold len. simpl length. lia.
      * apply Z.ltb_ge in Hlt. rewrite IH by lia.
        replace (Z.to_nat (num_samples - k)) with 0%nat by lia. done.
    + by apply IH.
Qed.

Lemma print_sample_resources_closed data num_samples :
  print_sample_resources py_str data num_samples
  = match take (Z.to_nat num_samples) (List.filter has_payload data) with
    | [] => [SampleNoRecords]
    | shown => sample_block py_str <$> shown
    end.
Proof.
  unfold print_sample_resources. rewrite sample_loop by lia. simpl.
  rewrite Z.sub_0_r.
  destruct (take (Z.to_nat num_samples) (List.filter has_payload data)) as [|r l];
    [done|].
  destruct (0 + len (r :: l) =? 0) eqn:H; [|done].
  apply Z.eqb_eq in H. unfold len in H. simpl length in H. lia.
Qed.

Lemma shown_text_length raw : (String.length (shown_text py_str raw) <= 503)%nat.
Proof.
  unfold shown_text.
  destruct (Z.of_nat (String.length (py_str raw)) >? 500) eqn:H.
  - rewrite length_append. pose proof (substring_length 500 (py_str raw)).
    simpl. lia.
  - rewrite Z.gtb_ltb in H. apply Z.ltb_ge in H. lia.
Qed.



End SampleFacts.

(** ** The API proxy and the file server *)

Section ServerFacts.

Import Server.

Variable API_KEY : string.
Variable urlopen : upstream_request -> upstream.
Variable py_int : string -> Z + string.
Variable py_str_int : Z -> string.
Variable json_error : string -> string.
Variable cwd : string.
Variable isdir : string -> bool.
Variable isfile : string -> bool.
Variable read_file : string -> string + string.
Variable guess_type : string -> option string.

Local Abbreviation post := (do_POST API_KEY urlopen py_int py_str_int json_error).
Local Abbreviation get_file :=
  (do_GET py_str_int cwd isdir isfile read_file guess_type).
Local Abbreviation file_of := (resolve cwd isdir).

Lemma append_assoc (a b c : string) : (a +:+ b) +:+ c = a +:+ (b +:+ c).
Proof.
  induction a as [|x a IH]; [done|]. rewrite !append_cons. by rewrite IH.
Qed.

Lemma prefix_append (a b : string) : String.prefix a (a +:+ b) = true.
Proof.
  induction a as [|x a IH]; [by destruct b|]. rewrite append_cons. simpl.
  by destruct (ascii_dec x x).
Qed.

Lemma prefix_cons a s1 b s2 :
  String.prefix (String a s1) (String b s2)
  = if ascii_dec a b then String.prefix s1 s2 else false.
Proof. reflexivity. Qed.

Lemma startswith_slash_inv s :
  startswith s "/" = true -> exists rest, s = String "/" rest.
Proof.
  unfold startswith. destruct s as [|c s]; [done|]. rewrite prefix_cons.
  destruct (ascii_dec "/" c) as [<-|]; [intros _; by eexists | done].
Qed.

Lemma endswith_append_slash s : endswith (s +:+ "/") "/" = true.
Proof.
  induction s as [|c s IH]; [done|]. rewrite append_cons. simpl.
  rewrite IH. by rewrite orb_true_r.
Qed.

Lemma api_endpoint_slashes path :
  startswith (api_endpoint path) "/" = true
  /\ endswith (api_endpoint path) "/" = true.
Proof.
  unfold api_endpoint. cbv zeta.
  set (e0 := py_replace path "/api" "").
  set (e1 := if negb (startswith e0 "/") then "/" +:+ e0 else e0).
  assert (H1 : startswith e1 "/" = true).
  { subst e1. destruct (startswith e0 "/") eqn:H; cbv [negb]; [done|].
    rewrite append_cons, append_nil_l. unfold startswith. rewrite prefix_cons.
    destruct (ascii_dec "/" "/"); [by destruct e0 | done]. }
  destruct (endswith e1 "/") eqn:H2; cbv [negb]; [by split|].
  split; [|apply endswith_append_slash].
  destruct (startswith_slash_inv _ H1) as (rest & ->).
  rewrite append_cons. unfold startswith. rewrite prefix_cons.
  destruct (ascii_dec "/" "/"); [by destruct (rest +:+ "/") | done].
Qed.

Lemma lstrip_slash_relative s : startswith (lstrip_slash s) "/" = false.
Proof.
  induction s as [|c s IH]; [done|]. simpl.
  destruct (Ascii.eqb c "/") eqn:Hc; [done|].
  unfold startswith. rewrite prefix_cons.
  destruct (ascii_dec "/" c) as [<-|]; [|done].
  by rewrite Ascii.eqb_refl in Hc.
Qed.

Lemma path_join_relative a b :
  startswith b "/" = false -> exists rest, path_join a b = a +:+ rest.
Proof.
  intros Hb. unfold path_join. rewrite Hb.
  destruct (String.eqb a "" || endswith a "/"); by eexists.
Qed.

(** X21: the proxy contacts the backend at most once per request, and
    only for a path that starts with [/api/] and a content length that
    reads as a number.  The request it makes is a POST to the base url
    followed by an endpoint that starts and ends with a slash; it carries
    the server's credential as [x-api-key], and as body the declared number
    of bytes at most, or [{}] when no positive length was declared. *)
Theorem do_POST_backend_requests (r : request) :
  let sent := (post r).2 in
  (sent = []
   \/ exists n, startswith (req_path r) "/api/" = true
        /\ content_length py_int r = inl n
        /\ sent = [proxy_request API_KEY r n])
  /\ Forall (fun req =>
       (exists e, api_url req = API_BASE_URL +:+ e
          /\ startswith e "/" = true /\ endswith e "/" = true)
       /\ method req = "POST"
       /\ request_headers req = [json_type; ("x-api-key", API_KEY)]
       /\ (req_content_length r = None -> data req = "{}")
       /\ (forall n, content_length py_int r = inl n ->
             (String.length (data req) <= Z.to_nat (Z.max 2 n))%nat)) sent.
Proof.
  intros sent. subst sent. unfold do_POST.
  destruct (startswith (req_path r) "/api/") eqn:Hp; simpl;
    [|split; [by left | constructor]].
  unfold handle_api_proxy.
  destruct (content_length py_int r) as [n|msg] eqn:Hn;
    [|split; [by left | constructor]].
  assert (Hsent : (match urlopen (proxy_request API_KEY r n) with
                   | Answered c d =>
                       (reply c [json_type] d, [proxy_request API_KEY r n])
                   | HTTPError c reason eb =>
                       (reply c [json_type]
                          (default (json_error
                                      ("HTTP " +:+ py_str_int c +:+ ": " +:+ reason)) eb),
                        [proxy_request API_KEY r n])
                   | Failed m =>
                       (reply 500 [json_type] (json_error m),
                        [proxy_request API_KEY r n])
                   end).2 = [proxy_request API_KEY r n]).
  { by destruct (urlopen _). }
  cbv zeta. rewrite Hsent. split; [right; by exists n|].
  constructor; [|constructor]. simpl.
  split; [|split; [done|split; [done|split]]].
  - exists (api_endpoint (req_path r)). split; [done|]. apply api_endpoint_slashes.
  - intros Hnone. unfold content_length in Hn. rewrite Hnone in Hn.
    injection Hn as <-. done.
  - intros m [= <-]. unfold read_body. destruct (n >? 0) eqn:Hpos.
    + pose proof (substring_length (Z.to_nat n) (req_rfile r)). lia.
    + simpl. lia.
Qed.

(** X22: what the browser gets back from a POST.  Every response ends
    with the three CORS headers and carries no [x-api-key] header; a path
    outside [/api/] is answered 405 without the backend being contacted;
    a response to a path under [/api/] is typed [application/json]; and an
    answer of the backend is passed on with its status code and its body
    unchanged. *)
Theorem do_POST_responses (r : request) :
  let resp := (post r).1 in
  cors_headers `suffix_of` resp_headers resp
  /\ Forall (fun h => h.1 <> "x-api-key") (resp_headers resp)
  /\ (startswith (req_path r) "/api/" = false ->
      post r = (reply 405 [("Content-Type", "text/plain")] "Method not allowed", []))
  /\ (startswith (req_path r) "/api/" = true ->
      resp_headers resp = json_type :: cors_headers)
  /\ (forall n c d,
        startswith (req_path r) "/api/" = true ->
        content_length py_int r = inl n ->
        urlopen (proxy_request API_KEY r n) = Answered c d ->
        resp_status resp = c /\ resp_body resp = d).
Proof.
  intros resp. subst resp. unfold do_POST.
  destruct (startswith (req_path r) "/api/") eqn:Hp.
  - unfold handle_api_proxy.
    assert (Hh : forall c b, resp_headers (reply c [json_type] b)
                             = json_type :: cors_headers) by done.
    destruct (content_length py_int r) as [n|msg] eqn:Hn.
    + cbv zeta.
      destruct (urlopen (proxy_request API_KEY r n)) as [c d|c reason eb|m] eqn:Hu;
        simpl;
        (split; [by apply (suffix_cons_r _ _ json_type)|]);
        (split; [by repeat constructor|]);
        (split; [done|]); (split; [done|]);
        intros n' c' d' _ [= <-] Hu'; rewrite Hu in Hu'; try discriminate.
      by injection Hu' as <- <-.
    + simpl. split; [by apply (suffix_cons_r _ _ json_type)|].
      split; [by repeat constructor|]. split; [done|]. split; [done|].
      intros n c d _. discriminate.
  - simpl. split; [by apply (suffix_cons_r _ _ ("Content-Type", "text/plain"))|].
    split; [by repeat constructor|]. split; [done|]. split; [done|].
    intros n c d. discriminate.
Qed.

End ServerFacts.

Section FileServerFacts.

Import Server.

Variable py_str_int : Z -> string.
Variable cwd : string.
Variable isdir : string -> bool.
Variable isfile : string -> bool.
Variable read_file : string -> string + string.
Variable guess_type : string -> option string.

Local Abbreviation get_file :=
  (do_GET py_str_int cwd isdir isfile read_file guess_type).
Local Abbreviation file_of := (resolve cwd isdir).

Lemma before_query_cons c s :
  before_query (String c s)
  = if Ascii.eqb c "?" then EmptyString else String c (before_query s).
Proof. reflexivity. Qed.

Lemma before_query_append p q :
  before_query p = p -> before_query (p +:+ "?" +:+ q) = p.
Proof.
  induction p as [|c p IH]; intros Hp.
  - rewrite append_nil_l, append_cons. reflexivity.
  - rewrite append_cons, before_query_cons. rewrite before_query_cons in Hp.
    destruct (Ascii.eqb c "?"); [done|]. injection Hp as Hp. by rewrite IH.
Qed.

(** X23: the query string of a request path plays no part in what is
    served: a path followed by [?] and anything is answered as the path
    alone; and the root path is answered as [/index.html]. *)
Theorem do_GET_ignores_query (p q : string) :
  before_query p = p ->
  file_of (p +:+ "?" +:+ q) = file_of p
  /\ get_file (p +:+ "?" +:+ q) = get_file p
  /\ get_file "/" = get_file "/index.html".
Proof.
  intros Hp.
  assert (Hf : file_of (p +:+ "?" +:+ q) = file_of p).
  { unfold resolve. by rewrite before_query_append, Hp. }
  split; [done|]. split; [|done]. unfold do_GET. by rewrite Hf.
Qed.

(** X24: the file a request path stands for is named by the served
    directory followed by more text: leading slashes are stripped before
    the path is joined, so a request path is never taken as an absolute
    file name in place of the served directory. *)
Theorem resolve_extends_cwd (p : string) :
  (exists rest, resolve cwd isdir p = cwd +:+ rest)
  /\ String.prefix cwd (resolve cwd isdir p) = true.
Proof.
  assert (H : exists rest, file_of p = cwd +:+ rest).
  { unfold resolve. cbv zeta.
    match goal with |- context [path_join cwd (lstrip_slash ?s)] =>
      destruct (path_join_relative cwd (lstrip_slash s)
                  (lstrip_slash_relative s)) as (rest & ->)
    end.
    destruct (isdir (cwd +:+ rest)); [|by eexists].
    destruct (path_join_relative (cwd +:+ rest) "index.html" eq_refl)
      as (rest' & ->).
    rewrite append_assoc. by eexists. }
  split; [done|]. destruct H as (rest & ->). apply prefix_append.
Qed.

(** X25: what a GET is answered with.  A response of the handler's own
    has status 200, and then the resolved path is a regular file, the body
    is what reading it gave, [Content-Length] is the length of the body
    and [Content-Type] the guessed type, [application/octet-stream] when
    there is no guess, followed by the CORS headers.  Otherwise the answer
    is error 404, exactly when the resolved path is not a regular file, or
    error 500 when reading the file failed. *)
Theorem do_GET_outcomes (p : string) :
  match get_file p with
  | Served resp =>
      resp_status resp = 200
      /\ isfile (file_of p) = true
      /\ read_file (file_of p) = inl (resp_body resp)
      /\ resp_headers resp
         = [ ("Content-Type",
              match guess_type (file_of p) with
              | Some t => t
              | None => "application/octet-stream"
              end);
             ("Content-Length",
              py_str_int (Z.of_nat (String.length (resp_body resp)))) ]
           ++ cors_headers
  | SendError code message =>
      (code = 404 /\ isfile (file_of p) = false)
      \/ (code = 500 /\ isfile (file_of p) = true
          /\ exists e, read_file (file_of p) = inr e)
  end.
Proof.
  unfold do_GET. cbv zeta.
  destruct (isfile (file_of p)) eqn:Hfile; cbv [negb]; [|by left].
  destruct (read_file (file_of p)) as [content|e] eqn:Hread.
  - simpl. by repeat split.
  - right. split; [done|]. split; [done|]. by exists e.
Qed.

End FileServerFacts.

(** ** The further properties at concrete inputs *)

(** The page of three rows, filtered once and again. *)
Lemma filter_records_idempotent_witness :
  filter_records Sample.table_loads Cases.three_rows []
  = Returned [Sample.qe_wrapped; Sample.qe_bare]
  /\ filter_records Sample.table_loads
       (PDict <$> [Sample.qe_wrapped; Sample.qe_bare]) []
     = Returned [Sample.qe_wrapped; Sample.qe_bare].
Proof.
  assert (H : filter_records Sample.table_loads Cases.three_rows []
              = Returned [Sample.qe_wrapped; Sample.qe_bare])
    by (vm_compute; reflexivity).
  split; [exact H|].
  exact (proj1 (filter_records_idempotent Sample.table_loads _ _ H)).
Defined.

(** A payload that is the text of an object without [resources]. *)
Lemma string_payload_parsed_as_decoded_witness :
  Sample.doc_no_rows <> EmptyString
  /\ Sample.table_loads Sample.doc_no_rows = Some Sample.page_no_rows
  /\ parse_resources Sample.table_loads (PStr Sample.doc_no_rows)
     = parse_resources Sample.table_loads Sample.page_no_rows.
Proof.
  assert (Hs : Sample.doc_no_rows <> EmptyString) by discriminate.
  assert (Hd : Sample.table_loads Sample.doc_no_rows = Some Sample.page_no_rows)
    by (vm_compute; reflexivity).
  split; [exact Hs|]. split; [exact Hd|].
  destruct (string_payload_parsed_as_decoded Sample.table_loads _ _ Hs Hd)
    as (_ & H & _).
  apply H; vm_compute; reflexivity.
Defined.

(** The answer [{"data": []}] unwrapped. *)
Lemma api_call_unwraps_data_witness :
  api_call Sample.table_loads "k" (Sample.net_serving Sample.doc_no_rows)
    "get-by" main_body fresh
  = (Returned (PList []), fresh).
Proof.
  assert (Hk : "k" <> EmptyString) by discriminate.
  assert (Hd : Sample.table_loads Sample.doc_no_rows
               = Some (PDict (<["data" := PList []]> ∅)))
    by (vm_compute; reflexivity).
  exact (api_call_unwraps_data Sample.table_loads "k"
           (Sample.net_serving Sample.doc_no_rows) "get-by" main_body
           Sample.doc_no_rows _ fresh Hk eq_refl Hd).
Defined.

(** A 403 with the body [denied]. *)
Lemma api_call_error_excerpt_witness :
  exists excerpt,
    api_call Sample.table_loads "k" Sample.net_refusing "get-by" main_body fresh
    = (Returned PNone,
       World ([] ++ [WarnHttpError 403 "Forbidden"; WarnResponse excerpt]) [])
    /\ (String.length excerpt <= 500)%nat
    /\ String.prefix excerpt "denied" = true
    /\ ((String.length "denied" <= 500)%nat -> excerpt = "denied").
Proof.
  assert (Hk : "k" <> EmptyString) by discriminate.
  exact (api_call_error_excerpt Sample.table_loads "k" Sample.net_refusing
           "get-by" main_body 403 "Forbidden" "denied" fresh Hk eq_refl).
Defined.

(** An execution id of 0 is not sent. *)
Lemma falsy_execution_id_not_sent_witness :
  truthy (PInt 0) = false
  /\ fetch_queries_execution_data Sample.table_loads "k" Sample.net_down
       100 (PInt 0) fresh
     = fetch_queries_execution_data Sample.table_loads "k" Sample.net_down
         100 PNone fresh.
Proof.
  split; [reflexivity|].
  destruct (falsy_execution_id_not_sent Sample.table_loads "k" Sample.net_down
              100 (PInt 0) fresh) as (_ & _ & _ & _ & _ & _ & H).
  apply H. reflexivity.
Defined.

(** The answer [{"error": "denied"}], an object without [data]. *)
Lemma non_list_answer_raises_witness :
  Cases.error_loads Cases.doc_error = Some (PDict Cases.page_error)
  /\ (main Cases.error_loads "k" (Sample.net_serving Cases.doc_error)
        Sample.stamp Sample.disk_ok fresh).1
     = Raised AttributeError
  /\ files (main Cases.error_loads "k" (Sample.net_serving Cases.doc_error)
              Sample.stamp Sample.disk_ok fresh).2 = [].
Proof.
  assert (Hk : "k" <> EmptyString) by discriminate.
  assert (Hd : Cases.error_loads Cases.doc_error = Some (PDict Cases.page_error))
    by (vm_compute; reflexivity).
  assert (Ht : truthy (get Cases.page_error "data" (PDict Cases.page_error)) = true)
    by (vm_compute; reflexivity).
  assert (Hl : forall l, get Cases.page_error "data" (PDict Cases.page_error)
                         <> PList l).
  { intros l H. vm_compute in H. discriminate. }
  destruct (non_list_answer_raises Cases.error_loads "k"
              (Sample.net_serving Cases.doc_error) Sample.stamp Sample.disk_ok
              Cases.doc_error Cases.page_error fresh Hk eq_refl Hd Ht Hl)
    as (_ & Hrun & Hfiles).
  split; [exact Hd|]. split; [exact Hrun | exact Hfiles].
Defined.

(** The two rows the filter keeps of the page of three. *)
Lemma filtered_batch_mean_sources_witness :
  Forall (fun r => has_sources Sample.table_loads r = true)
         [Sample.qe_wrapped; Sample.qe_bare]
  /\ (1 <= avg_sources_when_mentioned
             (generate_summary_stats
                (analyze_data Sample.table_loads
                   [Sample.qe_wrapped; Sample.qe_bare])))%Q.
Proof.
  assert (Hk : Forall (fun r => has_sources Sample.table_loads r = true)
                 [Sample.qe_wrapped; Sample.qe_bare]).
  { repeat constructor; vm_compute; reflexivity. }
  split; [exact Hk|].
  destruct (filtered_batch_mean_sources Sample.table_loads _ Hk) as [H _].
  apply H. vm_compute. discriminate.
Defined.


(** [/index.html?v=1] on the site that holds [index.html] only. *)
Lemma do_GET_ignores_query_witness :
  Server.before_query "/index.html" = "/index.html"
  /\ Server.do_GET Cases.site_str_int Cases.site_cwd Cases.site_isdir
       Cases.site_isfile Cases.site_read Cases.site_type
       ("/index.html" +:+ "?" +:+ "v=1")
     = Server.do_GET Cases.site_str_int Cases.site_cwd Cases.site_isdir
         Cases.site_isfile Cases.site_read Cases.site_type "/index.html".
Proof.
  assert (Hq : Server.before_query "/index.html" = "/index.html") by reflexivity.
  split; [exact Hq|].
  exact (proj1 (proj2 (do_GET_ignores_query Cases.site_str_int Cases.site_cwd
                         Cases.site_isdir Cases.site_isfile Cases.site_read
                         Cases.site_type "/index.html" "v=1" Hq))).
Defined.

(** ** Records without payload *)

Section FetchSuccess.

Variable json_loads : string -> option pyval.

(** X27: a record without usable payload.  When the [resources] field
    is missing, null or otherwise falsy, the record is enriched with no
    source at all, a percentage of 0 and no detail entry, and the dataset
    filter drops it. *)
Theorem falsy_payload_enriches_to_nothing (qe : rawrec) :
  truthy (get qe "resources" PNone) = false ->
  let r := enrich json_loads qe in
  resources_parsed r = []
  /\ total_sources r = 0
  /\ sources_with_brand r = 0
  /\ sources_details r = []
  /\ brand_mention_percentage r = 0%Q
  /\ has_sources json_loads qe = false.
Proof.
  intros Ht r. subst r. unfold enrich, has_sources.
  rewrite Ht, (parse_resources_falsy json_loads _ Ht). simpl. done.
Qed.

End FetchSuccess.

(** The row with a null payload. *)
Lemma falsy_payload_enriches_to_nothing_witness :
  truthy (get Sample.qe_null "resources" PNone) = false
  /\ total_sources (enrich Sample.table_loads Sample.qe_null) = 0
  /\ has_sources Sample.table_loads Sample.qe_null = false.
Proof.
  assert (Ht : truthy (get Sample.qe_null "resources" PNone) = false)
    by (vm_compute; reflexivity).
  destruct (falsy_payload_enriches_to_nothing Sample.table_loads _ Ht)
    as (_ & H1 & _ & _ & _ & H2).
  split; [exact Ht|]. split; [exact H1 | exact H2].
Defined.

(** A POST to [/api/get-by], answered 200 by the backend. *)
Lemma do_POST_backend_requests_witness :
  Forall (fun req =>
            Server.method req = "POST"
            /\ Server.request_headers req
               = [Server.json_type; ("x-api-key", "k")])
         (Server.do_POST "k" Cases.backend_ok Cases.int_two Cases.no_str_int
            Cases.dumps_error Cases.post_get_by).2.
Proof.
  destruct (do_POST_backend_requests "k" Cases.backend_ok Cases.int_two
              Cases.no_str_int Cases.dumps_error Cases.post_get_by) as [_ H].
  eapply Forall_impl; [exact H|]. intros req (_ & Hm & Hh & _). by split.
Defined.

Lemma do_POST_responses_witness :
  Server.startswith (Server.req_path Cases.post_get_by) "/api/" = true
  /\ Server.content_length Cases.int_two Cases.post_get_by = inl 2
  /\ Server.resp_status
       (Server.do_POST "k" Cases.backend_ok Cases.int_two Cases.no_str_int
          Cases.dumps_error Cases.post_get_by).1 = 200
  /\ Server.resp_body
       (Server.do_POST "k" Cases.backend_ok Cases.int_two Cases.no_str_int
          Cases.dumps_error Cases.post_get_by).1 = "{}".
Proof.
  assert (Hp : Server.startswith (Server.req_path Cases.post_get_by) "/api/" = true)
    by (vm_compute; reflexivity).
  assert (Hn : Server.content_length Cases.int_two Cases.post_get_by = inl 2)
    by (vm_compute; reflexivity).
  destruct (do_POST_responses "k" Cases.backend_ok Cases.int_two
              Cases.no_str_int Cases.dumps_error Cases.post_get_by)
    as (_ & _ & _ & _ & H).
  destruct (H 2 200 "{}" Hp Hn eq_refl) as [Hs Hb].
  split; [exact Hp|]. split; [exact Hn|]. split; [exact Hs | exact Hb].
Defined.

(** A complete run on the page of three rows. *)
Lemma run_artifacts_agree_witness :
  (Full.fetch_queries_execution_data Cases.full_loads "k"
     (Sample.net_serving Sample.doc_three_rows) 5000 PNone fresh).1
  = Returned [Sample.qe_wrapped; Sample.qe_bare]
  /\ (Full.main Cases.full_loads "k" (Sample.net_serving Sample.doc_three_rows)
        Sample.stamp Sample.disk_ok Cases.utf8 fresh).1 = Returned tt
  /\ exists dump s rows,
       files (Full.main Cases.full_loads "k"
                (Sample.net_serving Sample.doc_three_rows)
                Sample.stamp Sample.disk_ok Cases.utf8 fresh).2
       = [] ++ [ File (full_data_path Sample.stamp) (FullData dump);
                 File (summary_path Sample.stamp) (SummaryData s);
                 File (csv_path Sample.stamp) (CsvData rows) ]
       /\ total_records s = 2.
Proof.
  assert (Hf : (Full.fetch_queries_execution_data Cases.full_loads "k"
                  (Sample.net_serving Sample.doc_three_rows) 5000 PNone fresh).1
               = Returned [Sample.qe_wrapped; Sample.qe_bare])
    by (vm_compute; reflexivity).
  assert (Hr : (Full.main Cases.full_loads "k"
                  (Sample.net_serving Sample.doc_three_rows)
                  Sample.stamp Sample.disk_ok Cases.utf8 fresh).1 = Returned tt)
    by (vm_compute; reflexivity).
  split; [exact Hf|]. split; [exact Hr|].
  destruct (run_artifacts_agree Cases.full_loads "k"
              (Sample.net_serving Sample.doc_three_rows) Sample.stamp
              Sample.disk_ok Cases.utf8 fresh _ _ Hf Hr)
    as (dump & s & rows & Hfiles & _ & _ & _ & _ & Htotal & _).
  exists dump, s, rows. split; [exact Hfiles | exact Htotal].
Defined.

(** The page whose second row has the long literal as payload: the
    filter loop raises [ValueError], and so does the fetch stage. *)
Lemma fetch_returns_rows_with_sources_witness :
  Cases.full_loads Cases.doc_long_number = Full.Decoded Cases.page_long_number
  /\ Full.filter_records Cases.full_loads
       (PDict <$> [Sample.qe_wrapped; Cases.qe_long_number]) []
     = Raised ValueError
  /\ (Full.fetch_queries_execution_data Cases.full_loads "k"
        (Sample.net_serving Cases.doc_long_number) 5000 PNone fresh).1
     = Raised ValueError.
Proof.
  assert (Hk : "k" <> EmptyString) by discriminate.
  assert (Hd : Cases.full_loads Cases.doc_long_number
               = Full.Decoded (PDict (<["data" := PList (PDict
                   <$> [Sample.qe_wrapped; Cases.qe_long_number])]> ∅)))
    by (vm_compute; reflexivity).
  assert (Hdata : (<["data" := PList (PDict
                   <$> [Sample.qe_wrapped; Cases.qe_long_number])]> ∅
                   : rawrec) !! "data"
                  = Some (PList (PDict
                   <$> [Sample.qe_wrapped; Cases.qe_long_number])))
    by (vm_compute; reflexivity).
  assert (Hne : [Sample.qe_wrapped; Cases.qe_long_number] <> [])
    by discriminate.
  assert (Hraise : Full.filter_records Cases.full_loads
                     (PDict <$> [Sample.qe_wrapped; Cases.qe_long_number]) []
                   = Raised ValueError) by (vm_compute; reflexivity).
  destruct (fetch_returns_rows_with_sources Cases.full_loads "k"
              (Sample.net_serving Cases.doc_long_number) 5000 PNone
              Cases.doc_long_number _ _ fresh Hk eq_refl Hd Hdata Hne) as [_ H].
  split; [exact Hd|]. split; [exact Hraise|].
  by rewrite (H _ Hraise).
Defined.
